(** * Tianshui remote-sensing platform: verification of selected properties

    A shallow embedding of the parts of the repository that the stated
    properties are about.

    Part I, the model:
    - [Upload]        environment/serializers.py, upload validation
    - [NumPy]         the array library as the engines use it
    - [EngineA]       environment/ecological_indices.py
    - [EngineB]       environment/gdal_ecological_indices.py
    - [LandUse]       environment/gdal_land_use_analysis.py, diversity and
                      cohesion
    - [Django], [Models]   the persistence layer and environment/models.py
    - [Orchestrator]  environment/tasks.py and the task status action of
                      environment/views.py
    - [Accounts]      users/models.py and users/views.py
    - [LandUseStress], [LandUseStructure]   the stress indices, the land-use
                      statistics and the fragmentation index of
                      environment/gdal_land_use_analysis.py
    - [IndexViews]    the statistics action of environment/views.py

    Part II, the properties, one module of lemmas per subject.

    Numeric conventions.  A raster is the flattened list of its pixels.
    Pixel values of the two index engines are numpy floats; they are modelled
    by [npfloat]: an exact rational, one of the two infinities, or NaN.
    Rounding and overflow of binary floating point are not modelled.  The
    land-use metrics use the natural logarithm and the square root and are
    stated over the real numbers.  Libraries at the boundary (the PCA of the
    statistical library, the connected-component labelling) are parameters
    of the functions that call them. *)

From Stdlib Require Import String Ascii.
From Stdlib Require Import List Bool Arith ZArith QArith Qminmax Qabs Lia Lqa.
From Stdlib Require Import Reals Lra.
Import ListNotations.

Set Implicit Arguments.

(* ================================================================== *)
(** * Upload validation ([RemoteSensingImageUploadSerializer]) *)
(* ================================================================== *)

Module Upload.

Local Open Scope string_scope.

(** ** Python string primitives *)

(** [str.lower] on the ASCII range: the letters A..Z move to a..z and every
    other byte is kept. *)
Definition lower_ascii (c : ascii) : ascii :=
  let n := nat_of_ascii c in
  if ((65 <=? n) && (n <=? 90))%nat then ascii_of_nat (n + 32) else c.

Fixpoint lower (s : string) : string :=
  match s with
  | EmptyString => EmptyString
  | String c s' => String (lower_ascii c) (lower s')
  end.

(** [s.endswith(suffix)] *)
Definition endswith (s suffix : string) : bool :=
  let n := String.length s in
  let k := String.length suffix in
  ((k <=? n)%nat && String.eqb (substring (n - k) k s) suffix)%bool.

(** ** The uploaded file and the validator *)

(** What the validator reads of an uploaded file: [value.name] and
    [value.size] (a byte count). *)
Record UploadedFile : Type := mkFile {
  name : string;
  size : Z
}.

Inductive validation_message : Type :=
| UnsupportedFormat   (* "不支持的文件格式。支持的格式: ..." *)
| FileTooLarge.       (* "文件大小不能超过50MB" *)

(** [raise serializers.ValidationError(...)] is [inr]; [return value] is [inl]. *)
Definition validated := (UploadedFile + validation_message)%type.

Definition allowed_extensions : list string :=
  [".tif"; ".tiff"; ".img"; ".hdf"; ".nc"; ".zip"].

Definition size_limit : Z := 50 * 1024 * 1024.

Definition validate_file_path (value : UploadedFile) : validated :=
  let file_extension := lower (name value) in
  if negb (existsb (fun ext => endswith file_extension ext) allowed_extensions)
  then inr UnsupportedFormat
  else if (size value >? size_limit)%Z
       then inr FileTooLarge
       else inl value.



Definition accepted (value : UploadedFile) : Prop :=
  validate_file_path value = inl value.

Definition rejected (value : UploadedFile) : Prop :=
  exists m, validate_file_path value = inr m.



End Upload.

(* ================================================================== *)
(** * numpy values and arrays *)
(* ================================================================== *)

Module NumPy.

Local Open Scope Q_scope.

(** A numpy float: an exact rational, an infinity, or NaN. *)
Inductive npfloat : Type :=
| NaN
| NegInf
| Fin (q : Q)
| PosInf.

(** A flattened raster (one band, or one computed index). *)
Definition raster := list npfloat.

Definition Qsign_inf (q : Q) : npfloat :=
  if Qle_bool q 0 then (if Qle_bool 0 q then NaN else NegInf) else PosInf.

Definition np_neg (a : npfloat) : npfloat :=
  match a with
  | NaN => NaN
  | NegInf => PosInf
  | Fin x => Fin (- x)
  | PosInf => NegInf
  end.

Definition np_add (a b : npfloat) : npfloat :=
  match a, b with
  | NaN, _ | _, NaN => NaN
  | Fin x, Fin y => Fin (x + y)
  | PosInf, NegInf | NegInf, PosInf => NaN
  | PosInf, _ | _, PosInf => PosInf
  | NegInf, _ | _, NegInf => NegInf
  end.

Definition np_sub (a b : npfloat) : npfloat := np_add a (np_neg b).

Definition np_mul (a b : npfloat) : npfloat :=
  match a, b with
  | NaN, _ | _, NaN => NaN
  | Fin x, Fin y => Fin (x * y)
  | Fin x, PosInf | PosInf, Fin x => Qsign_inf x
  | Fin x, NegInf | NegInf, Fin x => np_neg (Qsign_inf x)
  | PosInf, PosInf | NegInf, NegInf => PosInf
  | PosInf, NegInf | NegInf, PosInf => NegInf
  end.

(** Division as numpy performs it: a zero divisor yields an infinity (or
    NaN for 0/0) with a warning, never an exception. *)
Definition np_div (a b : npfloat) : npfloat :=
  match a, b with
  | NaN, _ | _, NaN => NaN
  | Fin x, Fin y => if Qeq_bool y 0 then Qsign_inf x else Fin (x / y)
  | Fin _, PosInf | Fin _, NegInf => Fin 0
  | PosInf, Fin y => if Qle_bool 0 y then PosInf else NegInf
  | NegInf, Fin y => if Qle_bool 0 y then NegInf else PosInf
  | PosInf, _ | NegInf, _ => NaN
  end.

Definition np_isnan (a : npfloat) : bool :=
  match a with NaN => true | _ => false end.

Definition np_isfinite (a : npfloat) : bool :=
  match a with Fin _ => true | _ => false end.

(** [a == 0] *)
Definition np_eq0 (a : npfloat) : bool :=
  match a with Fin x => Qeq_bool x 0 | _ => false end.

(** [np.clip(a, lo, hi)], that is [minimum(maximum(a, lo), hi)]; NaN stays NaN. *)
Definition np_clip (lo hi : Q) (a : npfloat) : npfloat :=
  match a with
  | NaN => NaN
  | NegInf => Fin (Qmin lo hi)
  | Fin x => Fin (Qmin (Qmax x lo) hi)
  | PosInf => Fin hi
  end.

(** [a <= b] on non-NaN values (used by [np.min], [np.nanmin] and the like). *)
Definition np_leb (a b : npfloat) : bool :=
  match a, b with
  | NaN, _ | _, NaN => false
  | NegInf, _ => true
  | _, PosInf => true
  | Fin x, Fin y => Qle_bool x y
  | _, _ => false
  end.

(** ** Elementwise operations on arrays of one shape *)

Definition map2 {A B C} (f : A -> B -> C) (xs : list A) (ys : list B) : list C :=
  map (fun p => f (fst p) (snd p)) (combine xs ys).

Definition arr_add : raster -> raster -> raster := map2 np_add.
Definition arr_sub : raster -> raster -> raster := map2 np_sub.
Definition arr_div : raster -> raster -> raster := map2 np_div.
Definition arr_scale (c : Q) : raster -> raster := map (np_mul (Fin c)).
Definition arr_clip (lo hi : Q) : raster -> raster := map (np_clip lo hi).

(** [a[cond(a)] = v] *)
Definition set_where {A} (cond : A -> bool) (v : A) (a : list A) : list A :=
  map (fun x => if cond x then v else x) a.

(** Boolean indexing [a[mask]]. *)
Fixpoint select {A} (mask : list bool) (a : list A) : list A :=
  match mask, a with
  | m :: mask', x :: a' => if m then x :: select mask' a' else select mask' a'
  | _, _ => []
  end.

(** Masked assignment [a[mask] = vals]. *)
Fixpoint assign_masked {A} (mask : list bool) (a vals : list A) : list A :=
  match mask, a with
  | m :: mask', x :: a' =>
      if m then
        match vals with
        | v :: vals' => v :: assign_masked mask' a' vals'
        | [] => x :: assign_masked mask' a' []
        end
      else x :: assign_masked mask' a' vals
  | _, _ => a
  end.

(** [np.sum(mask)] for a boolean mask. *)
Definition count_true (mask : list bool) : nat :=
  length (filter (fun b => b) mask).

(** Masked assignment as a statement that can fail: numpy raises
    [ValueError] when the number of values differs from the number of set
    mask entries. *)
Definition assign_masked_checked {A} (mask : list bool) (a vals : list A)
  : option (list A) :=
  if (length vals =? count_true mask)%nat then Some (assign_masked mask a vals)
  else None.

(** [np.full(shape, v)] for a shape of [n] pixels. *)
Definition full (n : nat) (v : npfloat) : raster := repeat v n.

(** The literal [1e-10]. *)
Definition tiny : Q := 1 # 10000000000.

(** [np.column_stack(columns)]: the matrix whose rows are the pixels.
    numpy raises [ValueError] on an empty list of columns; the callers
    below test for it before they build the matrix. *)
Fixpoint column_stack (columns : list raster) : list (list npfloat) :=
  match columns with
  | [] => []
  | [c] => map (fun x => [x]) c
  | c :: cs => map2 cons c (column_stack cs)
  end.

(** [np.dot(matrix, coefficients)], one row at a time. *)
Definition dot_row (row : list npfloat) (coefficients : list Q) : npfloat :=
  fold_left np_add (map2 np_mul row (map Fin coefficients)) (Fin 0).

Definition dot (matrix : list (list npfloat)) (coefficients : list Q) : raster :=
  map (fun row => dot_row row coefficients) matrix.

(** ** Reductions *)

(** [np.minimum] and [np.maximum]: NaN propagates. *)
Definition np_minimum (a b : npfloat) : npfloat :=
  match a, b with
  | NaN, _ | _, NaN => NaN
  | _, _ => if np_leb a b then a else b
  end.

Definition np_maximum (a b : npfloat) : npfloat :=
  match a, b with
  | NaN, _ | _, NaN => NaN
  | _, _ => if np_leb a b then b else a
  end.

(** [np.fmin] and [np.fmax]: NaN is ignored when the other operand is a number. *)
Definition np_fmin (a b : npfloat) : npfloat :=
  match a, b with
  | NaN, _ => b
  | _, NaN => a
  | _, _ => if np_leb a b then a else b
  end.

Definition np_fmax (a b : npfloat) : npfloat :=
  match a, b with
  | NaN, _ => b
  | _, NaN => a
  | _, _ => if np_leb a b then b else a
  end.

(** [np.min(a)] and [np.max(a)] of a non-empty array [x :: xs]. *)
Definition arr_min (x : npfloat) (xs : raster) : npfloat := fold_left np_minimum xs x.
Definition arr_max (x : npfloat) (xs : raster) : npfloat := fold_left np_maximum xs x.

(** [np.nanmin(a)] and [np.nanmax(a)]: NaN entries are skipped; an array
    with no number in it gives NaN (and a warning). *)
Definition nanmin (a : raster) : npfloat := fold_right np_fmin NaN a.
Definition nanmax (a : raster) : npfloat := fold_right np_fmax NaN a.

(** Min-max normalisation of one value: [(x - lo) / (hi - lo)]. *)
Definition normalize (lo hi x : npfloat) : npfloat :=
  np_div (np_sub x lo) (np_sub hi lo).

(** ** The statistical library at the boundary *)

(** What the callers read of
    [PCA(n_components=4).fit_transform(StandardScaler().fit_transform(X))]:
    the first column of the transformed data, [explained_variance_ratio_]
    and [components_]. *)
Record pca_fit : Type := mkPcaFit {
  scores_pc1 : raster;
  explained_variance_ratio : list npfloat;
  components : list (list npfloat)
}.

(** The library call itself is a parameter of the engines: it maps the
    data matrix (one row per sample) to the fit, or to [None] when the
    library raises (too few samples, non-finite input). *)
Definition pca_oracle : Type := list (list npfloat) -> option pca_fit.

End NumPy.

(* ================================================================== *)
(** * Engine A ([EcologicalIndexCalculator], ecological_indices.py) *)
(* ================================================================== *)

Module EngineA.
Import NumPy.
Local Open Scope Q_scope.

(** [self.bands] is the band stack read from the dataset, 0-based:
    0 Blue, 1 Green, 2 Red, 3 NIR, 4 SWIR1, 5 SWIR2.  Indexing past the
    stack raises [IndexError], which every method catches, logs and turns
    into [None]. *)

Definition calculate_ndvi (bands : list raster) : option raster :=
  match nth_error bands 2, nth_error bands 3 with
  | Some red_band, Some nir_band =>
      let denominator := arr_add nir_band red_band in
      let denominator := set_where np_eq0 (Fin tiny) denominator in
      let ndvi := arr_div (arr_sub nir_band red_band) denominator in
      Some (arr_clip (-1 # 1) 1 ndvi)
  | _, _ => None
  end.

Definition calculate_ndwi (bands : list raster) : option raster :=
  match nth_error bands 1, nth_error bands 3 with
  | Some green_band, Some nir_band =>
      let denominator := arr_add green_band nir_band in
      let denominator := set_where np_eq0 (Fin tiny) denominator in
      let ndwi := arr_div (arr_sub green_band nir_band) denominator in
      Some (arr_clip (-1 # 1) 1 ndwi)
  | _, _ => None
  end.

Definition calculate_ndbi (bands : list raster) : option raster :=
  match nth_error bands 3, nth_error bands 4 with
  | Some nir_band, Some swir_band =>
      let denominator := arr_add nir_band swir_band in
      let denominator := set_where np_eq0 (Fin tiny) denominator in
      let ndbi := arr_div (arr_sub swir_band nir_band) denominator in
      Some (arr_clip (-1 # 1) 1 ndbi)
  | _, _ => None
  end.

Definition calculate_ndsi (bands : list raster) : option raster :=
  match nth_error bands 1, nth_error bands 4 with
  | Some green_band, Some swir_band =>
      let denominator := arr_add green_band swir_band in
      let denominator := set_where np_eq0 (Fin tiny) denominator in
      let ndsi := arr_div (arr_sub green_band swir_band) denominator in
      Some (arr_clip (-1 # 1) 1 ndsi)
  | _, _ => None
  end.

(** ** Tasseled-Cap-style components *)

(** The expression shared by the four component methods:
    [c_blue * bands[0] + c_green * bands[1] + ... + c_swir2 * bands[5]]. *)
Definition weighted_sum (blue green red nir swir1 swir2 : Q) (bands : list raster)
  : option raster :=
  match bands with
  | b0 :: b1 :: b2 :: b3 :: b4 :: b5 :: _ =>
      Some (arr_add (arr_add (arr_add (arr_add (arr_add
              (arr_scale blue b0) (arr_scale green b1)) (arr_scale red b2))
              (arr_scale nir b3)) (arr_scale swir1 b4)) (arr_scale swir2 b5))
  | _ => None
  end.

Definition calculate_wetness : list raster -> option raster :=
  weighted_sum 0.1511 0.1973 0.3283 0.3407 (-0.7117) (-0.4559).

Definition calculate_dryness : list raster -> option raster :=
  weighted_sum (-0.2936) (-0.2434) (-0.5424) 0.7276 0.0713 (-0.1608).

Definition calculate_heat : list raster -> option raster :=
  weighted_sum 0.0315 0.2021 0.3102 0.1594 (-0.6806) (-0.6109).

Definition calculate_greenness : list raster -> option raster :=
  weighted_sum (-0.2941) (-0.2430) (-0.5424) 0.7276 0.0713 (-0.1608).

(** ** RSEI *)

(** The dict [calculate_rsei] returns. *)
Record rsei_result : Type := mkRsei {
  rsei : raster;
  greenness : raster;
  wetness : raster;
  dryness : raster;
  heat : raster;
  pca_variance : list npfloat;
  pca_components : list (list npfloat)
}.

Definition calculate_rsei (sklearn : pca_oracle) (bands : list raster)
  : option rsei_result :=
  match calculate_greenness bands, calculate_wetness bands,
        calculate_dryness bands, calculate_heat bands with
  | Some greenness, Some wetness, Some dryness, Some heat =>
      let indices := column_stack [greenness; wetness; dryness; heat] in
      let valid_mask := map (fun row => negb (existsb np_isnan row)) indices in
      let indices_valid := select valid_mask indices in
      if (length indices_valid =? 0)%nat then None
      else
        match sklearn indices_valid with
        | None => None
        | Some fit =>
            let pc1 := scores_pc1 fit in
            let rsei := full (length indices) NaN in
            match assign_masked_checked valid_mask rsei pc1 with
            | None => None
            | Some rsei =>
                let rsei := map (normalize (nanmin rsei) (nanmax rsei)) rsei in
                Some {| rsei := rsei;
                        greenness := greenness;
                        wetness := wetness;
                        dryness := dryness;
                        heat := heat;
                        pca_variance := explained_variance_ratio fit;
                        pca_components := components fit |}
            end
        end
  | _, _, _, _ => None
  end.

(** ** Statistics *)

(** [a >= b] and [a < b] on arrays: false whenever an operand is NaN. *)
Definition np_geb (a b : npfloat) : bool := np_leb b a.
Definition np_ltb (a b : npfloat) : bool := np_leb a b && negb (np_leb b a).

(** [np.nanmean(a)] of an array without NaN: the sum over the size. *)
Definition nanmean (a : raster) : npfloat :=
  np_div (fold_left np_add a (Fin 0)) (Fin (inject_Z (Z.of_nat (length a)))).

(** The dict [calculate_statistics] returns. *)
Record statistics : Type := mkStatistics {
  min_value : npfloat;
  max_value : npfloat;
  mean_value : npfloat;
  std_value : npfloat;
  excellent_area : Q;
  good_area : Q;
  moderate_area : Q;
  poor_area : Q;
  bad_area : Q
}.

(** [pixel_size * pixel_size / 1000000] with [pixel_size = 30], in km2. *)
Definition area_per_pixel : Q := 30 * 30 / 1000000.

(** [float(pixels * area_per_pixel)] *)
Definition class_area (pixels : nat) : Q :=
  inject_Z (Z.of_nat pixels) * area_per_pixel.

(** [calculate_statistics] for a raster (the method answers [None] to
    [None]).  [np_nanstd] is numpy's standard deviation, a square root; it is
    a parameter. *)
Definition calculate_statistics (np_nanstd : raster -> npfloat) (index_data : raster)
  : option statistics :=
  let valid_data := filter (fun x => negb (np_isnan x)) index_data in
  if (length valid_data =? 0)%nat then None
  else
    let mean_val := nanmean valid_data in
    let std_val := np_nanstd valid_data in
    let excellent := np_add mean_val (np_mul (Fin 1.5) std_val) in
    let good := np_add mean_val (np_mul (Fin 0.5) std_val) in
    let moderate := np_sub mean_val (np_mul (Fin 0.5) std_val) in
    let poor := np_sub mean_val (np_mul (Fin 1.5) std_val) in
    let excellent_pixels :=
      count_true (map (fun v => np_geb v excellent) valid_data) in
    let good_pixels :=
      count_true (map (fun v => np_geb v good && np_ltb v excellent) valid_data) in
    let moderate_pixels :=
      count_true (map (fun v => np_geb v moderate && np_ltb v good) valid_data) in
    let poor_pixels :=
      count_true (map (fun v => np_geb v poor && np_ltb v moderate) valid_data) in
    let bad_pixels :=
      count_true (map (fun v => np_ltb v poor) valid_data) in
    Some {| min_value := nanmin valid_data;
            max_value := nanmax valid_data;
            mean_value := mean_val;
            std_value := std_val;
            excellent_area := class_area excellent_pixels;
            good_area := class_area good_pixels;
            moderate_area := class_area moderate_pixels;
            poor_area := class_area poor_pixels;
            bad_area := class_area bad_pixels |}.

End EngineA.

(* ================================================================== *)
(** * Engine B ([GDALEcologicalIndexCalculator], gdal_ecological_indices.py) *)
(* ================================================================== *)

Module EngineB.
Import NumPy.
Local Open Scope Q_scope.

(** [self.bands] is a dict keyed by the 1-based band number, filled by
    [load_image] for [1 .. band_count]; it is modelled by the list of the
    bands in that order.  [n not in self.bands] raises [ValueError], which
    the method catches, logs and turns into [None]. *)
Definition get_band (bands : list raster) (n : nat) : option raster :=
  match n with
  | O => None
  | S k => nth_error bands k
  end.

Definition calculate_ndvi (bands : list raster) (red_band nir_band : nat)
  : option raster :=
  match get_band bands red_band, get_band bands nir_band with
  | Some red, Some nir =>
      let red_valid := map np_isfinite red in
      let nir_valid := map np_isfinite nir in
      let valid_mask := map2 andb red_valid nir_valid in
      let ndvi := full (length red) NaN in
      let denominator := arr_add nir red in
      let valid_denominator := select valid_mask denominator in
      let valid_denominator := set_where np_eq0 (Fin tiny) valid_denominator in
      let ndvi :=
        assign_masked valid_mask ndvi
          (arr_div (arr_sub (select valid_mask nir) (select valid_mask red))
                   valid_denominator) in
      Some (arr_clip (-1 # 1) 1 ndvi)
  | _, _ => None
  end.

Definition calculate_ndwi (bands : list raster) (green_band nir_band : nat)
  : option raster :=
  match get_band bands green_band, get_band bands nir_band with
  | Some green, Some nir =>
      let green_valid := map np_isfinite green in
      let nir_valid := map np_isfinite nir in
      let valid_mask := map2 andb green_valid nir_valid in
      let ndwi := full (length green) NaN in
      let denominator := arr_add green nir in
      let valid_denominator := select valid_mask denominator in
      let valid_denominator := set_where np_eq0 (Fin tiny) valid_denominator in
      let ndwi :=
        assign_masked valid_mask ndwi
          (arr_div (arr_sub (select valid_mask green) (select valid_mask nir))
                   valid_denominator) in
      Some (arr_clip (-1 # 1) 1 ndwi)
  | _, _ => None
  end.

Definition calculate_ndbi (bands : list raster) (nir_band swir_band : nat)
  : option raster :=
  match get_band bands nir_band, get_band bands swir_band with
  | Some nir, Some swir =>
      let nir_valid := map np_isfinite nir in
      let swir_valid := map np_isfinite swir in
      let valid_mask := map2 andb nir_valid swir_valid in
      let ndbi := full (length nir) NaN in
      let denominator := arr_add nir swir in
      let valid_denominator := select valid_mask denominator in
      let valid_denominator := set_where np_eq0 (Fin tiny) valid_denominator in
      let ndbi :=
        assign_masked valid_mask ndbi
          (arr_div (arr_sub (select valid_mask swir) (select valid_mask nir))
                   valid_denominator) in
      Some (arr_clip (-1 # 1) 1 ndbi)
  | _, _ => None
  end.

Definition calculate_ndsi (bands : list raster) (green_band swir_band : nat)
  : option raster :=
  match get_band bands green_band, get_band bands swir_band with
  | Some green, Some swir =>
      let green_valid := map np_isfinite green in
      let swir_valid := map np_isfinite swir in
      let valid_mask := map2 andb green_valid swir_valid in
      let ndsi := full (length green) NaN in
      let denominator := arr_add green swir in
      let valid_denominator := select valid_mask denominator in
      let valid_denominator := set_where np_eq0 (Fin tiny) valid_denominator in
      let ndsi :=
        assign_masked valid_mask ndsi
          (arr_div (arr_sub (select valid_mask green) (select valid_mask swir))
                   valid_denominator) in
      Some (arr_clip (-1 # 1) 1 ndsi)
  | _, _ => None
  end.

(** The default band arguments of the four methods. *)
Definition ndvi_default bands := calculate_ndvi bands 3 4.
Definition ndwi_default bands := calculate_ndwi bands 2 4.
Definition ndbi_default bands := calculate_ndbi bands 4 5.
Definition ndsi_default bands := calculate_ndsi bands 2 5.

(** ** Tasseled Cap transform *)

Local Open Scope string_scope.

(** The coefficient table, in the order of the dict literal; band order
    Blue, Green, Red, NIR, SWIR1, SWIR2. *)
Definition tc_coefficients : list (string * list Q) :=
  [ ("brightness", [0.3029; 0.2786; 0.4733; 0.5599; 0.5080; 0.1872]);
    ("greenness",  [-0.2941; -0.2430; -0.5424; 0.7276; 0.0713; -0.1608]);
    ("wetness",    [0.1511; 0.1973; 0.3283; 0.3407; -0.7117; -0.4559]);
    ("fourth",     [-0.8239; 0.0849; 0.4396; -0.0580; 0.2013; -0.2773]);
    ("fifth",      [-0.3294; 0.0557; 0.1056; 0.1855; -0.4349; 0.8085]);
    ("sixth",      [0.1079; -0.9023; 0.4119; 0.0575; -0.0259; 0.0252]) ].

(** [calculate_tasseled_cap]: [band_data] holds bands [1 .. min(6, band_count)];
    [np.column_stack] of no band raises, which the method turns into [None].
    The result dict is the list of its items in insertion order. *)
Definition calculate_tasseled_cap (bands : list raster)
  : option (list (string * raster)) :=
  let band_data := firstn 6 bands in
  match band_data with
  | [] => None
  | _ =>
      let band_matrix := column_stack band_data in
      Some (flat_map
              (fun item =>
                 let '(component, coefficients) := item in
                 if (length coefficients <=? length band_data)%nat then
                   let coef_array := firstn (length band_data) coefficients in
                   let tc_value := dot band_matrix coef_array in
                   [(component, tc_value)]
                 else [])
              tc_coefficients)
  end.

(** The transform as the specification words it: each component is the dot
    product of the first [k] coefficients with the [k] available bands,
    for any [k] from 1 to 6. *)
Definition spec_tasseled_cap (bands : list raster)
  : option (list (string * raster)) :=
  let band_data := firstn 6 bands in
  match band_data with
  | [] => None
  | _ =>
      let band_matrix := column_stack band_data in
      Some (map (fun item =>
                   let '(component, coefficients) := item in
                   (component, dot band_matrix (firstn (length band_data) coefficients)))
                tc_coefficients)
  end.

(** [tc_results.get(component, None)] *)
Fixpoint dict_get {V} (d : list (string * V)) (key : string) : option V :=
  match d with
  | [] => None
  | (k, v) :: d' => if String.eqb k key then Some v else dict_get d' key
  end.

Local Close Scope string_scope.

(** ** RSEI *)

(** The dict [calculate_rsei] returns. *)
Record rsei_result : Type := mkRsei {
  rsei : raster;
  greenness : raster;
  wetness : raster;
  dryness : raster;
  heat : raster;
  weights : list npfloat;
  explained_variance : list npfloat
}.

Definition calculate_rsei (sklearn : pca_oracle) (bands : list raster)
  : option rsei_result :=
  match calculate_tasseled_cap bands with
  | None => None
  | Some tc_results =>
      match dict_get tc_results "greenness", dict_get tc_results "wetness",
            dict_get tc_results "brightness", dict_get tc_results "fourth" with
      | Some greenness, Some wetness, Some brightness, Some fourth =>
          let valid_mask :=
            map2 andb (map2 andb (map2 andb (map np_isfinite greenness)
                                            (map np_isfinite wetness))
                                 (map np_isfinite brightness))
                      (map np_isfinite fourth) in
          let data_matrix :=
            column_stack [select valid_mask greenness; select valid_mask wetness;
                          select valid_mask brightness; select valid_mask fourth] in
          match sklearn data_matrix with
          | None => None
          | Some fit =>
              let pc1 := scores_pc1 fit in
              let rsei := full (length greenness) NaN in
              match assign_masked_checked valid_mask rsei pc1 with
              | None => None
              | Some rsei =>
                  let rsei_valid := select valid_mask rsei in
                  match rsei_valid with
                  | [] => None   (* np.min of an empty array raises *)
                  | x :: xs =>
                      let lo := arr_min x xs in
                      let hi := arr_max x xs in
                      let rsei :=
                        assign_masked valid_mask rsei
                          (map (normalize lo hi) rsei_valid) in
                      match components fit with
                      | [] => None   (* pca.components_[0] *)
                      | weights :: _ =>
                          Some {| rsei := rsei;
                                  greenness := greenness;
                                  wetness := wetness;
                                  dryness := map np_neg brightness;
                                  heat := fourth;
                                  weights := weights;
                                  explained_variance := explained_variance_ratio fit |}
                      end
                  end
              end
          end
      | _, _, _, _ => None
      end
  end.

(** ** Statistics *)

(** The five class labels '很差', '差', '中等', '良好', '优秀'. *)
Inductive quality_class : Type :=
| VeryPoor | Poor | Moderate | Good | Excellent.

Definition thresholds : list Q := [-1 # 1; -2 # 10; 0; 2 # 10; 4 # 10; 1].
Definition labels : list quality_class := [VeryPoor; Poor; Moderate; Good; Excellent].

(** The entries of the returned dict that the five-class bucketing reads
    or writes.  (The dict also carries mean, std, median and the two
    quartiles of the valid data; they take no part in the bucketing.) *)
Record statistics : Type := mkStatistics {
  stat_min : Q;
  stat_max : Q;
  valid_pixels : nat;
  total_pixels : nat;
  valid_ratio : Q;
  (** [label_pixels] and [label_ratio], in the order the loop writes them;
      empty when the data range does not fit in [-1, 1]. *)
  classes : list (quality_class * (nat * Q))
}.

(** [index_data[np.isfinite(index_data)]] *)
Definition finite_values (index_data : raster) : list Q :=
  flat_map (fun a => match a with Fin q => [q] | _ => [] end) index_data.

Definition Qltb (x y : Q) : bool := negb (Qle_bool y x).

Definition np_min (x : Q) (xs : list Q) : Q := fold_left Qmin xs x.
Definition np_max (x : Q) (xs : list Q) : Q := fold_left Qmax xs x.

(** [(valid_data >= threshold) & (valid_data < upper)] *)
Definition bucket_mask (threshold upper : Q) (valid_data : list Q) : list bool :=
  map (fun v => Qle_bool threshold v && Qltb v upper) valid_data.

(** [enumerate(zip(thresholds[:-1], labels))] *)
Definition enumerated_buckets : list (nat * (Q * quality_class)) :=
  combine (seq 0 (length labels)) (combine (removelast thresholds) labels).

Definition calculate_statistics (index_data : raster) : option statistics :=
  let valid_data := finite_values index_data in
  match valid_data with
  | [] => None
  | v0 :: rest =>
      let smin := np_min v0 rest in
      let smax := np_max v0 rest in
      let n := length valid_data in
      let buckets :=
        if Qle_bool (-1 # 1) smin && Qle_bool smax 1 then
          map (fun b =>
                 let '(i, (threshold, label)) := b in
                 let mask := bucket_mask threshold (nth (i + 1) thresholds 0) valid_data in
                 (label, (count_true mask,
                          inject_Z (Z.of_nat (count_true mask)) / inject_Z (Z.of_nat n))))
              enumerated_buckets
        else [] in
      Some {| stat_min := smin;
              stat_max := smax;
              valid_pixels := n;
              total_pixels := length index_data;
              valid_ratio := inject_Z (Z.of_nat n) / inject_Z (Z.of_nat (length index_data));
              classes := buckets |}
  end.

Definition class_pixel_total (s : statistics) : nat :=
  list_sum (map (fun c => fst (snd c)) (classes s)).

Definition class_ratio_total (s : statistics) : Q :=
  fold_right Qplus 0 (map (fun c => snd (snd c)) (classes s)).

End EngineB.

(* ================================================================== *)
(** * Land-use analysis ([LandUseAnalyzer], gdal_land_use_analysis.py) *)
(* ================================================================== *)

Module LandUse.

Local Open Scope R_scope.

(** [self.landuse_data]: the flattened int32 raster, [None] before
    [load_landuse_data]; missing cells hold the sentinel -9999. *)
Definition landuse_data := option (list Z).

Definition sentinel : Z := (-9999)%Z.

(** The keys of [self.landuse_classes], in the order of the dict literal. *)
Definition landuse_classes : list Z := [1; 2; 3; 4; 5; 6; 7; 8]%Z.

(** [np.sum(self.landuse_data == class_id)] *)
Definition count_equal (data : list Z) (class_id : Z) : nat :=
  count_occ Z.eq_dec data class_id.

(** ** Diversity *)

(** The two shapes of the dict [calculate_diversity_index] returns: the
    early return carries two entries only. *)
Inductive diversity_result : Type :=
| NoClassDiversity (shannon_diversity simpson_diversity : R)
| Diversity (shannon_diversity simpson_diversity pielou_evenness : R)
            (class_count : nat) (total_pixels : nat)
            (class_proportions : list (Z * R)).

Definition shannon_diversity (d : diversity_result) : R :=
  match d with
  | NoClassDiversity s _ => s
  | Diversity s _ _ _ _ _ => s
  end.

Definition simpson_diversity (d : diversity_result) : R :=
  match d with
  | NoClassDiversity _ s => s
  | Diversity _ s _ _ _ _ => s
  end.

(** [result.get('pielou_evenness')] *)
Definition pielou_evenness (d : diversity_result) : option R :=
  match d with
  | NoClassDiversity _ _ => None
  | Diversity _ _ e _ _ _ => Some e
  end.

(** The first loop: the classes of the table that occur, with their pixel
    counts, in table order. *)
Definition class_counts (data : list Z) : list (Z * nat) :=
  filter (fun entry => (0 <? snd entry)%nat)
         (map (fun class_id => (class_id, count_equal data class_id)) landuse_classes).

Definition valid_pixels (data : list Z) : nat :=
  list_sum (map snd (class_counts data)).

(** The second loop, one class at a time, on the pair
    (shannon_diversity, simpson_diversity). *)
Definition diversity_step (valid : nat) (acc : R * R) (entry : Z * nat) : R * R :=
  let pi := INR (snd entry) / INR valid in
  if Rlt_dec 0 pi then (fst acc - pi * ln pi, snd acc + pi * pi) else acc.

Definition calculate_diversity_index (landuse : landuse_data)
  : option diversity_result :=
  match landuse with
  | None => None   (* ValueError("土地利用数据未加载"), caught *)
  | Some data =>
      let counts := class_counts data in
      let valid := valid_pixels data in
      if (valid =? 0)%nat then Some (NoClassDiversity 0 0)
      else
        let '(shannon, simpson_sum) := fold_left (diversity_step valid) counts (0, 0) in
        let simpson := 1 - simpson_sum in
        let max_shannon := ln (INR (length counts)) in
        let pielou := if Rlt_dec 0 max_shannon then shannon / max_shannon else 0 in
        Some (Diversity shannon simpson pielou (length counts) valid
                (map (fun entry => (fst entry, INR (snd entry) / INR valid)) counts))
  end.

(** ** Cohesion *)

(** [scipy.ndimage.label] at the boundary: from the valid-data mask to the
    labelled array (0 is background, patches are numbered from 1) and the
    number of patches. *)
Definition label_oracle : Type := list bool -> list nat * nat.

(** The two shapes of the dict [calculate_cohesion_index] returns. *)
Inductive cohesion_result : Type :=
| NoPatchCohesion (cohesion_index : R)
| Cohesion (cohesion_index : R) (total_patches total_area : nat)
           (patch_areas : list nat).

Definition cohesion_index (c : cohesion_result) : R :=
  match c with
  | NoPatchCohesion v => v
  | Cohesion v _ _ _ => v
  end.


(** [self.landuse_data != -9999] *)
Definition valid_data_mask (data : list Z) : list bool :=
  map (fun v => negb (v =? sentinel)%Z) data.



End LandUse.

(* ================================================================== *)
(** * The persistence layer as the application sees it *)
(* ================================================================== *)

Module Django.

Import NumPy.
Local Open Scope string_scope.

(** A field value. *)
Inductive value : Type :=
| VNone
| VBool (b : bool)
| VInt (z : Z)
| VStr (s : string)
| VNum (x : npfloat).

(** A model instance: its attributes, by name.  The first entry for a
    name is the current one. *)
Definition row := list (string * value).

(** [instance.name]; [None] stands for [AttributeError]. *)
Fixpoint getattr (r : row) (name : string) : option value :=
  match r with
  | [] => None
  | (k, v) :: r' => if String.eqb k name then Some v else getattr r' name
  end.

(** [instance.name = v] *)
Definition setattr (r : row) (name : string) (v : value) : row := (name, v) :: r.

Definition value_eqb (a b : value) : bool :=
  match a, b with
  | VNone, VNone => true
  | VBool x, VBool y => Bool.eqb x y
  | VInt x, VInt y => (x =? y)%Z
  | VStr x, VStr y => String.eqb x y
  | _, _ => false
  end.

Definition has_value (r : row) (name : string) (v : value) : bool :=
  match getattr r name with
  | Some w => value_eqb w v
  | None => false
  end.

(** A model class: its declared fields with their defaults ([VNone] when
    the declaration gives none), its [unique_together] constraint, and
    which of its fields are declared as [DateTimeField]. *)
Record model : Type := mkModel {
  model_name : string;
  fields : list (string * value);
  unique_together : list string;
  datetime_fields : list string
}.

Inductive exn : Type :=
| DoesNotExist
| TypeError (unexpected_keyword_arguments : list string)
| DateTimeTypeError (field : string)
| IntegrityError
| AttributeError (name : string)
| Exception (message : string).

Definition is_field (m : model) (name : string) : bool :=
  existsb (fun f => String.eqb (fst f) name) (fields m).

Definition same_on (names : list string) (a b : row) : bool :=
  forallb (fun n => match getattr a n, getattr b n with
                    | Some x, Some y => value_eqb x y
                    | _, _ => false
                    end) names.

(** [Model.objects.create] called with keyword arguments [kwargs] and the
    fresh primary key [pk]: a keyword that
    names no field of the model raises [TypeError] (from [Model.__init__]);
    a row that repeats an existing combination of the [unique_together]
    fields raises [IntegrityError]. *)
Definition objects_create (m : model) (kwargs : row) (table : list row) (pk : value)
  : row + exn :=
  match filter (fun k => negb (is_field m k)) (map fst kwargs) with
  | k :: ks => inr (TypeError (k :: ks))
  | [] =>
      let instance :=
        map (fun f =>
               if String.eqb (fst f) "id" then ("id", pk)
               else (fst f, match getattr kwargs (fst f) with
                            | Some v => v
                            | None => snd f
                            end))
            (fields m) in
      match unique_together m with
      | [] => inl instance
      | names =>
          if existsb (same_on names instance) table then inr IntegrityError
          else inl instance
      end
  end.

(** [Model.objects.get(id=pk)] *)
Definition objects_get (table : list row) (pk : value) : row + exn :=
  match find (fun r => has_value r "id" pk) table with
  | Some r => inl r
  | None => inr DoesNotExist
  end.

(** [instance.save()]: the stored row with the instance's primary key takes
    the instance's current value of each declared field. *)
Definition stored (m : model) (instance : row) : row :=
  map (fun f => (fst f, match getattr instance (fst f) with
                        | Some v => v
                        | None => snd f
                        end))
      (fields m).

Definition save (m : model) (instance : row) (table : list row) : list row :=
  map (fun r => match getattr instance "id", getattr r "id" with
                | Some a, Some b => if value_eqb a b then stored m instance else r
                | _, _ => r
                end)
      table.

(** [DateTimeField.to_python]: [None] passes and a string is parsed (no
    code path of the repository assigns one); for any other value that is
    not a date, a number for instance, the parser raises [TypeError],
    which [to_python] does not catch. *)
Definition datetime_accepts (v : value) : bool :=
  match v with
  | VNone | VStr _ => true
  | _ => false
  end.

(** [instance.save()] for an instance whose attributes the caller has
    assigned: the value of every [DateTimeField] is prepared first, so a
    field that holds a number raises [DateTimeTypeError] (Python's
    [TypeError]) and nothing is written. *)
Definition save_checked (m : model) (instance : row) (table : list row)
  : list row + exn :=
  match filter (fun name => match getattr instance name with
                            | Some v => negb (datetime_accepts v)
                            | None => false
                            end)
               (datetime_fields m) with
  | [] => inl (save m instance table)
  | name :: _ => inr (DateTimeTypeError name)
  end.

(** [Model.objects.filter(name=v)] *)
Definition objects_filter (table : list row) (name : string) (v : value) : list row :=
  filter (fun r => has_value r name v) table.

End Django.

(* ================================================================== *)
(** * The domain model (environment/models.py) *)
(* ================================================================== *)

Module Models.

Import Django.
Local Open Scope string_scope.

Definition RemoteSensingImage : model :=
  {| model_name := "RemoteSensingImage";
     fields := [ ("id", VNone); ("name", VNone); ("description", VNone);
                 ("image_type", VNone); ("file_path", VNone); ("thumbnail", VNone);
                 ("center_lat", VNone); ("center_lon", VNone);
                 ("acquisition_date", VNone); ("processing_date", VNone);
                 ("resolution", VNone); ("bands_count", VNone); ("file_size", VNone);
                 ("is_processed", VBool false);
                 ("processing_status", VStr "pending");
                 ("uploaded_by", VNone) ];
     unique_together := [];
     datetime_fields := ["processing_date"] |}.

Definition EcologicalIndex : model :=
  {| model_name := "EcologicalIndex";
     fields := [ ("id", VNone); ("remote_sensing_image", VNone); ("index_type", VNone);
                 ("result_file", VNone); ("visualization_file", VNone);
                 ("min_value", VNone); ("max_value", VNone);
                 ("mean_value", VNone); ("std_value", VNone);
                 ("excellent_area", VNone); ("good_area", VNone);
                 ("moderate_area", VNone); ("poor_area", VNone); ("bad_area", VNone);
                 ("processing_time", VNone); ("created_at", VNone);
                 ("updated_at", VNone) ];
     unique_together := ["remote_sensing_image"; "index_type"];
     datetime_fields := ["created_at"; "updated_at"] |}.

Definition RSEIResult : model :=
  {| model_name := "RSEIResult";
     fields := [ ("id", VNone); ("remote_sensing_image", VNone);
                 ("greenness", VNone); ("wetness", VNone); ("dryness", VNone);
                 ("heat", VNone); ("rsei_result", VNone);
                 ("pc1_variance", VNone); ("pc2_variance", VNone);
                 ("pc3_variance", VNone); ("pc4_variance", VNone);
                 ("greenness_weight", VNone); ("wetness_weight", VNone);
                 ("dryness_weight", VNone); ("heat_weight", VNone);
                 ("created_at", VNone) ];
     unique_together := [];
     datetime_fields := ["created_at"] |}.

(** [class ProcessingTask]: the fields the class declares, in order. *)
Definition ProcessingTask : model :=
  {| model_name := "ProcessingTask";
     fields := [ ("id", VNone); ("remote_sensing_image", VNone); ("task_type", VNone);
                 ("status", VStr "pending");
                 ("progress", VInt 0); ("current_step", VNone);
                 ("error_message", VNone);
                 ("created_at", VNone); ("started_at", VNone);
                 ("completed_at", VNone) ];
     unique_together := [];
     datetime_fields := ["created_at"; "started_at"; "completed_at"] |}.

(** A model class with one more declared field (no default). *)
Definition with_field (m : model) (name : string) : model :=
  {| model_name := model_name m;
     fields := fields m ++ [(name, VNone)];
     unique_together := unique_together m;
     datetime_fields := datetime_fields m |}.

(** The database: one table per model, and the supply of fresh primary
    keys (UUIDs in the application). *)
Record DB : Type := mkDB {
  remote_sensing_images : list row;
  ecological_indices : list row;
  rsei_results : list row;
  processing_tasks : list row;
  next_pk : Z
}.

End Models.

(* ================================================================== *)
(** * The orchestrator jobs (environment/tasks.py) and the task status
      action (environment/views.py) *)
(* ================================================================== *)

Module Orchestrator.

Import NumPy Django Models.
Local Open Scope string_scope.

(** What a job reads of the [EcologicalIndexCalculator] it builds for the
    image file: the band stack [load_image] reads ([None] when the file
    cannot be opened), the statistical library, and [calculate_statistics]
    (the statistics dict, or [None] for an all-missing raster).
    [save_result] and [create_visualization] write files and report
    failure by their return value, which the jobs ignore. *)
Record Calculator : Type := mkCalculator {
  file_bands : option (list raster);
  sklearn : pca_oracle;
  calculate_statistics : raster -> option row
}.

(** [stats[key] if stats else None] *)
Definition stat (stats : option row) (key : string) : value :=
  match stats with
  | Some s => match getattr s key with Some v => v | None => VNone end
  | None => VNone
  end.

Definition index_kwargs (image_id index_type : string) (stats : option row) : row :=
  [ ("remote_sensing_image", VStr image_id);
    ("index_type", VStr index_type);
    ("result_file",
      VStr ("ecological_indices/" ++ image_id ++ "/" ++ index_type ++ "_result.tif"));
    ("visualization_file",
      VStr ("ecological_indices/" ++ image_id ++ "/" ++ index_type ++ "_visualization.png"));
    ("min_value", stat stats "min_value");
    ("max_value", stat stats "max_value");
    ("mean_value", stat stats "mean_value");
    ("std_value", stat stats "std_value");
    ("excellent_area", stat stats "excellent_area");
    ("good_area", stat stats "good_area");
    ("moderate_area", stat stats "moderate_area");
    ("poor_area", stat stats "poor_area");
    ("bad_area", stat stats "bad_area") ].

(** The [if ... elif ... else] chain of the loop body: [None] for an
    unsupported index type, otherwise what the calculation returned. *)
Definition dispatch (bands : list raster) (index_type : string)
  : option (option raster) :=
  if String.eqb index_type "ndvi" then Some (EngineA.calculate_ndvi bands)
  else if String.eqb index_type "ndwi" then Some (EngineA.calculate_ndwi bands)
  else if String.eqb index_type "ndbi" then Some (EngineA.calculate_ndbi bands)
  else if String.eqb index_type "ndsi" then Some (EngineA.calculate_ndsi bands)
  else if String.eqb index_type "wetness" then Some (EngineA.calculate_wetness bands)
  else if String.eqb index_type "dryness" then Some (EngineA.calculate_dryness bands)
  else if String.eqb index_type "heat" then Some (EngineA.calculate_heat bands)
  else if String.eqb index_type "greenness" then Some (EngineA.calculate_greenness bands)
  else None.

(** The dict [calculated_indices]: index type to the created row. *)
Definition index_dict := list (string * row).

Fixpoint dict_set (d : index_dict) (key : string) (v : row) : index_dict :=
  match d with
  | [] => [(key, v)]
  | (k, w) :: d' => if String.eqb k key then (k, v) :: d' else (k, w) :: dict_set d' key v
  end.

Fixpoint dict_lookup (d : index_dict) (key : string) : option row :=
  match d with
  | [] => None
  | (k, w) :: d' => if String.eqb k key then Some w else dict_lookup d' key
  end.

Definition dict_has (d : index_dict) (key : string) : bool :=
  match dict_lookup d key with Some _ => true | None => false end.

Definition add_index (db : DB) (r : row) : DB :=
  {| remote_sensing_images := remote_sensing_images db;
     ecological_indices := ecological_indices db ++ [r];
     rsei_results := rsei_results db;
     processing_tasks := processing_tasks db;
     next_pk := next_pk db + 1 |}.

Definition add_rsei_result (db : DB) (r : row) : DB :=
  {| remote_sensing_images := remote_sensing_images db;
     ecological_indices := ecological_indices db;
     rsei_results := rsei_results db ++ [r];
     processing_tasks := processing_tasks db;
     next_pk := next_pk db + 1 |}.

Definition add_task (db : DB) (r : row) : DB :=
  {| remote_sensing_images := remote_sensing_images db;
     ecological_indices := ecological_indices db;
     rsei_results := rsei_results db;
     processing_tasks := processing_tasks db ++ [r];
     next_pk := next_pk db + 1 |}.

Definition save_image (image : row) (db : DB) : DB :=
  {| remote_sensing_images := save RemoteSensingImage image (remote_sensing_images db);
     ecological_indices := ecological_indices db;
     rsei_results := rsei_results db;
     processing_tasks := processing_tasks db;
     next_pk := next_pk db |}.

(** [task.save()]: the job has assigned the task's attributes itself, so
    the save can fail on them. *)
Definition save_task (TaskModel : model) (task : row) (db : DB) : DB + exn :=
  match save_checked TaskModel task (processing_tasks db) with
  | inl table =>
      inl {| remote_sensing_images := remote_sensing_images db;
             ecological_indices := ecological_indices db;
             rsei_results := rsei_results db;
             processing_tasks := table;
             next_pk := next_pk db |}
  | inr e => inr e
  end.

(** One pass of the loop [for i, index_type in enumerate(indices_list)];
    every [continue] and the [except] clause leave the state as it is.
    (The progress reports sent to the task queue do not touch the
    database and are left out.) *)
Definition index_step (calculator : Calculator) (bands : list raster) (image_id : string)
    (state : DB * index_dict) (index_type : string) : DB * index_dict :=
  let '(db, calculated_indices) := state in
  match dispatch bands index_type with
  | None => state
  | Some None => state
  | Some (Some index_data) =>
      let stats := calculate_statistics calculator index_data in
      match objects_create EcologicalIndex (index_kwargs image_id index_type stats)
                           (ecological_indices db) (VInt (next_pk db)) with
      | inr _ => state
      | inl ecological_index =>
          (add_index db ecological_index,
           dict_set calculated_indices index_type ecological_index)
      end
  end.

Definition rsei_components : list string := ["greenness"; "wetness"; "dryness"; "heat"].

Definition row_id (r : row) : value :=
  match getattr r "id" with Some v => v | None => VNone end.

(** The keyword arguments of [RSEIResult.objects.create]; [None] when one
    of the subscripts raises ([KeyError] or [IndexError]). *)
Definition rsei_result_kwargs (image_id : string) (calculated_indices : index_dict)
    (rsei_index : row) (r : EngineA.rsei_result) : option row :=
  match dict_lookup calculated_indices "greenness",
        dict_lookup calculated_indices "wetness",
        dict_lookup calculated_indices "dryness",
        dict_lookup calculated_indices "heat",
        EngineA.pca_variance r, EngineA.pca_components r with
  | Some g, Some w, Some d, Some h,
    v1 :: v2 :: v3 :: v4 :: _, (w1 :: w2 :: w3 :: w4 :: _) :: _ =>
      Some [ ("remote_sensing_image", VStr image_id);
             ("greenness", row_id g); ("wetness", row_id w);
             ("dryness", row_id d); ("heat", row_id h);
             ("rsei_result", row_id rsei_index);
             ("pc1_variance", VNum v1); ("pc2_variance", VNum v2);
             ("pc3_variance", VNum v3); ("pc4_variance", VNum v4);
             ("greenness_weight", VNum w1); ("wetness_weight", VNum w2);
             ("dryness_weight", VNum w3); ("heat_weight", VNum w4) ]
  | _, _, _, _, _, _ => None
  end.

(** The block after the loop: RSEI, when its four components were computed
    in this run.  The [except] clause logs and carries on with what has
    been written so far. *)
Definition rsei_step (calculator : Calculator) (bands : list raster) (image_id : string)
    (state : DB * index_dict) : DB :=
  let '(db, calculated_indices) := state in
  if forallb (dict_has calculated_indices) rsei_components then
    match EngineA.calculate_rsei (sklearn calculator) bands with
    | None => db
    | Some rsei_result =>
        let rsei_stats := calculate_statistics calculator (EngineA.rsei rsei_result) in
        match objects_create EcologicalIndex (index_kwargs image_id "rsei" rsei_stats)
                             (ecological_indices db) (VInt (next_pk db)) with
        | inr _ => db
        | inl rsei_index =>
            let db := add_index db rsei_index in
            match rsei_result_kwargs image_id calculated_indices rsei_index rsei_result with
            | None => db
            | Some kwargs =>
                match objects_create RSEIResult kwargs (rsei_results db)
                                     (VInt (next_pk db)) with
                | inr _ => db
                | inl result_row => add_rsei_result db result_row
                end
            end
        end
    end
  else db.

(** [str(e)] *)
Definition exn_message (e : exn) : string :=
  match e with
  | DoesNotExist => "RemoteSensingImage matching query does not exist."
  | TypeError names =>
      "ProcessingTask() got unexpected keyword arguments: " ++ String.concat ", " names
  | DateTimeTypeError field => "fromisoformat: argument must be str"
  | IntegrityError => "UNIQUE constraint failed"
  | AttributeError name => "object has no attribute " ++ name
  | Exception message => message
  end.

(** The first statements of both outer [except] clauses, for a failure
    with [task] bound: [task.status], [task.error_message], [task.save()]. *)
Definition fail_task (TaskModel : model) (task : row) (e : exn) (db : DB) : DB + exn :=
  let task := setattr task "status" (VStr "failed") in
  let task := setattr task "error_message" (VStr (exn_message e)) in
  save_task TaskModel task db.

(** [image.processing_status = 'failed'; image.save()].  (The attributes
    the jobs assign to an image are a bool and a str, which its fields
    accept, and the rest of the instance comes from the database.) *)
Definition fail_image (image : row) (db : DB) : DB :=
  let image := setattr image "processing_status" (VStr "failed") in
  save_image image db.

(** What a job returns. *)
Record job_return : Type := mkReturn {
  return_status : string;
  calculated_count : nat;
  calculated_indices : list string
}.

Definition task_kwargs (image_id task_type request_id : string) : row :=
  [ ("remote_sensing_image", VStr image_id);
    ("task_type", VStr task_type);
    ("status", VStr "processing");
    ("celery_task_id", VStr request_id) ].

(** The four assignments that precede [task.save()] on the success path;
    [now] is [time.time()], a float. *)
Definition complete_task (task : row) (current_step : string) (now : Q) : row :=
  let task := setattr task "status" (VStr "completed") in
  let task := setattr task "progress" (VInt 100) in
  let task := setattr task "current_step" (VStr current_step) in
  setattr task "completed_at" (VNum (Fin now)).

Section Jobs.

(** The class the jobs instantiate for their progress record. *)
Variable TaskModel : model.
Variable calculator : Calculator.
(** [self.request.id] and [time.time()] *)
Variable request_id : string.
Variable now : Q.

(** A job ends by returning a value or by raising; either way it leaves a
    database behind. *)

(** The outer [except] clause of the first job with [task] and [image]
    bound: the task is marked failed and saved, the image is marked failed
    and saved, and [e] is raised again.  When [task.save()] raises inside the
    clause, that exception leaves the job and the image is not reached. *)
Definition except_with_task_and_image (task image : row) (e : exn) (db : DB)
  : DB * (job_return + exn) :=
  match fail_task TaskModel task e db with
  | inr e' => (db, inr e')
  | inl db => (fail_image image db, inr e)
  end.

(** The outer [except] clause of the second job with [task] bound. *)
Definition except_with_task (task : row) (e : exn) (db : DB)
  : DB * (job_return + exn) :=
  match fail_task TaskModel task e db with
  | inr e' => (db, inr e')
  | inl db => (db, inr e)
  end.

Definition calculate_ecological_indices_on
    (image_id : string) (indices_list : list string) (db : DB)
  : DB * (job_return + exn) :=
  match objects_get (remote_sensing_images db) (VStr image_id) with
  | inr e => (db, inr e)
  | inl image =>
      match objects_create TaskModel
              (task_kwargs image_id "ecological_index_calculation" request_id)
              (processing_tasks db) (VInt (next_pk db)) with
      | inr e => (fail_image image db, inr e)
      | inl task =>
          let db := add_task db task in
          match file_bands calculator with
          | None =>
              except_with_task_and_image task image (Exception "无法加载遥感影像") db
          | Some bands =>
              let state :=
                fold_left (index_step calculator bands image_id) indices_list (db, []) in
              let db := rsei_step calculator bands image_id state in
              let image := setattr image "is_processed" (VBool true) in
              let image := setattr image "processing_status" (VStr "completed") in
              let db := save_image image db in
              let task := complete_task task "处理完成" now in
              match save_task TaskModel task db with
              | inr e => except_with_task_and_image task image e db
              | inl db =>
                  (db, inl {| return_status := "success";
                              calculated_count := length (snd state);
                              calculated_indices := map fst (snd state) |})
              end
          end
      end
  end.

Definition calculate_rsei_only_on (image_id : string) (db : DB)
  : DB * (job_return + exn) :=
  match objects_get (remote_sensing_images db) (VStr image_id) with
  | inr e => (db, inr e)
  | inl image =>
      match objects_create TaskModel
              (task_kwargs image_id "rsei_calculation" request_id)
              (processing_tasks db) (VInt (next_pk db)) with
      | inr e => (db, inr e)
      | inl task =>
          let db := add_task db task in
          match file_bands calculator with
          | None => except_with_task task (Exception "无法加载遥感影像") db
          | Some bands =>
              match EngineA.calculate_rsei (sklearn calculator) bands with
              | None => except_with_task task (Exception "RSEI计算失败") db
              | Some rsei_result =>
                  let rsei_stats :=
                    calculate_statistics calculator (EngineA.rsei rsei_result) in
                  match objects_create EcologicalIndex
                          (index_kwargs image_id "rsei" rsei_stats)
                          (ecological_indices db) (VInt (next_pk db)) with
                  | inr e => except_with_task task e db
                  | inl rsei_index =>
                      let db := add_index db rsei_index in
                      let task := complete_task task "RSEI计算完成" now in
                      match save_task TaskModel task db with
                      | inr e => except_with_task task e db
                      | inl db =>
                          (db, inl {| return_status := "success";
                                      calculated_count := 1;
                                      calculated_indices := ["rsei"] |})
                      end
                  end
              end
          end
      end
  end.

End Jobs.

(** The two jobs as the repository runs them: with the [ProcessingTask]
    class of environment/models.py. *)
Definition calculate_ecological_indices := calculate_ecological_indices_on ProcessingTask.
Definition calculate_rsei_only := calculate_rsei_only_on ProcessingTask.

(** ** The task status action *)

Inductive response : Type :=
| HTTP_200 (body : row)
| HTTP_500 (details : string).

(** [bool(v)] *)
Definition truthy (v : value) : bool :=
  match v with
  | VNone => false
  | VBool b => b
  | VInt z => negb (z =? 0)%Z
  | VStr s => negb (String.eqb s "")
  | VNum _ => true
  end.

Definition field_of (task : row) (name : string) : value :=
  match getattr task name with Some v => v | None => VNone end.

(** [ProcessingTaskViewSet.status]: reading [task.celery_task_id] on an
    instance without that attribute raises [AttributeError], which the
    action's [except] clause answers with HTTP 500.  ([live_status] is the
    queue's answer for a job id.) *)
Definition status (live_status : string -> string) (task : row) : response :=
  match getattr task "celery_task_id" with
  | None => HTTP_500 (exn_message (AttributeError "celery_task_id"))
  | Some id =>
      if truthy id then
        HTTP_200 [ ("task_id", field_of task "id");
                   ("celery_task_id", id);
                   ("status", field_of task "status");
                   ("celery_status",
                     match id with VStr s => VStr (live_status s) | _ => VNone end);
                   ("progress", field_of task "progress");
                   ("current_step", field_of task "current_step");
                   ("error_message", field_of task "error_message");
                   ("created_at", field_of task "created_at");
                   ("started_at", field_of task "started_at");
                   ("completed_at", field_of task "completed_at") ]
      else
        HTTP_200 [ ("task_id", field_of task "id");
                   ("status", field_of task "status");
                   ("progress", field_of task "progress");
                   ("current_step", field_of task "current_step");
                   ("error_message", field_of task "error_message");
                   ("created_at", field_of task "created_at");
                   ("started_at", field_of task "started_at");
                   ("completed_at", field_of task "completed_at") ]
  end.

End Orchestrator.

(* ================================================================== *)
(** * Accounts (users/models.py, users/views.py) *)
(* ================================================================== *)

Module Accounts.

Local Open Scope string_scope.

(** What login reads of a [User]. *)
Record User : Type := mkUser {
  username : string;
  password : string;
  user_is_active : bool
}.

(** [class UserSession] *)
Record UserSession : Type := mkUserSession {
  user : string;
  session_key : string;
  ip_address : string;
  user_agent : string;
  login_time : Z;
  logout_time : option Z;
  is_active : bool
}.

(** The persistent state the two actions run against: the two tables, and
    the framework's session store, reduced to the user the current
    session is authenticated as. *)
Record State : Type := mkState {
  users : list User;
  user_sessions : list UserSession;
  session_user : option string
}.

(** The request: [request.data], and the client address and agent a
    session audit record would be filled from. *)
Record Request : Type := mkRequest {
  data : list (string * string);
  remote_addr : string;
  http_user_agent : string
}.

Inductive response : Type :=
| HTTP_200 (message : string)
| HTTP_400 (error : string)
| HTTP_401 (error : string).

(** [request.data.get(key)] *)
Fixpoint data_get (d : list (string * string)) (key : string) : option string :=
  match d with
  | [] => None
  | (k, v) :: d' => if String.eqb k key then Some v else data_get d' key
  end.

(** [not value] for an optional string: absent or empty. *)
Definition falsy (v : option string) : bool :=
  match v with
  | None => true
  | Some s => String.eqb s ""
  end.

(** [django.contrib.auth.authenticate]: the active user with these
    credentials, if any.  (Password hashing is left out: the stored
    password is compared as it is.) *)
Definition authenticate (st : State) (name pass : string) : option User :=
  find (fun u => String.eqb (username u) name && String.eqb (password u) pass
                 && user_is_active u)%bool
       (users st).

(** [django.contrib.auth.login]: binds the session to the user. *)
Definition auth_login (st : State) (u : User) : State :=
  {| users := users st;
     user_sessions := user_sessions st;
     session_user := Some (username u) |}.

(** [django.contrib.auth.logout]: flushes the session. *)
Definition auth_logout (st : State) : State :=
  {| users := users st;
     user_sessions := user_sessions st;
     session_user := None |}.

(** [UserViewSet.login] *)
Definition login (request : Request) (st : State) : State * response :=
  let username := data_get (data request) "username" in
  let password := data_get (data request) "password" in
  if (falsy username || falsy password)%bool then
    (st, HTTP_400 "用户名和密码不能为空")
  else
    match username, password with
    | Some name, Some pass =>
        match authenticate st name pass with
        | Some user => (auth_login st user, HTTP_200 "登录成功")
        | None => (st, HTTP_401 "用户名或密码错误")
        end
    | _, _ => (st, HTTP_400 "用户名和密码不能为空")
    end.

(** [UserViewSet.logout] *)
Definition logout (request : Request) (st : State) : State * response :=
  (auth_logout st, HTTP_200 "登出成功").

End Accounts.

(* ================================================================== *)
(** * The stress indices of [LandUseAnalyzer] (gdal_land_use_analysis.py) *)
(* ================================================================== *)

Module LandUseStress.

Import LandUse.
Local Open Scope Q_scope.

(** The 'fragility' entries of [self.landuse_classes], and the two
    sensitivity tables, in the order of the dict literals. *)
Definition class_fragility_table : list (Z * Q) :=
  [ (1%Z, 0.3); (2%Z, 0.1); (3%Z, 0.2); (4%Z, 0.4);
    (5%Z, 0.8); (6%Z, 0.9); (7%Z, 0.5); (8%Z, 0.2) ].

Definition erosion_sensitivity : list (Z * Q) :=
  [ (1%Z, 0.3); (2%Z, 0.1); (3%Z, 0.2); (4%Z, 0.0);
    (5%Z, 0.8); (6%Z, 0.9); (7%Z, 0.1); (8%Z, 0.3) ].

Definition degradation_sensitivity : list (Z * Q) :=
  [ (1%Z, 0.4); (2%Z, 0.1); (3%Z, 0.2); (4%Z, 0.0);
    (5%Z, 0.9); (6%Z, 1.0); (7%Z, 0.3); (8%Z, 0.4) ].

(** A class that occurs: its id, its pixel count and its weight. *)
Record class_entry : Type := mkEntry {
  class_id : Z;
  area : nat;
  weight : Q
}.

(** The loop over a table that keeps the classes with [area > 0]. *)
Definition present_classes (table : list (Z * Q)) (data : list Z) : list class_entry :=
  filter (fun e => (0 <? area e)%nat)
         (map (fun item => mkEntry (fst item) (count_equal data (fst item)) (snd item))
              table).

Definition total_of (entries : list class_entry) : nat :=
  list_sum (map area entries).

Definition QofN (n : nat) : Q := inject_Z (Z.of_nat n).

(** The two shapes of the dict a weighted index returns: the early return
    carries the index only; the full one also the total area and, per class
    present, the area, the weight and the contribution. *)
Inductive weighted_result : Type :=
| NoClass (index : Q)
| Weighted (index : Q) (total_area : nat) (classes : list (Z * (nat * Q * Q))).

Definition index_of (r : weighted_result) : Q :=
  match r with
  | NoClass v => v
  | Weighted v _ _ => v
  end.

(** [calculate_fragility_index]: the sum of [pi * fragility] with
    [pi = area / total_valid_area]. *)
Definition calculate_fragility_index (landuse : landuse_data) : option weighted_result :=
  match landuse with
  | None => None
  | Some data =>
      let class_areas := present_classes class_fragility_table data in
      let total_valid_area := total_of class_areas in
      if (total_valid_area =? 0)%nat then Some (NoClass 0)
      else
        let fragility_index :=
          fold_left (fun acc info =>
                       acc + QofN (area info) / QofN total_valid_area * weight info)
                    class_areas 0 in
        Some (Weighted fragility_index total_valid_area
                (map (fun info =>
                        (class_id info,
                         (area info, weight info,
                          QofN (area info) / QofN total_valid_area * weight info)))
                     class_areas))
  end.

(** The loop shared by [calculate_soil_erosion_index] and
    [calculate_land_degradation_index]: [sum(area * sensitivity) / total_area]. *)
Definition sensitivity_index (table : list (Z * Q)) (landuse : landuse_data)
  : option weighted_result :=
  match landuse with
  | None => None
  | Some data =>
      let classes := present_classes table data in
      let total_area := total_of classes in
      let weighted_sum :=
        fold_left (fun acc info => acc + QofN (area info) * weight info) classes 0 in
      if (total_area =? 0)%nat then Some (NoClass 0)
      else
        Some (Weighted (weighted_sum / QofN total_area) total_area
                (map (fun info =>
                        (class_id info,
                         (area info, weight info, QofN (area info) * weight info)))
                     classes))
  end.

Definition calculate_soil_erosion_index : landuse_data -> option weighted_result :=
  sensitivity_index erosion_sensitivity.

Definition calculate_land_degradation_index : landuse_data -> option weighted_result :=
  sensitivity_index degradation_sensitivity.

(** [np.sum(self.landuse_data != -9999)] *)
Definition valid_area (data : list Z) : nat :=
  NumPy.count_true (valid_data_mask data).

(** The dict of the two ratio methods: the ratio in percent, and in the
    full shape the area counted and the total valid area. *)
Inductive ratio_result : Type :=
| NoValidArea (ratio : Q)
| Ratio (ratio : Q) (counted_area total_area : nat).

Definition ratio_of (r : ratio_result) : Q :=
  match r with
  | NoValidArea v => v
  | Ratio v _ _ => v
  end.

Definition unused_land_classes : list Z := [6%Z].

Definition calculate_unused_land_ratio (landuse : landuse_data) : option ratio_result :=
  match landuse with
  | None => None
  | Some data =>
      let total_valid_area := valid_area data in
      let unused_area :=
        fold_left (fun acc class_id => (acc + count_equal data class_id)%nat)
                  unused_land_classes 0%nat in
      if (total_valid_area =? 0)%nat then Some (NoValidArea 0)
      else Some (Ratio (QofN unused_area / QofN total_valid_area * 100)
                       unused_area total_valid_area)
  end.

(** The keys of [development_classes]: 耕地 and 建设用地. *)
Definition development_classes : list Z := [1%Z; 5%Z].

Definition calculate_development_ratio (landuse : landuse_data) : option ratio_result :=
  match landuse with
  | None => None
  | Some data =>
      let total_valid_area := valid_area data in
      let development_area :=
        fold_left (fun acc class_id =>
                     let area := count_equal data class_id in
                     if (0 <? area)%nat then (acc + area)%nat else acc)
                  development_classes 0%nat in
      if (total_valid_area =? 0)%nat then Some (NoValidArea 0)
      else Some (Ratio (QofN development_area / QofN total_valid_area * 100)
                       development_area total_valid_area)
  end.

End LandUseStress.

(* ================================================================== *)
(** * The statistics action of [EcologicalIndexViewSet] (environment/views.py) *)
(* ================================================================== *)

Module IndexViews.

Import NumPy.
Local Open Scope Q_scope.

(** What the action reads of the [EcologicalIndex] row: its five nullable
    area fields. *)
Record index_areas : Type := mkAreas {
  excellent_area : option npfloat;
  good_area : option npfloat;
  moderate_area : option npfloat;
  poor_area : option npfloat;
  bad_area : option npfloat
}.

(** [x or 0] *)
Definition or_0 (x : option npfloat) : npfloat :=
  match x with
  | None => Fin 0
  | Some v => if np_eq0 v then Fin 0 else v
  end.

(** The entries of the response the action computes (the index type, the
    mean and the standard deviation are copied from the row). *)
Record statistics_response : Type := mkResponse {
  total_area : npfloat;
  excellent_percentage : npfloat;
  good_percentage : npfloat;
  moderate_percentage : npfloat;
  poor_percentage : npfloat;
  bad_percentage : npfloat
}.

(** [area / total_area * 100] *)
Definition percentage (area total_area : npfloat) : npfloat :=
  np_mul (np_div area total_area) (Fin 100).

Definition statistics (ecological_index : index_areas) : statistics_response :=
  let total_area :=
    fold_left np_add
      [ or_0 (excellent_area ecological_index); or_0 (good_area ecological_index);
        or_0 (moderate_area ecological_index); or_0 (poor_area ecological_index);
        or_0 (bad_area ecological_index) ]
      (Fin 0) in
  if EngineA.np_ltb (Fin 0) total_area then
    {| total_area := total_area;
       excellent_percentage := percentage (or_0 (excellent_area ecological_index)) total_area;
       good_percentage := percentage (or_0 (good_area ecological_index)) total_area;
       moderate_percentage := percentage (or_0 (moderate_area ecological_index)) total_area;
       poor_percentage := percentage (or_0 (poor_area ecological_index)) total_area;
       bad_percentage := percentage (or_0 (bad_area ecological_index)) total_area |}
  else
    {| total_area := total_area;
       excellent_percentage := Fin 0;
       good_percentage := Fin 0;
       moderate_percentage := Fin 0;
       poor_percentage := Fin 0;
       bad_percentage := Fin 0 |}.

End IndexViews.

(* ================================================================== *)
(** * Land-use statistics and fragmentation ([LandUseAnalyzer]) *)
(* ================================================================== *)

Module LandUseStructure.

Import LandUse.

(** ** [get_landuse_statistics] *)

(** One entry of 'classes' (the name is left out). *)
Record class_statistics : Type := mkClassStatistics {
  pixels : nat;
  area_km2 : Q;
  ratio_percent : NumPy.npfloat;
  fragility : Q
}.

Record landuse_statistics : Type := mkLanduseStatistics {
  total_pixels : nat;
  valid_pixels : nat;
  pixel_area_m2 : Q;
  total_area_km2 : Q;
  classes : list (Z * class_statistics)
}.

(** [geotransform_1] and [geotransform_5] are the pixel width and height of
    the dataset's geotransform.  The ratio is a numpy division: with no
    valid pixel it is 0/0, NaN, and nothing is raised. *)
Definition get_landuse_statistics (geotransform_1 geotransform_5 : Q)
    (landuse : landuse_data) : option landuse_statistics :=
  match landuse with
  | None => None
  | Some data =>
      let total_pixels := length data in
      let valid_pixels := NumPy.count_true (valid_data_mask data) in
      let pixel_area := (Qabs geotransform_1 * Qabs geotransform_5)%Q in
      let class_stats :=
        map (fun class_info =>
               let class_id := fst class_info in
               let class_pixels := count_equal data class_id in
               (class_id,
                {| pixels := class_pixels;
                   area_km2 := (LandUseStress.QofN class_pixels * pixel_area / 1000000)%Q;
                   ratio_percent :=
                     NumPy.np_mul
                       (NumPy.np_div (NumPy.Fin (LandUseStress.QofN class_pixels))
                                     (NumPy.Fin (LandUseStress.QofN valid_pixels)))
                       (NumPy.Fin 100);
                   fragility := snd class_info |}))
            LandUseStress.class_fragility_table in
      Some {| total_pixels := total_pixels;
              valid_pixels := valid_pixels;
              pixel_area_m2 := pixel_area;
              total_area_km2 := (LandUseStress.QofN valid_pixels * pixel_area / 1000000)%Q;
              classes := class_stats |}
  end.

(** ** [calculate_fragmentation_index] *)

Local Open Scope R_scope.

(** One entry of 'class_fragmentation' (the name is left out). *)
Record class_fragmentation_entry : Type := mkClassFragmentation {
  patches : nat;
  class_area : nat;
  fragmentation_index : R
}.

Record fragmentation_result : Type := mkFragmentation {
  overall_fragmentation : R;
  total_patches : nat;
  total_area : nat;
  class_fragmentation : list (Z * class_fragmentation_entry)
}.

(** [self.landuse_data == class_id] *)
Definition class_mask (data : list Z) (class_id : Z) : list bool :=
  map (fun v => (v =? class_id)%Z) data.

(** [(n - 1) / (n - 1 + np.sqrt(area / total_area))] *)
Definition fragmentation_formula (n area total_area : nat) : R :=
  (INR n - 1) / (INR n - 1 + sqrt (INR area / INR total_area)).

(** The labelling is the parameter [label], as for the cohesion index.
    (With a positive area and zero patches, which no labelling of a
    non-empty mask returns, numpy would divide by zero.) *)
Definition calculate_fragmentation_index (label : label_oracle) (landuse : landuse_data)
  : option fragmentation_result :=
  match landuse with
  | None => None
  | Some data =>
      let valid_mask := valid_data_mask data in
      let '(labeled_array, num_features) := label valid_mask in
      let total_area := NumPy.count_true valid_mask in
      let fragmentation_index :=
        if (0 <? total_area)%nat
        then fragmentation_formula num_features total_area total_area
        else 0 in
      let class_fragmentation :=
        flat_map
          (fun class_id =>
             let class_mask := class_mask data class_id in
             if (0 <? NumPy.count_true class_mask)%nat then
               let '(labeled_class, num_patches) := label class_mask in
               let class_area := NumPy.count_true class_mask in
               let class_fi :=
                 if (1 <? num_patches)%nat
                 then fragmentation_formula num_patches class_area total_area
                 else 0 in
               [(class_id, {| patches := num_patches;
                              class_area := class_area;
                              fragmentation_index := class_fi |})]
             else [])
          landuse_classes in
      Some {| overall_fragmentation := fragmentation_index;
              total_patches := num_features;
              total_area := total_area;
              class_fragmentation := class_fragmentation |}
  end.

End LandUseStructure.

(* ################################################################## *)
(** * Part II: properties *)
(* ################################################################## *)

(* ================================================================== *)
(** * Upload validation: properties *)
(* ================================================================== *)

Module UploadFacts.
Import Upload.
Local Open Scope string_scope.
Local Open Scope Z_scope.

Example txt_rejected_small : validate_file_path (mkFile "notes.txt" 1) = inr UnsupportedFormat.
Proof. reflexivity. Qed.

Example txt_rejected_large :
  validate_file_path (mkFile "notes.txt" (size_limit + 1)) = inr UnsupportedFormat.
Proof. reflexivity. Qed.


Lemma validate_total (value : UploadedFile) : accepted value \/ rejected value.
Proof.
  unfold accepted, rejected, validate_file_path.
  destruct (negb _); [right; eauto |].
  destruct (_ >? _); [right; eauto | left; reflexivity].
Qed.

Lemma rejected_not_accepted (value : UploadedFile) :
  rejected value <-> ~ accepted value.
Proof.
  unfold accepted, rejected. split.
  - intros [m Hm] H. rewrite Hm in H. discriminate.
  - intros H. destruct (validate_file_path value) as [v | m] eqn:E; [| eauto].
    exfalso. apply H. unfold validate_file_path in E.
    destruct (negb _); [discriminate |].
    destruct (_ >? _); [discriminate | congruence].
Qed.



End UploadFacts.

(* ================================================================== *)
(** * numpy arrays: lemmas *)
(* ================================================================== *)

Module NumPyFacts.
Import NumPy.
Local Open Scope Q_scope.

Lemma map2_nil_r {A B C} (f : A -> B -> C) xs : map2 f xs [] = [].
Proof. unfold map2. destruct xs; reflexivity. Qed.

Lemma map2_cons {A B C} (f : A -> B -> C) x xs y ys :
  map2 f (x :: xs) (y :: ys) = f x y :: map2 f xs ys.
Proof. reflexivity. Qed.

Lemma map2_length {A B C} (f : A -> B -> C) xs ys :
  length (map2 f xs ys) = Nat.min (length xs) (length ys).
Proof. unfold map2. rewrite length_map, length_combine. reflexivity. Qed.

Lemma nth_error_map2 {A B C} (f : A -> B -> C) xs ys i x y :
  nth_error xs i = Some x -> nth_error ys i = Some y ->
  nth_error (map2 f xs ys) i = Some (f x y).
Proof.
  unfold map2.
  revert ys i. induction xs as [| x0 xs IH]; intros [| y0 ys] [| i]; simpl;
    try discriminate.
  - intros [= ->] [= ->]. reflexivity.
  - intros Hx Hy. auto.
Qed.

Lemma select_map {A B} (f : A -> B) mask a :
  select mask (map f a) = map f (select mask a).
Proof.
  revert a. induction mask as [| m mask IH]; intros [| x a]; simpl; auto.
  destruct m; simpl; rewrite IH; reflexivity.
Qed.

Lemma select_map2 {A B C} (f : A -> B -> C) mask xs ys :
  select mask (map2 f xs ys) = map2 f (select mask xs) (select mask ys).
Proof.
  revert xs ys. induction mask as [| m mask IH]; intros xs ys.
  - destruct (map2 f xs ys); reflexivity.
  - destruct xs as [| x xs]; [reflexivity |].
    destruct ys as [| y ys].
    + rewrite map2_nil_r. cbn [select]. destruct m; rewrite map2_nil_r; reflexivity.
    + rewrite map2_cons. cbn [select].
      destruct m; [rewrite map2_cons |]; rewrite IH; reflexivity.
Qed.

(** Reading back a masked assignment of a selection: pixel [i] holds the
    new value where the mask is set and the old one elsewhere. *)
Lemma nth_error_assign_select {A} (mask : list bool) (a vals : list A) i m x v :
  nth_error mask i = Some m -> nth_error a i = Some x -> nth_error vals i = Some v ->
  nth_error (assign_masked mask a (select mask vals)) i = Some (if m then v else x).
Proof.
  revert a vals i. induction mask as [| m0 mask IH]; intros [| x0 a] [| v0 vals] [| i];
    simpl; try discriminate.
  - intros [= ->] [= ->] [= ->]. destruct m; reflexivity.
  - intros Hm Hx Hv. destruct m0; simpl; eauto.
Qed.

Lemma assign_masked_length {A} (mask : list bool) (a vals : list A) :
  length (assign_masked mask a vals) = length a.
Proof.
  revert a vals. induction mask as [| m mask IH]; intros [| x a] vals; simpl; auto.
  destruct m; [destruct vals |]; simpl; rewrite IH; reflexivity.
Qed.

Lemma nth_error_full n v i : (i < n)%nat -> nth_error (full n v) i = Some v.
Proof. intros H. unfold full. rewrite nth_error_repeat; auto. Qed.

Lemma clip_bounds lo hi x : lo <= hi -> lo <= Qmin (Qmax x lo) hi <= hi.
Proof.
  intros H. split.
  - apply Q.min_glb; [apply Q.le_max_r | exact H].
  - apply Q.le_min_r.
Qed.

Lemma nth_error_assign_masked_false {A} (mask : list bool) (a vals : list A) i :
  nth_error mask i = Some false ->
  nth_error (assign_masked mask a vals) i = nth_error a i.
Proof.
  revert a vals i. induction mask as [| m mask IH]; intros a vals [| i]; simpl;
    try discriminate.
  - intros [= ->]. destruct a; reflexivity.
  - intros H. destruct a as [| x a]; [reflexivity |].
    destruct m; [destruct vals |]; simpl; apply IH; exact H.
Qed.

Lemma nth_error_assign_select_map {A} (f : A -> A) (mask : list bool) (a : list A) i m x :
  nth_error mask i = Some m -> nth_error a i = Some x ->
  nth_error (assign_masked mask a (map f (select mask a))) i
  = Some (if m then f x else x).
Proof.
  intros Hm Hx. rewrite <- select_map.
  apply nth_error_assign_select; auto.
  rewrite nth_error_map, Hx. reflexivity.
Qed.

Lemma select_In {A} (mask : list bool) (a : list A) i x :
  nth_error mask i = Some true -> nth_error a i = Some x -> In x (select mask a).
Proof.
  revert a i. induction mask as [| m mask IH]; intros [| y a] [| i]; simpl;
    try discriminate.
  - intros [= ->] [= ->]. left. reflexivity.
  - intros Hm Hx. destruct m; [right |]; eauto.
Qed.

(** ** The order on numpy values *)

Lemma np_leb_not_nan a b : np_leb a b = true -> a <> NaN /\ b <> NaN.
Proof. destruct a, b; simpl; intros H; split; congruence. Qed.

Lemma np_leb_refl a : a <> NaN -> np_leb a a = true.
Proof.
  destruct a; simpl; try congruence. intros _. apply Qle_bool_iff, Qle_refl.
Qed.

Lemma np_leb_trans a b c :
  np_leb a b = true -> np_leb b c = true -> np_leb a c = true.
Proof.
  destruct a, b, c; simpl; try congruence.
  rewrite !Qle_bool_iff. apply Qle_trans.
Qed.

Lemma np_leb_total a b :
  a <> NaN -> b <> NaN -> np_leb a b = true \/ np_leb b a = true.
Proof.
  destruct a as [| | x |], b as [| | y |]; simpl; try congruence; auto.
  intros _ _. rewrite !Qle_bool_iff.
  destruct (Qlt_le_dec x y) as [H | H]; [left; apply Qlt_le_weak |]; auto.
Qed.

Lemma np_leb_false a b :
  a <> NaN -> b <> NaN -> np_leb a b = false -> np_leb b a = true.
Proof.
  intros Ha Hb H. destruct (np_leb_total Ha Hb) as [H' | H']; congruence.
Qed.

Lemma np_fmin_le_l a b : a <> NaN -> np_leb (np_fmin a b) a = true.
Proof.
  intros Ha. destruct a as [| | x |] eqn:Ea; try congruence;
    (destruct b as [| | y |] eqn:Eb;
     [ cbn [np_fmin]; apply np_leb_refl; congruence | | | ];
     unfold np_fmin;
     match goal with
     | |- np_leb (if np_leb ?u ?v then _ else _) _ = true =>
         destruct (np_leb u v) eqn:E;
         [ apply np_leb_refl; congruence
         | apply np_leb_false in E; [exact E | congruence | congruence] ]
     end).
Qed.

Lemma np_fmin_le_r a b : b <> NaN -> np_leb (np_fmin a b) b = true.
Proof.
  intros Hb. destruct b as [| | y |] eqn:Eb; try congruence;
    (destruct a as [| | x |] eqn:Ea;
     [ cbn [np_fmin]; apply np_leb_refl; congruence | | | ];
     unfold np_fmin;
     match goal with
     | |- np_leb (if np_leb ?u ?v then _ else _) _ = true =>
         destruct (np_leb u v) eqn:E;
         [ exact E | apply np_leb_refl; congruence ]
     end).
Qed.

Lemma np_fmax_ge_l a b : a <> NaN -> np_leb a (np_fmax a b) = true.
Proof.
  intros Ha. destruct a as [| | x |] eqn:Ea; try congruence;
    (destruct b as [| | y |] eqn:Eb;
     [ cbn [np_fmax]; apply np_leb_refl; congruence | | | ];
     unfold np_fmax;
     match goal with
     | |- np_leb _ (if np_leb ?u ?v then _ else _) = true =>
         destruct (np_leb u v) eqn:E;
         [ exact E | apply np_leb_refl; congruence ]
     end).
Qed.

Lemma np_fmax_ge_r a b : b <> NaN -> np_leb b (np_fmax a b) = true.
Proof.
  intros Hb. destruct b as [| | y |] eqn:Eb; try congruence;
    (destruct a as [| | x |] eqn:Ea;
     [ cbn [np_fmax]; apply np_leb_refl; congruence | | | ];
     unfold np_fmax;
     match goal with
     | |- np_leb _ (if np_leb ?u ?v then _ else _) = true =>
         destruct (np_leb u v) eqn:E;
         [ apply np_leb_refl; congruence
         | apply np_leb_false in E; [exact E | congruence | congruence] ]
     end).
Qed.

Lemma nanmin_lower (a : raster) x :
  In x a -> x = NaN \/ np_leb (nanmin a) x = true.
Proof.
  induction a as [| y a IH]; simpl; [contradiction |].
  intros [<- | H].
  - destruct (np_isnan y) eqn:E; [left; destruct y; auto; discriminate |].
    right. apply np_fmin_le_l. intros ->. discriminate.
  - destruct (IH H) as [-> | Hm]; [left; reflexivity | right].
    eapply np_leb_trans; [| exact Hm].
    apply np_fmin_le_r. apply (np_leb_not_nan _ _ Hm).
Qed.

Lemma nanmax_upper (a : raster) x :
  In x a -> x = NaN \/ np_leb x (nanmax a) = true.
Proof.
  induction a as [| y a IH]; simpl; [contradiction |].
  intros [<- | H].
  - destruct (np_isnan y) eqn:E; [left; destruct y; auto; discriminate |].
    right. apply np_fmax_ge_l. intros ->. discriminate.
  - destruct (IH H) as [-> | Hm]; [left; reflexivity | right].
    eapply np_leb_trans; [exact Hm |].
    apply np_fmax_ge_r. apply (np_leb_not_nan _ _ Hm).
Qed.

Lemma np_minimum_spec a b :
  np_minimum a b = NaN \/
  (np_leb (np_minimum a b) a = true /\ np_leb (np_minimum a b) b = true).
Proof.
  destruct a as [| | x |] eqn:Ea, b as [| | y |] eqn:Eb; try (left; reflexivity);
    right; unfold np_minimum;
    match goal with
    | |- context [if np_leb ?u ?v then _ else _] =>
        destruct (np_leb u v) eqn:E;
        [ split; [apply np_leb_refl; congruence | exact E]
        | split; [apply np_leb_false in E; [exact E | congruence | congruence]
                 | apply np_leb_refl; congruence] ]
    end.
Qed.

Lemma np_maximum_spec a b :
  np_maximum a b = NaN \/
  (np_leb a (np_maximum a b) = true /\ np_leb b (np_maximum a b) = true).
Proof.
  destruct a as [| | x |] eqn:Ea, b as [| | y |] eqn:Eb; try (left; reflexivity);
    right; unfold np_maximum;
    match goal with
    | |- context [if np_leb ?u ?v then _ else _] =>
        destruct (np_leb u v) eqn:E;
        [ split; [exact E | apply np_leb_refl; congruence]
        | split; [apply np_leb_refl; congruence
                 | apply np_leb_false in E; [exact E | congruence | congruence]] ]
    end.
Qed.

Lemma arr_min_lower xs : forall x0,
  arr_min x0 xs = NaN \/
  forall x, In x (x0 :: xs) -> np_leb (arr_min x0 xs) x = true.
Proof.
  unfold arr_min. induction xs as [| y xs IH]; intros x0; cbn [fold_left].
  - destruct x0 eqn:E; [left; reflexivity | right | right | right];
      intros x [<- | []]; apply np_leb_refl; congruence.
  - destruct (IH (np_minimum x0 y)) as [H | H]; [left; exact H | right].
    intros x Hx.
    pose proof (H _ (or_introl eq_refl)) as Hm.
    destruct (np_minimum_spec x0 y) as [N | [L1 L2]].
    + rewrite N in Hm. apply np_leb_not_nan in Hm. destruct Hm as [_ Hm]. congruence.
    + destruct Hx as [<- | [<- | Hx]].
      * eapply np_leb_trans; eassumption.
      * eapply np_leb_trans; eassumption.
      * apply H. right. exact Hx.
Qed.

Lemma arr_max_upper xs : forall x0,
  arr_max x0 xs = NaN \/
  forall x, In x (x0 :: xs) -> np_leb x (arr_max x0 xs) = true.
Proof.
  unfold arr_max. induction xs as [| y xs IH]; intros x0; cbn [fold_left].
  - destruct x0 eqn:E; [left; reflexivity | right | right | right];
      intros x [<- | []]; apply np_leb_refl; congruence.
  - destruct (IH (np_maximum x0 y)) as [H | H]; [left; exact H | right].
    intros x Hx.
    pose proof (H _ (or_introl eq_refl)) as Hm.
    destruct (np_maximum_spec x0 y) as [N | [L1 L2]].
    + rewrite N in Hm. apply np_leb_not_nan in Hm. destruct Hm as [Hm _]. congruence.
    + destruct Hx as [<- | [<- | Hx]].
      * eapply np_leb_trans; eassumption.
      * eapply np_leb_trans; eassumption.
      * apply H. right. exact Hx.
Qed.

(** ** Min-max normalisation *)

(** A pixel of a normalised raster: missing, or a number of [0, 1]. *)
Definition unit_or_nan (v : npfloat) : Prop :=
  v = NaN \/ exists q, v = Fin q /\ 0 <= q <= 1.

Lemma normalize_nan lo hi : normalize lo hi NaN = NaN.
Proof. reflexivity. Qed.

Lemma normalize_fin (lo hi x : Q) :
  lo <= x -> x <= hi -> unit_or_nan (normalize (Fin lo) (Fin hi) (Fin x)).
Proof.
  intros H1 H2. unfold normalize, np_sub. cbn [np_neg np_add np_div].
  destruct (Qeq_bool (hi + - lo) 0) eqn:E.
  - apply Qeq_bool_iff in E. left. unfold Qsign_inf.
    assert (Z : x + - lo == 0) by Lqa.lra.
    assert (L1 : Qle_bool (x + - lo) 0 = true) by (apply Qle_bool_iff; Lqa.lra).
    assert (L2 : Qle_bool 0 (x + - lo) = true) by (apply Qle_bool_iff; Lqa.lra).
    rewrite L1, L2. reflexivity.
  - right. eexists. split; [reflexivity |].
    assert (P : 0 < hi + - lo).
    { apply Qeq_bool_neq in E. destruct (Qlt_le_dec 0 (hi + - lo)); auto.
      exfalso. apply E. Lqa.lra. }
    split.
    + apply Qle_shift_div_l; [exact P | Lqa.lra].
    + apply Qle_shift_div_r; [exact P | Lqa.lra].
Qed.

(** Whatever the bounds, a value lying between them normalises to a
    missing value or into [0, 1]; so does every value when a bound is NaN. *)
Lemma normalize_unit lo hi x :
  x = NaN \/ lo = NaN \/ hi = NaN \/ (np_leb lo x = true /\ np_leb x hi = true) ->
  unit_or_nan (normalize lo hi x).
Proof.
  intros H.
  destruct x as [| | x |], lo as [| | lo |], hi as [| | hi |];
    try (left; reflexivity);
    try (destruct H as [H | [H | [H | [H1 H2]]]]; try discriminate;
         simpl in H1, H2; try discriminate).
  - apply normalize_fin; apply Qle_bool_iff; assumption.
  - right. exists 0. split; [reflexivity | split; discriminate].
Qed.

End NumPyFacts.

(* ================================================================== *)
(** * Ratio indices with a zero denominator *)
(* ================================================================== *)

Module RatioIndexFacts.
Import NumPy NumPyFacts.
Local Open Scope Q_scope.

(** The substitution both engines perform on a denominator pixel. *)
Definition guard (d : npfloat) : npfloat := if np_eq0 d then Fin tiny else d.

(** One pixel of a ratio index: numerator [x - y], denominator [p + q]. *)
Definition ratio_pixel (x y p q : npfloat) : npfloat :=
  np_clip (-1 # 1) 1 (np_div (np_sub x y) (guard (np_add p q))).

Definition clamp (v : Q) : Q := Qmin (Qmax v (-1 # 1)) 1.

Lemma tiny_value : tiny * 10000000000 == 1.
Proof. reflexivity. Qed.

Lemma ratio_pixel_zero_denominator (a b p q : Q) :
  p + q == 0 ->
  exists v, ratio_pixel (Fin a) (Fin b) (Fin p) (Fin q) = Fin v /\
            v == clamp ((a - b) / tiny) /\ -1 # 1 <= v <= 1.
Proof.
  intros H. unfold ratio_pixel, guard. cbn [np_add np_eq0 np_sub np_neg].
  apply Qeq_bool_iff in H. rewrite H.
  cbn [np_div]. change (Qeq_bool tiny 0) with false. cbn [np_clip].
  eexists. split; [reflexivity |]. split.
  - unfold clamp. reflexivity.
  - apply clip_bounds. discriminate.
Qed.

(** Engine A's array pipeline, read at one pixel. *)
Lemma engineA_pixel (X Y P D : raster) i x y p q :
  nth_error X i = Some x -> nth_error Y i = Some y ->
  nth_error P i = Some p -> nth_error D i = Some q ->
  nth_error (arr_clip (-1 # 1) 1
               (arr_div (arr_sub X Y) (set_where np_eq0 (Fin tiny) (arr_add P D)))) i
  = Some (ratio_pixel x y p q).
Proof.
  intros HX HY HP HQ. unfold arr_clip, arr_div, arr_sub, arr_add, set_where.
  rewrite nth_error_map.
  erewrite nth_error_map2; [reflexivity | |].
  - apply nth_error_map2; eassumption.
  - rewrite nth_error_map. erewrite nth_error_map2 by eassumption. reflexivity.
Qed.

(** Engine B's masked pipeline, read at a pixel where both operands are finite. *)
Lemma engineB_pixel (X Y P D A B : raster) i x y p q a b :
  nth_error X i = Some x -> nth_error Y i = Some y ->
  nth_error P i = Some p -> nth_error D i = Some q ->
  nth_error A i = Some (Fin a) -> nth_error B i = Some (Fin b) ->
  let valid_mask := map2 andb (map np_isfinite A) (map np_isfinite B) in
  nth_error (arr_clip (-1 # 1) 1
               (assign_masked valid_mask (full (length A) NaN)
                  (arr_div (arr_sub (select valid_mask X) (select valid_mask Y))
                     (set_where np_eq0 (Fin tiny) (select valid_mask (arr_add P D)))))) i
  = Some (ratio_pixel x y p q).
Proof.
  intros HX HY HP HQ HA HB valid_mask.
  unfold arr_clip, arr_div, arr_sub, arr_add, set_where.
  rewrite <- select_map, <- !select_map2, nth_error_map.
  erewrite nth_error_assign_select with (m := true).
  - reflexivity.
  - subst valid_mask. change (Some true) with (Some (true && true)%bool).
    apply nth_error_map2; rewrite nth_error_map; [rewrite HA | rewrite HB];
      reflexivity.
  - apply nth_error_full. apply nth_error_Some. congruence.
  - erewrite nth_error_map2; [reflexivity | |].
    + apply nth_error_map2; eassumption.
    + rewrite nth_error_map. erewrite nth_error_map2 by eassumption. reflexivity.
Qed.

(** What the property asks of one ratio index [(A - B) / (A + B)], where
    [ia] and [ib] are the positions of the bands A and B in the band stack:
    at every pixel whose denominator is exactly zero the method returns a
    raster, and that pixel holds the finite value obtained by dividing by
    1e-10 and clamping to [-1, 1]. *)
Definition guards_zero_denominator
    (calc : list raster -> option raster) (ia ib : nat) : Prop :=
  forall bands A B i a b,
    nth_error bands ia = Some A -> nth_error bands ib = Some B ->
    nth_error A i = Some (Fin a) -> nth_error B i = Some (Fin b) ->
    a + b == 0 ->
    exists out v,
      calc bands = Some out /\ nth_error out i = Some (Fin v) /\
      v == clamp ((a - b) / tiny) /\ -1 # 1 <= v <= 1.

Ltac zero_den_A :=
  intros bands A B i a b HA HB Ha Hb Hz; cbv beta delta
    [EngineA.calculate_ndvi EngineA.calculate_ndwi EngineA.calculate_ndbi
     EngineA.calculate_ndsi raster] in *; rewrite HA, HB; cbv zeta.

Ltac zero_den_B :=
  intros bands A B i a b HA HB Ha Hb Hz; cbv beta iota delta
    [EngineB.ndvi_default EngineB.ndwi_default EngineB.ndbi_default
     EngineB.ndsi_default EngineB.calculate_ndvi EngineB.calculate_ndwi
     EngineB.calculate_ndbi EngineB.calculate_ndsi EngineB.get_band raster] in *;
  rewrite HA, HB; cbv zeta.

Ltac finish_pixel lem H :=
  let v := fresh "v" in let E := fresh "E" in let Hv := fresh "Hv" in
  destruct H as (v & E & Hv);
  eexists; exists v; split; [reflexivity |]; split; [| exact Hv];
  erewrite lem by eassumption; rewrite E; reflexivity.

Lemma engineA_ndvi : guards_zero_denominator EngineA.calculate_ndvi 3 2.
Proof.
  zero_den_A.
  pose proof (ratio_pixel_zero_denominator a b Hz) as H.
  finish_pixel engineA_pixel H.
Qed.

Lemma engineA_ndwi : guards_zero_denominator EngineA.calculate_ndwi 1 3.
Proof.
  zero_den_A.
  pose proof (ratio_pixel_zero_denominator a b Hz) as H.
  finish_pixel engineA_pixel H.
Qed.

Lemma Qplus_comm_zero (a b : Q) : a + b == 0 -> b + a == 0.
Proof. intros H. rewrite Qplus_comm. exact H. Qed.

Lemma engineA_ndbi : guards_zero_denominator EngineA.calculate_ndbi 4 3.
Proof.
  zero_den_A.
  pose proof (ratio_pixel_zero_denominator a b (Qplus_comm_zero Hz)) as H.
  finish_pixel engineA_pixel H.
Qed.

Lemma engineA_ndsi : guards_zero_denominator EngineA.calculate_ndsi 1 4.
Proof.
  zero_den_A.
  pose proof (ratio_pixel_zero_denominator a b Hz) as H.
  finish_pixel engineA_pixel H.
Qed.

Lemma engineB_ndvi : guards_zero_denominator EngineB.ndvi_default 3 2.
Proof.
  zero_den_B.
  pose proof (ratio_pixel_zero_denominator a b Hz) as H.
  finish_pixel engineB_pixel H.
Qed.

Lemma engineB_ndwi : guards_zero_denominator EngineB.ndwi_default 1 3.
Proof.
  zero_den_B.
  pose proof (ratio_pixel_zero_denominator a b Hz) as H.
  finish_pixel engineB_pixel H.
Qed.

Lemma engineB_ndbi : guards_zero_denominator EngineB.ndbi_default 4 3.
Proof.
  zero_den_B.
  pose proof (ratio_pixel_zero_denominator a b (Qplus_comm_zero Hz)) as H.
  finish_pixel engineB_pixel H.
Qed.

Lemma engineB_ndsi : guards_zero_denominator EngineB.ndsi_default 1 4.
Proof.
  zero_den_B.
  pose proof (ratio_pixel_zero_denominator a b Hz) as H.
  finish_pixel engineB_pixel H.
Qed.

(** A six-band, three-pixel image: pixel 0 has every band at 0, pixel 1
    has NIR = 5 and Red = -5, pixel 2 is ordinary. *)
Definition sample_bands : list raster :=
  [ [Fin 0; Fin 1; Fin 2];          (* Blue  *)
    [Fin 0; Fin 3; Fin 4];          (* Green *)
    [Fin 0; Fin (-5 # 1); Fin 2];   (* Red   *)
    [Fin 0; Fin 5; Fin 6];          (* NIR   *)
    [Fin 0; Fin (-3 # 1); Fin 1];   (* SWIR1 *)
    [Fin 0; Fin 1; Fin 1] ].        (* SWIR2 *)

Example engineA_ndvi_sample :
  EngineA.calculate_ndvi sample_bands = Some [Fin 0; Fin 1; Fin (4 # 8)].
Proof. vm_compute. reflexivity. Qed.

Example engineB_ndvi_sample :
  EngineB.ndvi_default sample_bands = Some [Fin 0; Fin 1; Fin (4 # 8)].
Proof. vm_compute. reflexivity. Qed.

Example engineB_ndsi_sample :
  EngineB.ndsi_default sample_bands = Some [Fin 0; Fin 1; Fin (3 # 5)].
Proof. vm_compute. reflexivity. Qed.

(** C5: in both engines, each of NDVI, NDWI, NDBI and NDSI, at every pixel
    whose denominator (NIR+Red, Green+NIR, NIR+SWIR1, Green+SWIR1) is
    exactly zero, divides by 1e-10 instead and returns a finite value
    clamped to [-1, 1] at that pixel; the method does not fail. *)
Theorem ratio_indices_guard_zero_denominator :
  (guards_zero_denominator EngineA.calculate_ndvi 3 2 /\
   guards_zero_denominator EngineA.calculate_ndwi 1 3 /\
   guards_zero_denominator EngineA.calculate_ndbi 4 3 /\
   guards_zero_denominator EngineA.calculate_ndsi 1 4) /\
  (guards_zero_denominator EngineB.ndvi_default 3 2 /\
   guards_zero_denominator EngineB.ndwi_default 1 3 /\
   guards_zero_denominator EngineB.ndbi_default 4 3 /\
   guards_zero_denominator EngineB.ndsi_default 1 4).
Proof.
  repeat split.
  - apply engineA_ndvi.
  - apply engineA_ndwi.
  - apply engineA_ndbi.
  - apply engineA_ndsi.
  - apply engineB_ndvi.
  - apply engineB_ndwi.
  - apply engineB_ndbi.
  - apply engineB_ndsi.
Qed.

End RatioIndexFacts.

(* ================================================================== *)
(** * Engine B statistics: the five-class bucketing *)
(* ================================================================== *)

Module StatisticsFacts.
Import NumPy EngineB.
Local Open Scope Q_scope.

(** The buckets the loop visits, with their bounds written out. *)
Lemma enumerated_buckets_bounds :
  map (fun b => let '(i, (threshold, label)) := b in
                (label, threshold, nth (i + 1) thresholds 0))
      enumerated_buckets
  = [ (VeryPoor, -1 # 1, -2 # 10); (Poor, -2 # 10, 0); (Moderate, 0, 2 # 10);
      (Good, 2 # 10, 4 # 10); (Excellent, 4 # 10, 1) ].
Proof. reflexivity. Qed.

Definition in_bucket (threshold upper v : Q) : bool :=
  Qle_bool threshold v && Qltb v upper.

Lemma in_bucket_spec threshold upper v :
  in_bucket threshold upper v = true <-> threshold <= v /\ v < upper.
Proof.
  unfold in_bucket, Qltb. rewrite andb_true_iff, negb_true_iff, Qle_bool_iff.
  split; intros [H1 H2]; split; auto.
  - apply Qnot_le_lt. intros H. apply Qle_bool_iff in H. congruence.
  - destruct (Qle_bool upper v) eqn:E; auto.
    apply Qle_bool_iff in E. exfalso. apply (Qlt_not_le _ _ H2 E).
Qed.

(** The top threshold belongs to no bucket. *)
Lemma top_value_in_no_bucket v threshold upper label :
  v == 1 ->
  In (label, threshold, upper)
     (map (fun b => let '(i, (threshold, label)) := b in
                    (label, threshold, nth (i + 1) thresholds 0))
          enumerated_buckets) ->
  in_bucket threshold upper v = false.
Proof.
  intros Hv H. rewrite enumerated_buckets_bounds in H.
  destruct (in_bucket threshold upper v) eqn:E; auto.
  apply in_bucket_spec in E. destruct E as [E1 E2]. rewrite Hv in E1, E2.
  simpl in H.
  repeat (destruct H as [H | H]; [inversion H; subst; clear H; revert E1 E2;
                                  unfold Qle, Qlt; simpl; lia |]).
  contradiction.
Qed.

Definition hit (b : bool) : nat := if b then 1%nat else 0%nat.

(** How many of the five buckets hold the value [v]. *)
Definition hits (v : Q) : nat :=
  list_sum (map (fun b => let '(i, (threshold, label)) := b in
                          hit (in_bucket threshold (nth (i + 1) thresholds 0) v))
                enumerated_buckets).

Lemma in_bucket_inside t u v : t <= v -> v < u -> in_bucket t u v = true.
Proof. intros. apply in_bucket_spec. auto. Qed.

Lemma in_bucket_below t u v : v < t -> in_bucket t u v = false.
Proof.
  intros H. destruct (in_bucket t u v) eqn:E; auto.
  apply in_bucket_spec in E. destruct E as [E _].
  exfalso. apply (Qlt_not_le _ _ H E).
Qed.

Lemma in_bucket_above t u v : u <= v -> in_bucket t u v = false.
Proof.
  intros H. destruct (in_bucket t u v) eqn:E; auto.
  apply in_bucket_spec in E. destruct E as [_ E].
  exfalso. apply (Qlt_not_le _ _ E H).
Qed.

Ltac settle_buckets :=
  repeat first [ rewrite in_bucket_inside by Lqa.lra
               | rewrite in_bucket_below by Lqa.lra
               | rewrite in_bucket_above by Lqa.lra ];
  reflexivity.

(** A value of the range [-1, 1] lies in exactly one bucket, unless it is
    the top threshold 1, which lies in none. *)
Lemma hits_in_range v :
  -1 # 1 <= v -> v <= 1 -> (hits v + hit (Qeq_bool v 1) = 1)%nat.
Proof.
  intros Hlo Hhi. unfold hits. cbn [enumerated_buckets labels thresholds length seq
    removelast combine map nth Nat.add list_sum].
  destruct (Qeq_bool v 1) eqn:E1.
  - apply Qeq_bool_iff in E1. settle_buckets.
  - assert (Hne : ~ v == 1) by (intros H; apply Qeq_bool_iff in H; congruence).
    assert (Hlt : v < 1).
    { destruct (Qlt_le_dec v 1) as [H | H]; auto.
      exfalso. apply Hne. apply Qle_antisym; auto. }
    destruct (Qlt_le_dec v (-2 # 10)); [settle_buckets |].
    destruct (Qlt_le_dec v 0); [settle_buckets |].
    destruct (Qlt_le_dec v (2 # 10)); [settle_buckets |].
    destruct (Qlt_le_dec v (4 # 10)); settle_buckets.
Qed.

Lemma count_true_cons {A} (f : A -> bool) v l :
  count_true (map f (v :: l)) = (hit (f v) + count_true (map f l))%nat.
Proof. unfold count_true. simpl. destruct (f v); reflexivity. Qed.

Lemma list_sum_map_add {A} (f g : A -> nat) L :
  list_sum (map (fun c => (f c + g c)%nat) L)
  = (list_sum (map f L) + list_sum (map g L))%nat.
Proof. induction L as [| c L IH]; simpl; [reflexivity | rewrite IH; lia]. Qed.

(** The five [label_pixels] entries added up, as a function of the valid data. *)
Definition bucket_total (valid_data : list Q) : nat :=
  list_sum (map (fun b => let '(i, (threshold, label)) := b in
                          count_true (bucket_mask threshold (nth (i + 1) thresholds 0)
                                                  valid_data))
                enumerated_buckets).

(** The number of valid pixels whose value is exactly 1. *)
Definition ones (valid_data : list Q) : nat :=
  count_true (map (fun v => Qeq_bool v 1) valid_data).

Lemma bucket_total_cons v l : bucket_total (v :: l) = (hits v + bucket_total l)%nat.
Proof.
  unfold bucket_total, hits. rewrite <- list_sum_map_add.
  f_equal. apply map_ext. intros [i [t lab]].
  unfold bucket_mask. rewrite count_true_cons. reflexivity.
Qed.

Lemma bucket_total_ones l :
  Forall (fun v => -1 # 1 <= v /\ v <= 1) l ->
  (bucket_total l + ones l = length l)%nat.
Proof.
  induction 1 as [| v l [Hlo Hhi] _ IH]; [reflexivity |].
  rewrite bucket_total_cons. unfold ones in *. rewrite count_true_cons.
  pose proof (hits_in_range Hlo Hhi). simpl length. lia.
Qed.

Lemma np_min_le_init xs : forall x, np_min x xs <= x.
Proof.
  unfold np_min. induction xs as [| y xs IH]; intros x; simpl.
  - apply Qle_refl.
  - eapply Qle_trans; [apply IH | apply Q.le_min_l].
Qed.

Lemma np_min_le xs : forall x v, In v xs -> np_min x xs <= v.
Proof.
  unfold np_min. induction xs as [| y xs IH]; intros x v; simpl; [contradiction |].
  intros [<- | H].
  - eapply Qle_trans; [apply (np_min_le_init xs) | apply Q.le_min_r].
  - apply IH. exact H.
Qed.

Lemma np_max_ge_init xs : forall x, x <= np_max x xs.
Proof.
  unfold np_max. induction xs as [| y xs IH]; intros x; simpl.
  - apply Qle_refl.
  - eapply Qle_trans; [apply Q.le_max_l | apply IH].
Qed.

Lemma np_max_ge xs : forall x v, In v xs -> v <= np_max x xs.
Proof.
  unfold np_max. induction xs as [| y xs IH]; intros x v; simpl; [contradiction |].
  intros [<- | H].
  - eapply Qle_trans; [apply Q.le_max_r | apply (np_max_ge_init xs)].
  - apply IH. exact H.
Qed.

Lemma valid_data_in_range x xs :
  -1 # 1 <= np_min x xs -> np_max x xs <= 1 ->
  Forall (fun v => -1 # 1 <= v /\ v <= 1) (x :: xs).
Proof.
  intros Hmin Hmax. apply Forall_forall. intros v [<- | Hv]; split.
  - eapply Qle_trans; [exact Hmin | apply np_min_le_init].
  - eapply Qle_trans; [apply np_max_ge_init | exact Hmax].
  - eapply Qle_trans; [exact Hmin | apply np_min_le; exact Hv].
  - eapply Qle_trans; [apply np_max_ge; exact Hv | exact Hmax].
Qed.

(** When the data range fits in [-1, 1], the five class counts and the
    pixels equal to 1 add up to the number of valid pixels. *)
Lemma class_pixels_and_ones index_data s :
  calculate_statistics index_data = Some s ->
  -1 # 1 <= stat_min s -> stat_max s <= 1 ->
  (class_pixel_total s + ones (finite_values index_data) = valid_pixels s)%nat.
Proof.
  unfold calculate_statistics.
  destruct (finite_values index_data) as [| v0 rest] eqn:E; [discriminate |].
  intros [= <-]. cbn [stat_min stat_max valid_pixels]. intros Hmin Hmax.
  unfold class_pixel_total. cbn [classes].
  assert (Hc : (Qle_bool (-1 # 1) (np_min v0 rest) && Qle_bool (np_max v0 rest) 1)%bool = true).
  { apply andb_true_iff. split; apply Qle_bool_iff; assumption. }
  rewrite Hc.
  change (S (length rest)) with (length (v0 :: rest)).
  rewrite <- (bucket_total_ones (valid_data_in_range _ _ Hmin Hmax)).
  reflexivity.
Qed.

Definition top_pixel_raster : raster := [Fin 1; Fin (3 # 10)].

Example top_pixel_statistics :
  option_map (fun s => (valid_pixels s, map (fun c => fst (snd c)) (classes s)))
             (calculate_statistics top_pixel_raster)
  = Some (2%nat, [0; 0; 0; 1; 0]%nat).
Proof. vm_compute. reflexivity. Qed.

(** C10: in Engine B's statistics, when the data range fits in [-1, 1],
    every bucket test is the half-open interval [threshold_i, threshold_i+1),
    so a valid pixel whose value is exactly 1 is counted in no class; the
    five class counts then add up to the valid pixels minus those equal to
    1, and for some inputs the counts add up to strictly fewer than the
    valid pixels and the five ratios to strictly less than 1. *)
Theorem top_threshold_pixel_in_no_class :
  (forall label threshold upper valid_data k v,
      In (label, threshold, upper)
         (map (fun b => let '(i, (threshold, label)) := b in
                        (label, threshold, nth (i + 1) thresholds 0))
              enumerated_buckets) ->
      nth_error valid_data k = Some v -> v == 1 ->
      nth_error (bucket_mask threshold upper valid_data) k = Some false) /\
  (forall index_data s,
      calculate_statistics index_data = Some s ->
      -1 # 1 <= stat_min s -> stat_max s <= 1 ->
      (class_pixel_total s + ones (finite_values index_data) = valid_pixels s)%nat) /\
  (exists index_data s,
      calculate_statistics index_data = Some s /\
      length (classes s) = 5%nat /\
      (class_pixel_total s < valid_pixels s)%nat /\
      class_ratio_total s < 1).
Proof.
  split; [| split].
  - intros label threshold upper valid_data k v Hin Hk Hv.
    unfold bucket_mask. rewrite nth_error_map, Hk. simpl. f_equal.
    apply (top_value_in_no_bucket Hv Hin).
  - apply class_pixels_and_ones.
  - exists top_pixel_raster. eexists. split; [reflexivity |].
    split; [reflexivity |]. split; [vm_compute; lia | reflexivity].
Qed.

End StatisticsFacts.

(* ================================================================== *)
(** * Engine B: the Tasseled Cap transform *)
(* ================================================================== *)

Module TasseledCapFacts.
Import NumPy EngineB.
Local Open Scope string_scope.

Lemma firstn_6_length {A} (l : list A) :
  (length l < 6)%nat -> firstn 6 l = l.
Proof. intros H. apply firstn_all2. lia. Qed.

(** With fewer than six bands the guard [len(coefficients) <= len(band_data)]
    fails for every component, because every coefficient list has six
    entries: the method returns the empty dict. *)
Lemma tasseled_cap_below_six_bands (bands : list raster) :
  (1 <= length bands)%nat -> (length bands < 6)%nat ->
  calculate_tasseled_cap bands = Some [].
Proof.
  intros H1 H6. unfold calculate_tasseled_cap.
  rewrite (firstn_6_length _ H6).
  destruct bands as [| b0 bands]; [simpl in H1; lia |].
  cbv zeta. f_equal. unfold tc_coefficients.
  cbn [flat_map length app].
  destruct (Nat.leb_spec 6 (S (length bands))) as [H | H];
    [simpl in H6; lia | reflexivity].
Qed.

Lemma tasseled_cap_below_six_bands_witness :
  calculate_tasseled_cap [[Fin 1]; [Fin 2]; [Fin 3]] = Some [].
Proof. apply tasseled_cap_below_six_bands; simpl; lia. Defined.

(** With six bands (or more: only the first six are read) every component
    is the full six-term dot product, as the specification says. *)
Lemma tasseled_cap_six_bands (bands : list raster) :
  (6 <= length bands)%nat ->
  calculate_tasseled_cap bands = spec_tasseled_cap bands /\
  exists components,
    calculate_tasseled_cap bands = Some components /\
    map fst components =
      ["brightness"; "greenness"; "wetness"; "fourth"; "fifth"; "sixth"].
Proof.
  intros H. unfold calculate_tasseled_cap, spec_tasseled_cap.
  assert (L : length (firstn 6 bands) = 6%nat) by (rewrite length_firstn; lia).
  destruct (firstn 6 bands) as [| b0 rest] eqn:E; [discriminate |].
  rewrite L. split; [reflexivity |]. eexists. split; reflexivity.
Qed.

(** A four-band image of one pixel. *)
Definition four_band_image : list raster := [[Fin 1]; [Fin 2]; [Fin 3]; [Fin 4]].

(** C2 fails on the code: for a four-band image the truncated dot product
    of the specification yields six components, and
    [calculate_tasseled_cap] yields none. *)
Theorem tasseled_cap_four_bands :
  calculate_tasseled_cap four_band_image = Some [] /\
  option_map (map fst) (spec_tasseled_cap four_band_image) =
    Some ["brightness"; "greenness"; "wetness"; "fourth"; "fifth"; "sixth"] /\
  (exists v, option_map (fun d => dict_get d "brightness") (spec_tasseled_cap four_band_image)
             = Some (Some [Fin v]) /\
             (v == 0.3029 * 1 + 0.2786 * 2 + 0.4733 * 3 + 0.5599 * 4)%Q).
Proof.
  split; [reflexivity |]. split; [reflexivity |].
  eexists. split; [vm_compute; reflexivity | vm_compute; reflexivity].
Qed.

End TasseledCapFacts.

(* ================================================================== *)
(** * RSEI: range of the output and missing pixels *)
(* ================================================================== *)

Module RSEIFacts.
Import NumPy NumPyFacts.
Local Open Scope Q_scope.

Lemma nth_error_column_stack4 (g w d h : raster) i a b c e :
  nth_error g i = Some a -> nth_error w i = Some b ->
  nth_error d i = Some c -> nth_error h i = Some e ->
  nth_error (column_stack [g; w; d; h]) i = Some [a; b; c; e].
Proof.
  intros Hg Hw Hd Hh. cbn [column_stack].
  apply nth_error_map2; [exact Hg |].
  apply nth_error_map2; [exact Hw |].
  apply nth_error_map2; [exact Hd |].
  rewrite nth_error_map, Hh. reflexivity.
Qed.

Lemma assign_masked_checked_eq {A} (mask : list bool) (a vals out : list A) :
  assign_masked_checked mask a vals = Some out -> out = assign_masked mask a vals.
Proof.
  unfold assign_masked_checked. destruct (_ =? _)%nat; [congruence | discriminate].
Qed.

(** A raster normalised by its own [nanmin] and [nanmax]. *)
Lemma nan_normalized_unit (a : raster) i y :
  nth_error (map (normalize (nanmin a) (nanmax a)) a) i = Some y -> unit_or_nan y.
Proof.
  rewrite nth_error_map. destruct (nth_error a i) as [x |] eqn:E; [| discriminate].
  intros [= <-]. apply nth_error_In in E. apply normalize_unit.
  destruct (nanmin_lower a x E) as [-> | H1]; [left; reflexivity |].
  destruct (nanmax_upper a x E) as [-> | H2]; [left; reflexivity |].
  right. right. right. split; assumption.
Qed.

(** ** Engine A *)

Section EngineA_RSEI.
Variable sklearn : pca_oracle.
Variable bands : list raster.
Variable r : EngineA.rsei_result.
Hypothesis success : EngineA.calculate_rsei sklearn bands = Some r.

(** What a successful run computed. *)
Lemma engineA_rsei_shape :
  exists fit a,
    let indices := column_stack [EngineA.greenness r; EngineA.wetness r;
                                 EngineA.dryness r; EngineA.heat r] in
    let valid_mask := map (fun row => negb (existsb np_isnan row)) indices in
    a = assign_masked valid_mask (full (length indices) NaN) (scores_pc1 fit) /\
    EngineA.rsei r = map (normalize (nanmin a) (nanmax a)) a.
Proof.
  revert success. unfold EngineA.calculate_rsei.
  destruct (EngineA.calculate_greenness bands) as [g |]; [| discriminate].
  destruct (EngineA.calculate_wetness bands) as [w |]; [| discriminate].
  destruct (EngineA.calculate_dryness bands) as [d |]; [| discriminate].
  destruct (EngineA.calculate_heat bands) as [h |]; [| discriminate].
  cbv zeta. destruct (_ =? 0)%nat; [discriminate |].
  destruct (sklearn _) as [fit |]; [| discriminate].
  destruct (assign_masked_checked _ _ _) as [a |] eqn:E; [| discriminate].
  intros [= <-]. cbn [EngineA.rsei EngineA.greenness EngineA.wetness
                       EngineA.dryness EngineA.heat].
  exists fit, a. split; [apply (assign_masked_checked_eq _ _ _ E) | reflexivity].
Qed.

Lemma engineA_rsei_unit i y :
  nth_error (EngineA.rsei r) i = Some y -> unit_or_nan y.
Proof.
  destruct engineA_rsei_shape as (fit & a & _ & ->). apply nan_normalized_unit.
Qed.

Lemma engineA_rsei_missing i g w d h :
  nth_error (EngineA.greenness r) i = Some g ->
  nth_error (EngineA.wetness r) i = Some w ->
  nth_error (EngineA.dryness r) i = Some d ->
  nth_error (EngineA.heat r) i = Some h ->
  g = NaN \/ w = NaN \/ d = NaN \/ h = NaN ->
  nth_error (EngineA.rsei r) i = Some NaN.
Proof.
  intros Hg Hw Hd Hh Hnan.
  destruct engineA_rsei_shape as (fit & a & Ha & ->). cbv zeta in Ha.
  pose proof (nth_error_column_stack4 _ _ _ _ _ Hg Hw Hd Hh) as Hrow.
  rewrite nth_error_map.
  assert (E : nth_error a i = Some NaN).
  { rewrite Ha. rewrite nth_error_assign_masked_false.
    - apply nth_error_full. apply nth_error_Some. congruence.
    - rewrite nth_error_map, Hrow. cbn [option_map existsb]. f_equal.
      destruct Hnan as [-> | [-> | [-> | ->]]]; cbn [np_isnan orb negb];
        rewrite ?orb_true_r; reflexivity. }
  rewrite E. reflexivity.
Qed.

End EngineA_RSEI.

(** ** Engine B *)

Lemma nth_error_lt {A} (l : list A) i :
  (i < length l)%nat -> exists x, nth_error l i = Some x.
Proof.
  intros H. destruct (nth_error l i) as [x |] eqn:E; [eauto |].
  apply nth_error_None in E. lia.
Qed.

Lemma tasseled_cap_component_length bands tc key v :
  EngineB.calculate_tasseled_cap bands = Some tc ->
  EngineB.dict_get tc key = Some v ->
  length v = length (column_stack (firstn 6 bands)).
Proof.
  unfold EngineB.calculate_tasseled_cap.
  destruct (firstn 6 bands) as [| b0 rest]; [discriminate |].
  cbv zeta.
  generalize (column_stack (b0 :: rest)) (length (b0 :: rest)).
  intros M k H. injection H as <-. revert v.
  unfold EngineB.tc_coefficients. cbn [flat_map length].
  intros v.
  destruct k as [| [| [| [| [| [| k]]]]]]; cbn [app EngineB.dict_get]; try discriminate.
  repeat (destruct (String.eqb _ key);
          [intros [= <-]; unfold dot; apply length_map |]).
  discriminate.
Qed.

Definition valid_mask_B (g w b f : raster) : list bool :=
  map2 andb (map2 andb (map2 andb (map np_isfinite g) (map np_isfinite w))
                       (map np_isfinite b))
            (map np_isfinite f).

Lemma nth_error_valid_mask_B g w b f i g0 w0 b0 f0 :
  nth_error g i = Some g0 -> nth_error w i = Some w0 ->
  nth_error b i = Some b0 -> nth_error f i = Some f0 ->
  nth_error (valid_mask_B g w b f) i
  = Some (np_isfinite g0 && np_isfinite w0 && np_isfinite b0 && np_isfinite f0)%bool.
Proof.
  intros Hg Hw Hb Hf. unfold valid_mask_B.
  repeat apply nth_error_map2;
    rewrite nth_error_map; [rewrite Hg | rewrite Hw | rewrite Hb | rewrite Hf];
    reflexivity.
Qed.

Section EngineB_RSEI.
Variable sklearn : pca_oracle.
Variable bands : list raster.
Variable r : EngineB.rsei_result.
Hypothesis success : EngineB.calculate_rsei sklearn bands = Some r.

(** What a successful run computed. *)
Lemma engineB_rsei_shape :
  exists (g w b f a : raster) fit x xs n,
    length g = n /\ length w = n /\ length b = n /\ length f = n /\
    EngineB.greenness r = g /\ EngineB.wetness r = w /\
    EngineB.dryness r = map np_neg b /\ EngineB.heat r = f /\
    a = assign_masked (valid_mask_B g w b f) (full n NaN) (scores_pc1 fit) /\
    select (valid_mask_B g w b f) a = x :: xs /\
    EngineB.rsei r =
      assign_masked (valid_mask_B g w b f) a
        (map (normalize (arr_min x xs) (arr_max x xs))
             (select (valid_mask_B g w b f) a)).
Proof.
  revert success. unfold EngineB.calculate_rsei.
  destruct (EngineB.calculate_tasseled_cap bands) as [tc |] eqn:Etc; [| discriminate].
  destruct (EngineB.dict_get tc "greenness") as [g |] eqn:Eg; [| discriminate].
  destruct (EngineB.dict_get tc "wetness") as [w |] eqn:Ew; [| discriminate].
  destruct (EngineB.dict_get tc "brightness") as [b |] eqn:Eb; [| discriminate].
  destruct (EngineB.dict_get tc "fourth") as [f |] eqn:Ef; [| discriminate].
  cbv zeta. fold (valid_mask_B g w b f).
  destruct (sklearn _) as [fit |]; [| discriminate].
  destruct (assign_masked_checked _ _ _) as [a |] eqn:E; [| discriminate].
  destruct (select (valid_mask_B g w b f) a) as [| x xs] eqn:Es; [discriminate |].
  destruct (components fit) as [| wt comps]; [discriminate |].
  intros [= <-]. cbn [EngineB.rsei EngineB.greenness EngineB.wetness
                       EngineB.dryness EngineB.heat].
  exists g, w, b, f, a, fit, x, xs, (length g).
  pose proof (tasseled_cap_component_length _ _ Etc Eg) as Lg.
  pose proof (tasseled_cap_component_length _ _ Etc Ew) as Lw.
  pose proof (tasseled_cap_component_length _ _ Etc Eb) as Lb.
  pose proof (tasseled_cap_component_length _ _ Etc Ef) as Lf.
  repeat split; try congruence.
  - apply (assign_masked_checked_eq _ _ _ E).
  - rewrite Es. reflexivity.
Qed.

Lemma engineB_rsei_unit i y :
  nth_error (EngineB.rsei r) i = Some y -> unit_or_nan y.
Proof.
  destruct engineB_rsei_shape
    as (g & w & b & f & a & fit & x & xs & n &
        Lg & Lw & Lb & Lf & _ & _ & _ & _ & Ha & Hs & ->).
  intros Hy.
  assert (La : length a = n)
    by (rewrite Ha, assign_masked_length; apply repeat_length).
  assert (Hi : (i < n)%nat).
  { rewrite <- La. erewrite <- assign_masked_length.
    apply nth_error_Some. rewrite Hy. discriminate. }
  destruct (@nth_error_lt _ g i) as [g0 Hg]; [lia |].
  destruct (@nth_error_lt _ w i) as [w0 Hw]; [lia |].
  destruct (@nth_error_lt _ b i) as [b0 Hb]; [lia |].
  destruct (@nth_error_lt _ f i) as [f0 Hf]; [lia |].
  destruct (@nth_error_lt _ a i) as [x' Hx]; [lia |].
  pose proof (nth_error_valid_mask_B _ _ _ _ _ Hg Hw Hb Hf) as Hm.
  rewrite (nth_error_assign_select_map _ _ _ _ Hm Hx) in Hy.
  injection Hy as <-.
  destruct (np_isfinite g0 && np_isfinite w0 && np_isfinite b0 && np_isfinite f0)%bool
    eqn:Em.
  - assert (Hin : In x' (x :: xs)) by (rewrite <- Hs; eapply select_In; eassumption).
    apply normalize_unit.
    destruct (arr_min_lower xs x) as [-> | H1]; [auto |].
    destruct (arr_max_upper xs x) as [-> | H2]; [auto |].
    right. right. right. split; [apply H1 | apply H2]; exact Hin.
  - left. rewrite Ha, (nth_error_assign_masked_false _ _ _ _ Hm) in Hx.
    rewrite nth_error_full in Hx by exact Hi. congruence.
Qed.

Lemma engineB_rsei_missing i g0 w0 d0 h0 :
  nth_error (EngineB.greenness r) i = Some g0 ->
  nth_error (EngineB.wetness r) i = Some w0 ->
  nth_error (EngineB.dryness r) i = Some d0 ->
  nth_error (EngineB.heat r) i = Some h0 ->
  (np_isfinite g0 && np_isfinite w0 && np_isfinite d0 && np_isfinite h0)%bool = false ->
  nth_error (EngineB.rsei r) i = Some NaN.
Proof.
  destruct engineB_rsei_shape
    as (g & w & b & f & a & fit & x & xs & n &
        Lg & Lw & Lb & Lf & -> & -> & -> & -> & Ha & Hs & ->).
  intros Hg Hw Hd Hf Hfin.
  rewrite nth_error_map in Hd.
  destruct (nth_error b i) as [b0 |] eqn:Hb; [| discriminate].
  injection Hd as <-.
  assert (Eneg : np_isfinite (np_neg b0) = np_isfinite b0) by (destruct b0; reflexivity).
  rewrite Eneg in Hfin.
  pose proof (nth_error_valid_mask_B _ _ _ _ _ Hg Hw Hb Hf) as Hm.
  rewrite Hfin in Hm.
  assert (Hi : (i < n)%nat) by (rewrite <- Lg; apply nth_error_Some; congruence).
  rewrite (nth_error_assign_masked_false _ _ _ _ Hm).
  rewrite Ha, (nth_error_assign_masked_false _ _ _ _ Hm).
  apply nth_error_full. exact Hi.
Qed.

End EngineB_RSEI.

(** ** A concrete run *)

(** A stand-in for the statistical library: the score of a sample is its
    first column; it refuses fewer than two samples. *)
Definition first_column_oracle : pca_oracle :=
  fun X =>
    match X with
    | _ :: _ :: _ =>
        Some {| scores_pc1 := map (fun row => hd NaN row) X;
                explained_variance_ratio := [Fin 1; Fin 0; Fin 0; Fin 0];
                components := [[Fin 1; Fin 0; Fin 0; Fin 0]] |}
    | _ => None
    end.

(** Six bands of four pixels; pixel 2 is missing in the Green band. *)
Definition rsei_sample_bands : list raster :=
  [ [Fin 1; Fin 2; Fin 3; Fin 4];
    [Fin 2; Fin 1; NaN;   Fin 5];
    [Fin 3; Fin 1; Fin 2; Fin 2];
    [Fin 9; Fin 4; Fin 6; Fin 1];
    [Fin 2; Fin 2; Fin 1; Fin 3];
    [Fin 1; Fin 3; Fin 1; Fin 2] ].

Example engineA_rsei_sample :
  option_map (fun r => map np_isnan (EngineA.rsei r))
             (EngineA.calculate_rsei first_column_oracle rsei_sample_bands)
  = Some [false; false; true; false].
Proof. vm_compute. reflexivity. Qed.

Example engineB_rsei_sample :
  option_map (fun r => map np_isnan (EngineB.rsei r))
             (EngineB.calculate_rsei first_column_oracle rsei_sample_bands)
  = Some [false; false; true; false].
Proof. vm_compute. reflexivity. Qed.

(** C6: whenever RSEI computation succeeds, in Engine A and in Engine B,
    every pixel of the returned RSEI raster is either missing (NaN) or a
    number of [0, 1], and every pixel that is missing in one of the four
    returned component rasters is missing in the RSEI raster. *)
Theorem rsei_unit_range_and_missing :
  (forall sklearn bands r,
      EngineA.calculate_rsei sklearn bands = Some r ->
      (forall i y, nth_error (EngineA.rsei r) i = Some y -> unit_or_nan y) /\
      (forall i g w d h,
          nth_error (EngineA.greenness r) i = Some g ->
          nth_error (EngineA.wetness r) i = Some w ->
          nth_error (EngineA.dryness r) i = Some d ->
          nth_error (EngineA.heat r) i = Some h ->
          g = NaN \/ w = NaN \/ d = NaN \/ h = NaN ->
          nth_error (EngineA.rsei r) i = Some NaN)) /\
  (forall sklearn bands r,
      EngineB.calculate_rsei sklearn bands = Some r ->
      (forall i y, nth_error (EngineB.rsei r) i = Some y -> unit_or_nan y) /\
      (forall i g w d h,
          nth_error (EngineB.greenness r) i = Some g ->
          nth_error (EngineB.wetness r) i = Some w ->
          nth_error (EngineB.dryness r) i = Some d ->
          nth_error (EngineB.heat r) i = Some h ->
          (np_isfinite g && np_isfinite w && np_isfinite d && np_isfinite h)%bool = false ->
          nth_error (EngineB.rsei r) i = Some NaN)).
Proof.
  split; intros sklearn bands r Hr; split.
  - exact (@engineA_rsei_unit sklearn bands r Hr).
  - exact (@engineA_rsei_missing sklearn bands r Hr).
  - exact (@engineB_rsei_unit sklearn bands r Hr).
  - exact (@engineB_rsei_missing sklearn bands r Hr).
Qed.

Lemma rsei_unit_range_and_missing_witness :
  (exists r, EngineA.calculate_rsei first_column_oracle rsei_sample_bands = Some r /\
             (forall i y, nth_error (EngineA.rsei r) i = Some y -> unit_or_nan y) /\
             nth_error (EngineA.rsei r) 2 = Some NaN) /\
  (exists r, EngineB.calculate_rsei first_column_oracle rsei_sample_bands = Some r /\
             (forall i y, nth_error (EngineB.rsei r) i = Some y -> unit_or_nan y) /\
             nth_error (EngineB.rsei r) 2 = Some NaN).
Proof.
  split.
  - eexists. split; [vm_compute; reflexivity |].
    split; [| reflexivity].
    exact (proj1 (proj1 rsei_unit_range_and_missing first_column_oracle
                          rsei_sample_bands _ eq_refl)).
  - eexists. split; [vm_compute; reflexivity |].
    split; [| reflexivity].
    exact (proj1 (proj2 rsei_unit_range_and_missing first_column_oracle
                          rsei_sample_bands _ eq_refl)).
Defined.

End RSEIFacts.

(* ================================================================== *)
(** * Land-use diversity *)
(* ================================================================== *)

Module DiversityFacts.
Import LandUse.
Local Open Scope R_scope.

(** A sum over a list, [sum f l] = Σ f(e) for e in l. *)
Definition Rsum {A} (f : A -> R) (l : list A) : R :=
  fold_right Rplus 0 (map f l).

(** The proportion of a class among the counted pixels. *)
Definition proportion (valid : nat) (entry : Z * nat) : R :=
  INR (snd entry) / INR valid.

Lemma class_counts_positive data :
  Forall (fun entry => (0 < snd entry)%nat) (class_counts data).
Proof.
  unfold class_counts. apply Forall_forall. intros e He.
  apply filter_In in He. destruct He as [_ He]. apply Nat.ltb_lt. exact He.
Qed.

Lemma proportion_positive valid entry :
  (0 < valid)%nat -> (0 < snd entry)%nat -> 0 < proportion valid entry.
Proof.
  intros Hv He. unfold proportion. apply Rdiv_lt_0_compat; apply lt_0_INR; assumption.
Qed.

(** The second loop computes the two sums. *)
Lemma diversity_fold valid counts : forall s q,
  (0 < valid)%nat -> Forall (fun entry => (0 < snd entry)%nat) counts ->
  fold_left (diversity_step valid) counts (s, q)
  = (s - Rsum (fun e => proportion valid e * ln (proportion valid e)) counts,
     q + Rsum (fun e => proportion valid e * proportion valid e) counts).
Proof.
  induction counts as [| e counts IH]; intros s q Hv Hc.
  - simpl. unfold Rsum. simpl. f_equal; ring.
  - inversion Hc as [| ? ? He Hc']; subst. cbn [fold_left].
    unfold diversity_step at 2. fold (proportion valid e).
    destruct (Rlt_dec 0 (proportion valid e)) as [_ | N];
      [| exfalso; apply N; apply proportion_positive; assumption].
    cbn [fst snd]. rewrite IH by assumption.
    unfold Rsum. cbn [map fold_right]. f_equal; ring.
Qed.

Lemma ln_INR_positive k : (2 <= k)%nat -> 0 < ln (INR k).
Proof.
  intros H. rewrite <- ln_1. apply ln_increasing; [lra |].
  apply lt_1_INR. lia.
Qed.

Lemma ln_INR_small k : (k < 2)%nat -> ~ 0 < ln (INR k).
Proof.
  intros H N. destruct k as [| [| k]]; [| | lia].
  - simpl in N. unfold ln in N. destruct (Rlt_dec 0 0); lra.
  - simpl in N. rewrite ln_1 in N. lra.
Qed.

(** The general shape of the result when some class of the table occurs. *)
Lemma diversity_formulas data :
  valid_pixels data <> 0%nat ->
  exists d,
    calculate_diversity_index (Some data) = Some d /\
    shannon_diversity d
      = - Rsum (fun e => proportion (valid_pixels data) e
                          * ln (proportion (valid_pixels data) e))
               (class_counts data) /\
    simpson_diversity d
      = 1 - Rsum (fun e => proportion (valid_pixels data) e
                           * proportion (valid_pixels data) e)
                 (class_counts data) /\
    pielou_evenness d
      = Some (if (2 <=? length (class_counts data))%nat
              then shannon_diversity d / ln (INR (length (class_counts data)))
              else 0).
Proof.
  intros Hv. unfold calculate_diversity_index.
  destruct (Nat.eqb_spec (valid_pixels data) 0) as [E | _]; [contradiction |].
  rewrite diversity_fold by (try apply class_counts_positive; lia).
  eexists. split; [reflexivity |]. cbn [shannon_diversity simpson_diversity pielou_evenness].
  split; [ring |]. split; [ring |]. f_equal.
  destruct (Nat.leb_spec 2 (length (class_counts data))) as [H | H].
  - destruct (Rlt_dec 0 _) as [_ | N]; [reflexivity |].
    exfalso. apply N. apply ln_INR_positive. exact H.
  - destruct (Rlt_dec 0 _) as [P | _]; [| reflexivity].
    exfalso. apply (ln_INR_small H P).
Qed.

Lemma diversity_no_class data :
  valid_pixels data = 0%nat ->
  calculate_diversity_index (Some data) = Some (NoClassDiversity 0 0).
Proof.
  intros Hv. unfold calculate_diversity_index. rewrite Hv. reflexivity.
Qed.

(** ** A raster with a single class *)

(** [single_class data c]: the table class [c] occurs, and every pixel
    either carries it or carries no class of the table (the sentinel, or an
    unclassified value). *)
Definition single_class (data : list Z) (c : Z) : Prop :=
  In c landuse_classes /\ In c data /\
  forall v, In v data -> v = c \/ ~ In v landuse_classes.

Lemma other_class_absent data c k :
  single_class data c ->
  In k landuse_classes -> k <> c -> count_equal data k = 0%nat.
Proof.
  intros (_ & _ & single) Hk Hne. apply count_occ_not_In. intros Hin.
  destruct (single _ Hin) as [E | E]; [contradiction | apply E; exact Hk].
Qed.

Lemma single_class_counted data c :
  single_class data c -> (0 < count_equal data c)%nat.
Proof. intros (_ & c_occurs & _). apply count_occ_In. exact c_occurs. Qed.

Lemma single_class_counts data c :
  single_class data c -> class_counts data = [(c, count_equal data c)].
Proof.
  intros H.
  pose proof (single_class_counted H) as Hn.
  pose proof (fun k => @other_class_absent data c k H) as Z0.
  destruct H as (c_in_table & _ & _).
  apply Nat.ltb_lt in Hn.
  unfold class_counts. unfold landuse_classes in *. cbn [map].
  simpl in c_in_table.
  repeat (destruct c_in_table as [<- | c_in_table]);
    [ .. | contradiction ];
    repeat match goal with
           | |- context [count_equal data ?k] =>
               rewrite (Z0 k) by (first [simpl; tauto | discriminate])
           end;
    cbn [filter snd]; rewrite Hn, ?Nat.ltb_irrefl; reflexivity.
Qed.

Lemma single_class_diversity data c :
  single_class data c ->
  exists d,
    calculate_diversity_index (Some data) = Some d /\
    shannon_diversity d = 0 /\ simpson_diversity d = 0 /\
    pielou_evenness d = Some 0.
Proof.
  intros H.
  pose proof (single_class_counted H) as Hn.
  pose proof (single_class_counts H) as Hc.
  assert (Hv : valid_pixels data = count_equal data c).
  { unfold valid_pixels. rewrite Hc. simpl. lia. }
  destruct (@diversity_formulas data) as (d & Hd & Hs & Hq & He); [lia |].
  exists d. split; [exact Hd |].
  rewrite Hc in Hs, Hq, He. rewrite Hv in Hs, Hq.
  unfold Rsum, proportion in Hs, Hq. cbn [map fold_right snd] in Hs, Hq.
  assert (P : INR (count_equal data c) / INR (count_equal data c) = 1).
  { apply Rdiv_diag. apply not_0_INR. lia. }
  rewrite P in Hs, Hq. rewrite ln_1 in Hs.
  split; [rewrite Hs; ring |]. split; [rewrite Hq; ring |].
  rewrite He. reflexivity.
Qed.

(** A raster of one class ("forest", id 2) with two missing cells. *)
Definition forest_raster : list Z := [2; 2; sentinel; 2; sentinel; 2]%Z.

(** A raster in which no class of the table occurs. *)
Definition blank_raster : list Z := [sentinel; sentinel; sentinel].

(** C8, as stated, fails: with no class present (at most one, then) the
    method returns the two-entry dict, which has no evenness value at all. *)
Lemma diversity_no_evenness_without_class :
  (length (class_counts blank_raster) <= 1)%nat /\
  calculate_diversity_index (Some blank_raster) = Some (NoClassDiversity 0 0) /\
  ~ (forall data d,
        (length (class_counts data) <= 1)%nat ->
        calculate_diversity_index (Some data) = Some d ->
        pielou_evenness d = Some 0).
Proof.
  split; [simpl; lia |]. split; [reflexivity |].
  intros H.
  assert (E : calculate_diversity_index (Some blank_raster)
              = Some (NoClassDiversity 0 0)) by reflexivity.
  specialize (H blank_raster _ ltac:(simpl; lia) E). discriminate H.
Qed.

(** C8, amended: over the proportions p_i of the table classes that occur,
    the method returns Shannon H = -sum(p_i ln p_i), Simpson = 1 - sum(p_i^2)
    and Pielou evenness = H / ln(number of present classes), the evenness
    being 0 when exactly one class is present; when no class of the table
    occurs it returns Shannon 0 and Simpson 0 and no evenness entry; and
    for every raster whose classified pixels all carry one and the same
    table class it returns Shannon 0, Simpson 0 and Pielou evenness 0. *)
Theorem diversity_index :
  (forall data,
      valid_pixels data <> 0%nat ->
      exists d,
        calculate_diversity_index (Some data) = Some d /\
        shannon_diversity d
          = - Rsum (fun e => proportion (valid_pixels data) e
                              * ln (proportion (valid_pixels data) e))
                   (class_counts data) /\
        simpson_diversity d
          = 1 - Rsum (fun e => proportion (valid_pixels data) e
                               * proportion (valid_pixels data) e)
                     (class_counts data) /\
        pielou_evenness d
          = Some (if (2 <=? length (class_counts data))%nat
                  then shannon_diversity d / ln (INR (length (class_counts data)))
                  else 0)) /\
  (forall data,
      valid_pixels data = 0%nat ->
      exists d, calculate_diversity_index (Some data) = Some d /\
                shannon_diversity d = 0 /\ simpson_diversity d = 0 /\
                pielou_evenness d = None) /\
  (forall data c,
      single_class data c ->
      exists d,
        calculate_diversity_index (Some data) = Some d /\
        shannon_diversity d = 0 /\ simpson_diversity d = 0 /\
        pielou_evenness d = Some 0).
Proof.
  split; [exact diversity_formulas |]. split.
  - intros data Hv. rewrite (diversity_no_class _ Hv).
    eexists. repeat split.
  - exact single_class_diversity.
Qed.

Lemma diversity_index_witness :
  exists d,
    calculate_diversity_index (Some forest_raster) = Some d /\
    shannon_diversity d = 0 /\ simpson_diversity d = 0 /\
    pielou_evenness d = Some 0.
Proof.
  apply (proj2 (proj2 diversity_index) forest_raster 2%Z).
  split; [simpl; tauto |]. split; [simpl; tauto |].
  intros v Hv. simpl in Hv.
  repeat (destruct Hv as [<- | Hv];
          [first [left; reflexivity
                 | right; simpl; intros F;
                   repeat (destruct F as [F | F]; [discriminate F |]); exact F] |]).
  contradiction.
Defined.

End DiversityFacts.

(* ================================================================== *)
(** * Land-use cohesion *)
(* ================================================================== *)

Module CohesionFacts.
Import LandUse.
Local Open Scope R_scope.





Lemma in_le_list_sum (l : list nat) a : In a l -> (a <= list_sum l)%nat.
Proof.
  induction l as [| b l IH]; simpl; [contradiction |].
  intros [<- | H]; [lia | specialize (IH H); lia].
Qed.











End CohesionFacts.

(* ================================================================== *)
(** * The orchestrator's progress record *)
(* ================================================================== *)

Module TaskRecordFacts.
Import NumPy Django Models Orchestrator.
Local Open Scope string_scope.

(** The keyword arguments both jobs pass name a field that the
    [ProcessingTask] class does not declare. *)
Lemma celery_task_id_not_declared : is_field ProcessingTask "celery_task_id" = false.
Proof. reflexivity. Qed.

Lemma task_create_rejected image_id task_type request_id table pk :
  objects_create ProcessingTask (task_kwargs image_id task_type request_id) table pk
  = inr (TypeError ["celery_task_id"]).
Proof. reflexivity. Qed.

(** Whatever the database, the image and the request, each job stops at
    its first statement after the image lookup: no progress record is
    written, and the job re-raises the [TypeError]. *)
Lemma jobs_stop_at_task_creation calculator request_id now image_id indices_list db image :
  objects_get (remote_sensing_images db) (VStr image_id) = inl image ->
  calculate_ecological_indices calculator request_id now image_id indices_list db
    = (fail_image image db, inr (TypeError ["celery_task_id"])) /\
  calculate_rsei_only calculator request_id now image_id db
    = (db, inr (TypeError ["celery_task_id"])) /\
  processing_tasks (fail_image image db) = processing_tasks db.
Proof.
  intros H. unfold calculate_ecological_indices, calculate_ecological_indices_on,
    calculate_rsei_only, calculate_rsei_only_on.
  rewrite H, !task_create_rejected. repeat split.
Qed.

(** A row of the [ProcessingTask] class never carries the attribute, so the
    status action cannot read it back. *)
Lemma task_row_has_no_job_id kwargs table pk task live_status :
  objects_create ProcessingTask kwargs table pk = inl task ->
  getattr task "celery_task_id" = None /\
  status live_status task = HTTP_500 (exn_message (AttributeError "celery_task_id")).
Proof.
  unfold objects_create.
  destruct (filter _ _); [| discriminate].
  cbn [unique_together ProcessingTask]. intros [= <-].
  split; reflexivity.
Qed.

(** ** A concrete run *)

Definition image_row (image_id : string) : row :=
  [ ("id", VStr image_id); ("name", VStr "scene"); ("is_processed", VBool false);
    ("processing_status", VStr "pending") ].

Definition one_image_db : DB :=
  {| remote_sensing_images := [image_row "img-1"];
     ecological_indices := [];
     rsei_results := [];
     processing_tasks := [];
     next_pk := 1 |}.

(** A calculator over the six-band sample image; statistics are not
    computed ([None]). *)
Definition sample_calculator : Calculator :=
  {| file_bands := Some RSEIFacts.rsei_sample_bands;
     sklearn := RSEIFacts.first_column_oracle;
     calculate_statistics := fun _ => None |}.

(** C1 fails on the code: run on a database holding the image, both jobs
    raise [TypeError] at [ProcessingTask.objects.create], because the
    class declares no field [celery_task_id]; no ProcessingTask record is
    written (the first job only marks the image "failed"). *)
Theorem no_task_record_is_created :
  (let run := calculate_ecological_indices sample_calculator "job-1" 0 "img-1"
                ["ndvi"] one_image_db in
   snd run = inr (TypeError ["celery_task_id"]) /\
   processing_tasks (fst run) = [] /\
   option_map (fun image => getattr image "processing_status")
              (find (fun r => has_value r "id" (VStr "img-1"))
                    (remote_sensing_images (fst run)))
     = Some (Some (VStr "failed"))) /\
  (let run := calculate_rsei_only sample_calculator "job-2" 0 "img-1" one_image_db in
   snd run = inr (TypeError ["celery_task_id"]) /\
   processing_tasks (fst run) = []).
Proof. vm_compute. repeat split. Qed.

(** Had the class declared the field, the job would store the identifier
    on a record with status "processing", and the status action would
    return it: the defect is the missing declaration alone. *)
Lemma task_record_with_declared_field :
  let TaskModel := with_field ProcessingTask "celery_task_id" in
  exists task,
    objects_create TaskModel (task_kwargs "img-1" "rsei_calculation" "job-2") [] (VInt 1)
      = inl task /\
    getattr task "status" = Some (VStr "processing") /\
    getattr task "celery_task_id" = Some (VStr "job-2") /\
    exists body, status (fun _ => "PENDING") task = HTTP_200 body /\
                 getattr body "celery_task_id" = Some (VStr "job-2").
Proof.
  eexists. split; [vm_compute; reflexivity |].
  split; [reflexivity |]. split; [reflexivity |].
  eexists. split; reflexivity.
Qed.

End TaskRecordFacts.

(* ================================================================== *)
(** * The "calculate ecological indices" job: processed images and
      their index rows *)
(* ================================================================== *)

Module ProcessedImageFacts.
Import NumPy Django Models Orchestrator.
Local Open Scope string_scope.

(** The [EcologicalIndex] rows of an image. *)
Definition index_rows (db : DB) (image_id : string) : list row :=
  objects_filter (ecological_indices db) "remote_sensing_image" (VStr image_id).

(** The image has a row for the index type [t]. *)
Definition index_row_for (db : DB) (image_id t : string) : Prop :=
  exists r, In r (ecological_indices db) /\
            has_value r "remote_sensing_image" (VStr image_id) = true /\
            has_value r "index_type" (VStr t) = true.


(** ** Saving the image *)

Lemma value_eqb_VStr_l s b : value_eqb (VStr s) b = true -> b = VStr s.
Proof.
  destruct b; simpl; try discriminate. intros H. apply String.eqb_eq in H. congruence.
Qed.

Lemma value_eqb_VStr_r a s : value_eqb a (VStr s) = true -> a = VStr s.
Proof.
  destruct a; simpl; try discriminate. intros H. apply String.eqb_eq in H. congruence.
Qed.

Lemma has_value_VStr r name s :
  has_value r name (VStr s) = true <-> getattr r name = Some (VStr s).
Proof.
  unfold has_value. split.
  - destruct (getattr r name) as [w |]; [| discriminate].
    intros H. apply value_eqb_VStr_r in H. congruence.
  - intros ->. simpl. apply String.eqb_refl.
Qed.

Lemma find_after_save table image' i :
  getattr image' "id" = Some (VStr i) ->
  (exists image, find (fun r => has_value r "id" (VStr i)) table = Some image) ->
  find (fun r => has_value r "id" (VStr i)) (save RemoteSensingImage image' table)
  = Some (stored RemoteSensingImage image').
Proof.
  intros Hid [image Hfind]. unfold save. rewrite Hid.
  assert (Hstored : has_value (stored RemoteSensingImage image') "id" (VStr i) = true).
  { apply has_value_VStr. unfold stored. cbn. rewrite Hid. reflexivity. }
  induction table as [| r table IH]; [discriminate |].
  cbn [find map] in *.
  destruct (has_value r "id" (VStr i)) eqn:E.
  - apply has_value_VStr in E. rewrite E. cbn [value_eqb].
    rewrite String.eqb_refl, Hstored. reflexivity.
  - destruct (getattr r "id") as [b |] eqn:G.
    + destruct (value_eqb (VStr i) b) eqn:V.
      * apply value_eqb_VStr_l in V. subst b.
        apply has_value_VStr in G. congruence.
      * rewrite E. apply IH. exact Hfind.
    + rewrite E. apply IH. exact Hfind.
Qed.

(** ** The loop only adds index rows *)

Lemma created_index_row image_id t stats table pk r :
  objects_create EcologicalIndex (index_kwargs image_id t stats) table pk = inl r ->
  has_value r "remote_sensing_image" (VStr image_id) = true /\
  has_value r "index_type" (VStr t) = true.
Proof.
  unfold objects_create.
  destruct (filter _ _); [| discriminate].
  cbn [unique_together EcologicalIndex].
  destruct (existsb _ table); [discriminate |].
  intros [= <-]. split; apply has_value_VStr; reflexivity.
Qed.

Lemma In_dict_set d key v k :
  In k (map fst (dict_set d key v)) -> k = key \/ In k (map fst d).
Proof.
  induction d as [| [k0 w] d IH]; simpl.
  - intros [<- | []]. left. reflexivity.
  - destruct (String.eqb_spec k0 key) as [-> | N]; simpl.
    + intros [<- | H]; auto.
    + intros [<- | H]; auto. destruct (IH H); auto.
Qed.

(** Every key of [calculated_indices] has its row in the database. *)
Definition keys_have_rows (image_id : string) (state : DB * index_dict) : Prop :=
  forall t, In t (map fst (snd state)) -> index_row_for (fst state) image_id t.

Lemma index_row_for_add db r image_id t :
  index_row_for db image_id t -> index_row_for (add_index db r) image_id t.
Proof.
  intros (r0 & Hin & H1 & H2). exists r0. split; [| auto].
  cbn [add_index ecological_indices]. apply in_or_app. left. exact Hin.
Qed.

Lemma index_step_keeps_rows calculator bands image_id state index_type :
  keys_have_rows image_id state ->
  keys_have_rows image_id (index_step calculator bands image_id state index_type).
Proof.
  intros Inv. destruct state as [db d]. unfold index_step.
  destruct (dispatch bands index_type) as [[index_data |] |]; try exact Inv.
  destruct (objects_create _ _ _ _) as [r | e] eqn:E; [| exact Inv].
  intros t Ht. cbn [fst snd] in *.
  apply In_dict_set in Ht. destruct Ht as [-> | Ht].
  - destruct (created_index_row _ _ _ _ _ E) as [H1 H2].
    exists r. split; [| auto].
    cbn [add_index ecological_indices]. apply in_or_app. right. left. reflexivity.
  - apply index_row_for_add. apply Inv. exact Ht.
Qed.

Lemma loop_keeps_rows calculator bands image_id indices_list : forall state,
  keys_have_rows image_id state ->
  keys_have_rows image_id
    (fold_left (index_step calculator bands image_id) indices_list state).
Proof.
  induction indices_list as [| t l IH]; intros state Inv; [exact Inv |].
  cbn [fold_left]. apply IH. apply index_step_keeps_rows. exact Inv.
Qed.

Lemma index_step_images calculator bands image_id state index_type :
  remote_sensing_images (fst (index_step calculator bands image_id state index_type))
  = remote_sensing_images (fst state).
Proof.
  destruct state as [db d]. unfold index_step.
  destruct (dispatch bands index_type) as [[index_data |] |]; try reflexivity.
  destruct (objects_create _ _ _ _); reflexivity.
Qed.

Lemma loop_images calculator bands image_id indices_list : forall state,
  remote_sensing_images
    (fst (fold_left (index_step calculator bands image_id) indices_list state))
  = remote_sensing_images (fst state).
Proof.
  induction indices_list as [| t l IH]; intros state; [reflexivity |].
  cbn [fold_left]. rewrite IH. apply index_step_images.
Qed.

Lemma rsei_step_images calculator bands image_id state :
  remote_sensing_images (rsei_step calculator bands image_id state)
  = remote_sensing_images (fst state).
Proof.
  destruct state as [db d]. unfold rsei_step.
  destruct (forallb _ _); [| reflexivity].
  destruct (EngineA.calculate_rsei _ _); [| reflexivity].
  destruct (objects_create EcologicalIndex _ _ _); [| reflexivity].
  destruct (rsei_result_kwargs _ _ _ _); [| reflexivity].
  destruct (objects_create RSEIResult _ _ _); reflexivity.
Qed.

Lemma rsei_step_keeps_rows calculator bands image_id state t :
  index_row_for (fst state) image_id t ->
  index_row_for (rsei_step calculator bands image_id state) image_id t.
Proof.
  destruct state as [db d]. unfold rsei_step. cbn [fst]. intros H.
  destruct (forallb _ _); [| exact H].
  destruct (EngineA.calculate_rsei _ _) as [rsei_result |]; [| exact H].
  destruct (objects_create EcologicalIndex _ _ _) as [rsei_index | e]; [| exact H].
  apply (index_row_for_add rsei_index) in H.
  destruct (rsei_result_kwargs _ _ _ _); [| exact H].
  destruct (objects_create RSEIResult _ _ _); exact H.
Qed.

Lemma index_rows_nonempty db image_id t :
  index_row_for db image_id t -> index_rows db image_id <> [].
Proof.
  intros (r & Hin & H1 & _) E.
  assert (F : In r (index_rows db image_id)).
  { unfold index_rows, objects_filter. apply filter_In. split; assumption. }
  rewrite E in F. exact F.
Qed.

(** ** The job as the repository runs it *)







End ProcessedImageFacts.

(* ================================================================== *)
(** * Login, logout and the session audit records *)
(* ================================================================== *)

Module AccountFacts.
Import Accounts.
Local Open Scope string_scope.

Lemma login_keeps_user_sessions request st :
  user_sessions (fst (login request st)) = user_sessions st.
Proof.
  unfold login. destruct (falsy _ || falsy _)%bool; [reflexivity |].
  destruct (data_get (data request) "username") as [name |]; [| reflexivity].
  destruct (data_get (data request) "password") as [pass |]; [| reflexivity].
  destruct (authenticate st name pass); reflexivity.
Qed.

Lemma login_keeps_users request st :
  users (fst (login request st)) = users st.
Proof.
  unfold login. destruct (falsy _ || falsy _)%bool; [reflexivity |].
  destruct (data_get (data request) "username") as [name |]; [| reflexivity].
  destruct (data_get (data request) "password") as [pass |]; [| reflexivity].
  destruct (authenticate st name pass); reflexivity.
Qed.

Lemma login_success request st st' message :
  login request st = (st', HTTP_200 message) ->
  exists u name pass,
    data_get (data request) "username" = Some name /\
    data_get (data request) "password" = Some pass /\
    authenticate st name pass = Some u /\
    session_user st' = Some (username u).
Proof.
  unfold login. destruct (falsy _ || falsy _)%bool; [discriminate |].
  destruct (data_get (data request) "username") as [name |]; [| discriminate].
  destruct (data_get (data request) "password") as [pass |]; [| discriminate].
  destruct (authenticate st name pass) as [u |] eqn:E; [| discriminate].
  intros [= <- _]. exists u, name, pass. repeat split. exact E.
Qed.

(** ** A concrete run *)

Definition alice : User :=
  {| username := "alice"; password := "correct horse"; user_is_active := true |}.

Definition fresh_state : State :=
  {| users := [alice]; user_sessions := []; session_user := None |}.

Definition alice_login : Request :=
  {| data := [("username", "alice"); ("password", "correct horse")];
     remote_addr := "192.0.2.7";
     http_user_agent := "curl/8" |}.

Example alice_logs_in :
  login alice_login fresh_state
  = ({| users := [alice]; user_sessions := []; session_user := Some "alice" |},
     HTTP_200 "登录成功").
Proof. reflexivity. Qed.

(** C4, as stated, fails: a successful login writes no UserSession record
    (after it the table is as empty as before), so there is no record for
    logout to close either. *)
Lemma login_creates_no_user_session :
  (exists st', login alice_login fresh_state = (st', HTTP_200 "登录成功") /\
               session_user st' = Some "alice" /\
               user_sessions st' = []) /\
  ~ (forall request st st' message,
        login request st = (st', HTTP_200 message) ->
        exists s, In s (user_sessions st') /\ ~ In s (user_sessions st)).
Proof.
  split.
  - eexists. split; [reflexivity |]. split; reflexivity.
  - intros H.
    destruct (H alice_login fresh_state _ _ eq_refl) as (s & Hin & _).
    exact Hin.
Qed.

(** C4, amended: a successful Login binds the framework session to the
    authenticated user and Logout unbinds it; neither operation creates,
    closes or otherwise changes any UserSession record. *)
Theorem login_logout_leave_user_sessions :
  (forall request st st' message,
      login request st = (st', HTTP_200 message) ->
      (exists u, In u (users st) /\ session_user st' = Some (username u)) /\
      user_sessions st' = user_sessions st /\ users st' = users st) /\
  (forall request st,
      user_sessions (fst (login request st)) = user_sessions st) /\
  (forall request st,
      exists message,
        logout request st
        = ({| users := users st; user_sessions := user_sessions st;
              session_user := None |}, HTTP_200 message)).
Proof.
  split; [| split].
  - intros request st st' message H.
    pose proof (login_keeps_user_sessions request st) as K. rewrite H in K.
    pose proof (login_keeps_users request st) as U. rewrite H in U.
    destruct (login_success _ _ H) as (u & name & pass & _ & _ & A & S).
    split; [| split].
    + exists u. split; [| exact S]. unfold authenticate in A.
      apply find_some in A. apply A.
    + exact K.
    + exact U.
  - exact login_keeps_user_sessions.
  - intros request st. eexists. reflexivity.
Qed.

End AccountFacts.

(* ================================================================== *)
(** * Ratio indices: range, agreement of the two engines, band counts *)
(* ================================================================== *)

Module RatioIndexProperties.
Import NumPy NumPyFacts RatioIndexFacts.
Local Open Scope Q_scope.

(** A pixel of a ratio index: missing, or a number of [-1, 1]. *)
Definition in_range (y : npfloat) : Prop :=
  y = NaN \/ exists v, y = Fin v /\ -1 # 1 <= v <= 1.

Lemma np_clip_in_range z : in_range (np_clip (-1 # 1) 1 z).
Proof.
  destruct z as [| | x |]; [left; reflexivity | right | right | right];
    eexists; (split; [reflexivity |]).
  - split; discriminate.
  - apply clip_bounds. discriminate.
  - split; [discriminate | apply Qle_refl].
Qed.

Lemma arr_clip_in_range (a : raster) i y :
  nth_error (arr_clip (-1 # 1) 1 a) i = Some y -> in_range y.
Proof.
  unfold arr_clip. rewrite nth_error_map.
  destruct (nth_error a i); [| discriminate].
  intros [= <-]. apply np_clip_in_range.
Qed.

(** Every pixel of the raster a method returns is in range. *)
Definition keeps_range (calc : list raster -> option raster) : Prop :=
  forall bands out i y,
    calc bands = Some out -> nth_error out i = Some y -> in_range y.

Ltac range_A :=
  intros bands out i y; cbv beta delta
    [EngineA.calculate_ndvi EngineA.calculate_ndwi EngineA.calculate_ndbi
     EngineA.calculate_ndsi];
  repeat match goal with
         | |- context [match nth_error bands ?k with _ => _ end] =>
             destruct (nth_error bands k); [| discriminate]
         end;
  cbv zeta; intros [= <-]; apply arr_clip_in_range.

Ltac range_B :=
  intros bands out i y; cbv beta iota delta
    [EngineB.ndvi_default EngineB.ndwi_default EngineB.ndbi_default
     EngineB.ndsi_default EngineB.calculate_ndvi EngineB.calculate_ndwi
     EngineB.calculate_ndbi EngineB.calculate_ndsi EngineB.get_band];
  repeat match goal with
         | |- context [match nth_error bands ?k with _ => _ end] =>
             destruct (nth_error bands k); [| discriminate]
         end;
  cbv zeta; intros [= <-]; apply arr_clip_in_range.

(** X1: every pixel of every ratio index either engine returns is missing
    (NaN) or lies in [-1, 1]; no infinity leaves the methods. *)
Theorem ratio_indices_stay_in_range :
  (keeps_range EngineA.calculate_ndvi /\ keeps_range EngineA.calculate_ndwi /\
   keeps_range EngineA.calculate_ndbi /\ keeps_range EngineA.calculate_ndsi) /\
  (keeps_range EngineB.ndvi_default /\ keeps_range EngineB.ndwi_default /\
   keeps_range EngineB.ndbi_default /\ keeps_range EngineB.ndsi_default).
Proof.
  repeat split; first [range_A | range_B].
Qed.

(** ** The two engines compute the same raster *)

Lemma ratio_pixel_not_finite (a b : npfloat) :
  (np_isfinite a && np_isfinite b)%bool = false ->
  ratio_pixel a b a b = NaN /\ ratio_pixel a b b a = NaN /\
  ratio_pixel b a a b = NaN /\ ratio_pixel b a b a = NaN.
Proof.
  destruct a, b; simpl; intros H; try discriminate H; repeat split.
Qed.

(** Engine B's masked pipeline at a pixel where an operand is not finite. *)
Lemma engineB_pixel_masked (M1 M2 vals : raster) i a b :
  nth_error M1 i = Some a -> nth_error M2 i = Some b ->
  (np_isfinite a && np_isfinite b)%bool = false ->
  let valid_mask := map2 andb (map np_isfinite M1) (map np_isfinite M2) in
  nth_error (arr_clip (-1 # 1) 1
               (assign_masked valid_mask (full (length M1) NaN) vals)) i
  = Some NaN.
Proof.
  intros H1 H2 Hf valid_mask. unfold arr_clip. rewrite nth_error_map.
  rewrite nth_error_assign_masked_false.
  - rewrite nth_error_full; [reflexivity |]. apply nth_error_Some. congruence.
  - subst valid_mask. rewrite <- Hf.
    apply nth_error_map2; rewrite nth_error_map; [rewrite H1 | rewrite H2]; reflexivity.
Qed.

Lemma pipeline_A_length (X Y P D : raster) n :
  length X = n -> length Y = n -> length P = n -> length D = n ->
  length (arr_clip (-1 # 1) 1
            (arr_div (arr_sub X Y) (set_where np_eq0 (Fin tiny) (arr_add P D)))) = n.
Proof.
  intros HX HY HP HD. unfold arr_clip, arr_div, arr_sub, arr_add, set_where.
  rewrite length_map, map2_length, map2_length, length_map, map2_length. lia.
Qed.

Lemma pipeline_B_length (mask : list bool) (a vals : raster) :
  length (arr_clip (-1 # 1) 1 (assign_masked mask a vals)) = length a.
Proof. unfold arr_clip. rewrite length_map. apply assign_masked_length. Qed.

(** Both pipelines on operands [M1], [M2] of one length, the numerator and
    the denominator taking them in either order. *)
Lemma pipelines_agree (M1 M2 X Y P D : raster) :
  length M1 = length M2 ->
  (X = M1 /\ Y = M2) \/ (X = M2 /\ Y = M1) ->
  (P = M1 /\ D = M2) \/ (P = M2 /\ D = M1) ->
  let valid_mask := map2 andb (map np_isfinite M1) (map np_isfinite M2) in
  arr_clip (-1 # 1) 1
    (arr_div (arr_sub X Y) (set_where np_eq0 (Fin tiny) (arr_add P D)))
  = arr_clip (-1 # 1) 1
      (assign_masked valid_mask (full (length M1) NaN)
         (arr_div (arr_sub (select valid_mask X) (select valid_mask Y))
            (set_where np_eq0 (Fin tiny) (select valid_mask (arr_add P D))))).
Proof.
  intros HL HXY HPD valid_mask. apply nth_error_ext. intros i.
  destruct (nth_error M1 i) as [a |] eqn:E1.
  - destruct (nth_error M2 i) as [b |] eqn:E2.
    2:{ apply nth_error_None in E2. assert (nth_error M1 i <> None) by congruence.
        apply nth_error_Some in H. lia. }
    assert (exists x y p q,
               nth_error X i = Some x /\ nth_error Y i = Some y /\
               nth_error P i = Some p /\ nth_error D i = Some q /\
               ((np_isfinite a && np_isfinite b)%bool = false ->
                ratio_pixel x y p q = NaN)) as (x & y & p & q & HX & HY & HP & HD & Hnan).
    { destruct HXY as [[-> ->] | [-> ->]], HPD as [[-> ->] | [-> ->]];
        do 4 eexists; repeat (split; [eassumption |]); intros F;
        apply (ratio_pixel_not_finite a b F). }
    rewrite (engineA_pixel _ _ _ _ _ HX HY HP HD).
    destruct (np_isfinite a && np_isfinite b)%bool eqn:F.
    + destruct a as [| | qa |], b as [| | qb |]; try discriminate F.
      symmetry. subst valid_mask. eapply engineB_pixel; eassumption.
    + rewrite (Hnan eq_refl). symmetry.
      subst valid_mask. eapply engineB_pixel_masked; eassumption.
  - pose proof E1 as E0. apply nth_error_None in E0.
    transitivity (@None npfloat); [| symmetry]; apply nth_error_None.
    + rewrite (@pipeline_A_length X Y P D (length M1)); [exact E0 | | | |];
        destruct HXY as [[-> ->] | [-> ->]], HPD as [[-> ->] | [-> ->]]; congruence.
    + rewrite pipeline_B_length. unfold full. rewrite repeat_length. exact E0.
Qed.

(** The method [calcA] of Engine A and the method [calcB] of Engine B return
    the same thing on every band stack whose bands at positions [ia] and
    [ib] have one length. *)
Definition engines_agree (calcA calcB : list raster -> option raster) (ia ib : nat)
  : Prop :=
  forall bands A B,
    nth_error bands ia = Some A -> nth_error bands ib = Some B ->
    length A = length B ->
    calcA bands = calcB bands /\ exists out, calcA bands = Some out /\ length out = length A.

Ltac agree_AB :=
  intros bands A B HA HB HL; cbv beta iota delta
    [EngineA.calculate_ndvi EngineA.calculate_ndwi EngineA.calculate_ndbi
     EngineA.calculate_ndsi
     EngineB.ndvi_default EngineB.ndwi_default EngineB.ndbi_default
     EngineB.ndsi_default EngineB.calculate_ndvi EngineB.calculate_ndwi
     EngineB.calculate_ndbi EngineB.calculate_ndsi EngineB.get_band raster] in *;
  rewrite HA, HB; cbv zeta; split;
  [ f_equal; apply pipelines_agree; first [exact HL | symmetry; exact HL | tauto]
  | eexists; split; [reflexivity |]; apply pipeline_A_length; congruence ].

(** X2: on every band stack, NDVI, NDWI, NDBI and NDSI of Engine A and of
    Engine B (with its default band arguments) are the same raster, pixel
    for pixel, missing pixels included.  (In exact arithmetic: the model
    does not round, and the engines store float64 and float32.) *)
Theorem engines_compute_the_same_ratio_indices :
  engines_agree EngineA.calculate_ndvi EngineB.ndvi_default 3 2 /\
  engines_agree EngineA.calculate_ndwi EngineB.ndwi_default 1 3 /\
  engines_agree EngineA.calculate_ndbi EngineB.ndbi_default 4 3 /\
  engines_agree EngineA.calculate_ndsi EngineB.ndsi_default 1 4.
Proof.
  split; [| split; [| split]]; agree_AB.
Qed.

(** ** Equal operands *)

Lemma ratio_pixel_equal_operands (a : Q) :
  exists v, ratio_pixel (Fin a) (Fin a) (Fin a) (Fin a) = Fin v /\ v == 0.
Proof.
  unfold ratio_pixel, guard. cbn [np_add np_sub np_neg np_eq0].
  assert (Z : a + - a == 0) by Lqa.lra.
  destruct (Qeq_bool (a + a) 0) eqn:E; cbn [np_div].
  - change (Qeq_bool tiny 0) with false. cbn [np_clip].
    eexists. split; [reflexivity |].
    rewrite Z. reflexivity.
  - rewrite E. cbn [np_clip]. eexists. split; [reflexivity |].
    rewrite Z. unfold Qdiv. rewrite Qmult_0_l. reflexivity.
Qed.

(** The index [(A - B) / (A + B)] is zero wherever the two operand pixels
    are the same finite number. *)
Definition zero_on_equal_operands
    (calc : list raster -> option raster) (ia ib : nat) : Prop :=
  forall bands A B i a,
    nth_error bands ia = Some A -> nth_error bands ib = Some B ->
    nth_error A i = Some (Fin a) -> nth_error B i = Some (Fin a) ->
    exists out v,
      calc bands = Some out /\ nth_error out i = Some (Fin v) /\ v == 0.

Ltac zero_equal lem :=
  intros bands A B i a HA HB Ha Hb; cbv beta iota delta
    [EngineA.calculate_ndvi EngineA.calculate_ndwi EngineA.calculate_ndbi
     EngineA.calculate_ndsi
     EngineB.ndvi_default EngineB.ndwi_default EngineB.ndbi_default
     EngineB.ndsi_default EngineB.calculate_ndvi EngineB.calculate_ndwi
     EngineB.calculate_ndbi EngineB.calculate_ndsi EngineB.get_band raster] in *;
  rewrite HA, HB; cbv zeta;
  destruct (ratio_pixel_equal_operands a) as (v & E & Hv);
  eexists; exists v; split; [reflexivity |]; split; [| exact Hv];
  erewrite lem by eassumption; rewrite E; reflexivity.

(** X3: wherever the two bands of a ratio index hold the same finite value
    (Red = NIR for NDVI, and likewise for NDWI, NDBI and NDSI), the index is
    exactly 0 at that pixel, in both engines; also when that value is 0 and
    the denominator is replaced by 1e-10. *)
Theorem ratio_index_zero_on_equal_bands :
  (zero_on_equal_operands EngineA.calculate_ndvi 3 2 /\
   zero_on_equal_operands EngineA.calculate_ndwi 1 3 /\
   zero_on_equal_operands EngineA.calculate_ndbi 4 3 /\
   zero_on_equal_operands EngineA.calculate_ndsi 1 4) /\
  (zero_on_equal_operands EngineB.ndvi_default 3 2 /\
   zero_on_equal_operands EngineB.ndwi_default 1 3 /\
   zero_on_equal_operands EngineB.ndbi_default 4 3 /\
   zero_on_equal_operands EngineB.ndsi_default 1 4).
Proof.
  split; (split; [| split; [| split]]);
    first [zero_equal engineA_pixel | zero_equal engineB_pixel].
Qed.

(** ** How many bands a method needs *)

Lemma nth_error_none_iff {A} (l : list A) k :
  nth_error l k = None <-> (length l <= k)%nat.
Proof. apply nth_error_None. Qed.

(** [needs calc k]: the method returns nothing exactly on the band stacks
    with fewer than [k] bands. *)
Definition needs {R} (calc : list raster -> option R) (k : nat) : Prop :=
  forall bands, calc bands = None <-> (length bands < k)%nat.

Ltac needs_bands :=
  intros bands; cbv beta iota delta
    [EngineA.calculate_ndvi EngineA.calculate_ndwi EngineA.calculate_ndbi
     EngineA.calculate_ndsi EngineA.calculate_wetness EngineA.calculate_dryness
     EngineA.calculate_heat EngineA.calculate_greenness EngineA.weighted_sum
     EngineB.ndvi_default EngineB.ndwi_default EngineB.ndbi_default
     EngineB.ndsi_default EngineB.calculate_ndvi EngineB.calculate_ndwi
     EngineB.calculate_ndbi EngineB.calculate_ndsi EngineB.get_band];
  destruct bands as [| b0 [| b1 [| b2 [| b3 [| b4 [| b5 bands]]]]]];
  cbn [nth_error length]; split; intros H; first [lia | discriminate H | reflexivity].

(** X4: a method that indexes the band stack past its end returns nothing
    instead of raising.  NDVI and NDWI need 4 bands, NDBI and NDSI need 5
    (in both engines), and each of Engine A's four Tasseled-Cap-style
    components needs 6; with enough bands every one of them returns a
    raster. *)
Theorem band_requirements :
  (needs EngineA.calculate_ndvi 4 /\ needs EngineA.calculate_ndwi 4 /\
   needs EngineA.calculate_ndbi 5 /\ needs EngineA.calculate_ndsi 5) /\
  (needs EngineB.ndvi_default 4 /\ needs EngineB.ndwi_default 4 /\
   needs EngineB.ndbi_default 5 /\ needs EngineB.ndsi_default 5) /\
  (needs EngineA.calculate_wetness 6 /\ needs EngineA.calculate_dryness 6 /\
   needs EngineA.calculate_heat 6 /\ needs EngineA.calculate_greenness 6).
Proof.
  split; [| split]; (split; [| split; [| split]]); needs_bands.
Qed.

End RatioIndexProperties.

(* ================================================================== *)
(** * Tasseled Cap components across the two engines, and RSEI's bands *)
(* ================================================================== *)

Module ComponentProperties.
Import NumPy NumPyFacts.
Local Open Scope Q_scope.

(** Row [i] of a column stack holds pixel [i] of every column. *)
Lemma nth_error_column_stack (columns : list raster) i (xs : list npfloat) :
  columns <> [] ->
  Forall2 (fun c x => nth_error c i = Some x) columns xs ->
  nth_error (column_stack columns) i = Some xs.
Proof.
  intros Hne H. induction H as [| c x cs xs' Hc Hrest IH]; [contradiction |].
  destruct cs as [| c' cs].
  - inversion Hrest; subst. cbn [column_stack].
    rewrite nth_error_map, Hc. reflexivity.
  - change (column_stack (c :: c' :: cs))
      with (map2 cons c (column_stack (c' :: cs))).
    apply nth_error_map2; [exact Hc | apply IH; discriminate].
Qed.

(** Engine A's weighted sum at a pixel where the six bands are finite. *)
Lemma weighted_sum_pixel c0 c1 c2 c3 c4 c5 b0 b1 b2 b3 b4 b5 rest i
      (v0 v1 v2 v3 v4 v5 : Q) :
  nth_error b0 i = Some (Fin v0) -> nth_error b1 i = Some (Fin v1) ->
  nth_error b2 i = Some (Fin v2) -> nth_error b3 i = Some (Fin v3) ->
  nth_error b4 i = Some (Fin v4) -> nth_error b5 i = Some (Fin v5) ->
  exists out,
    EngineA.weighted_sum c0 c1 c2 c3 c4 c5 (b0 :: b1 :: b2 :: b3 :: b4 :: b5 :: rest)
      = Some out /\
    nth_error out i
      = Some (Fin (c0 * v0 + c1 * v1 + c2 * v2 + c3 * v3 + c4 * v4 + c5 * v5)).
Proof.
  intros H0 H1 H2 H3 H4 H5. eexists. split; [reflexivity |].
  unfold arr_add, arr_scale.
  assert (S0 : nth_error (map (np_mul (Fin c0)) b0) i = Some (Fin (c0 * v0)))
    by (rewrite nth_error_map, H0; reflexivity).
  assert (S1 : nth_error (map (np_mul (Fin c1)) b1) i = Some (Fin (c1 * v1)))
    by (rewrite nth_error_map, H1; reflexivity).
  assert (S2 : nth_error (map (np_mul (Fin c2)) b2) i = Some (Fin (c2 * v2)))
    by (rewrite nth_error_map, H2; reflexivity).
  assert (S3 : nth_error (map (np_mul (Fin c3)) b3) i = Some (Fin (c3 * v3)))
    by (rewrite nth_error_map, H3; reflexivity).
  assert (S4 : nth_error (map (np_mul (Fin c4)) b4) i = Some (Fin (c4 * v4)))
    by (rewrite nth_error_map, H4; reflexivity).
  assert (S5 : nth_error (map (np_mul (Fin c5)) b5) i = Some (Fin (c5 * v5)))
    by (rewrite nth_error_map, H5; reflexivity).
  pose proof (@nth_error_map2 _ _ _ np_add _ _ _ _ _ S0 S1) as T1.
  pose proof (@nth_error_map2 _ _ _ np_add _ _ _ _ _ T1 S2) as T2.
  pose proof (@nth_error_map2 _ _ _ np_add _ _ _ _ _ T2 S3) as T3.
  pose proof (@nth_error_map2 _ _ _ np_add _ _ _ _ _ T3 S4) as T4.
  exact (@nth_error_map2 _ _ _ np_add _ _ _ _ _ T4 S5).
Qed.

(** Engine B's dot product at such a pixel, for a component of the table. *)
Lemma tasseled_cap_pixel b0 b1 b2 b3 b4 b5 rest i (v0 v1 v2 v3 v4 v5 : Q)
      component c0 c1 c2 c3 c4 c5 :
  nth_error b0 i = Some (Fin v0) -> nth_error b1 i = Some (Fin v1) ->
  nth_error b2 i = Some (Fin v2) -> nth_error b3 i = Some (Fin v3) ->
  nth_error b4 i = Some (Fin v4) -> nth_error b5 i = Some (Fin v5) ->
  In (component, [c0; c1; c2; c3; c4; c5]) EngineB.tc_coefficients ->
  exists tc out,
    EngineB.calculate_tasseled_cap (b0 :: b1 :: b2 :: b3 :: b4 :: b5 :: rest) = Some tc /\
    EngineB.dict_get tc component = Some out /\
    nth_error out i
      = Some (Fin (0 + v0 * c0 + v1 * c1 + v2 * c2 + v3 * c3 + v4 * c4 + v5 * c5)).
Proof.
  intros H0 H1 H2 H3 H4 H5 Hin.
  assert (Hrow : nth_error (column_stack [b0; b1; b2; b3; b4; b5]) i
                 = Some [Fin v0; Fin v1; Fin v2; Fin v3; Fin v4; Fin v5]).
  { apply nth_error_column_stack; [discriminate |]. repeat constructor; assumption. }
  exists (map (fun item => (fst item, dot (column_stack [b0; b1; b2; b3; b4; b5])
                                          (snd item)))
              EngineB.tc_coefficients).
  exists (dot (column_stack [b0; b1; b2; b3; b4; b5]) [c0; c1; c2; c3; c4; c5]).
  split; [reflexivity |]. split.
  - unfold EngineB.tc_coefficients in *. simpl in Hin.
    repeat (destruct Hin as [Hin | Hin];
            [inversion Hin; subst; clear Hin; reflexivity |]).
    contradiction.
  - unfold dot. rewrite nth_error_map, Hrow. reflexivity.
Qed.

(** ** Engine A's components against Engine B's Tasseled Cap *)

(** Six bands of one pixel. *)
Definition one_pixel_bands : list raster :=
  [[Fin 1]; [Fin 2]; [Fin 3]; [Fin 4]; [Fin 5]; [Fin 6]].

(** At pixel [i], Engine A's method [calcA] and the entry [component] of
    Engine B's Tasseled Cap dict are the same number. *)
Definition same_component (calcA : list raster -> option raster) (component : string)
    (bands : list raster) (i : nat) : Prop :=
  exists outA tc outB x y,
    calcA bands = Some outA /\
    EngineB.calculate_tasseled_cap bands = Some tc /\
    EngineB.dict_get tc component = Some outB /\
    nth_error outA i = Some (Fin x) /\ nth_error outB i = Some (Fin y) /\ x == y.

(** X5: at every pixel whose first six bands are numbers, Engine A's
    [calculate_greenness] and [calculate_wetness] give the same value as the
    'greenness' and 'wetness' components of Engine B's Tasseled Cap
    transform: the two engines use one coefficient row for each.  (In exact
    arithmetic; the summation order differs.) *)
Theorem greenness_and_wetness_agree_across_engines
    b0 b1 b2 b3 b4 b5 rest i (v0 v1 v2 v3 v4 v5 : Q) :
  nth_error b0 i = Some (Fin v0) -> nth_error b1 i = Some (Fin v1) ->
  nth_error b2 i = Some (Fin v2) -> nth_error b3 i = Some (Fin v3) ->
  nth_error b4 i = Some (Fin v4) -> nth_error b5 i = Some (Fin v5) ->
  same_component EngineA.calculate_greenness "greenness"
                 (b0 :: b1 :: b2 :: b3 :: b4 :: b5 :: rest) i /\
  same_component EngineA.calculate_wetness "wetness"
                 (b0 :: b1 :: b2 :: b3 :: b4 :: b5 :: rest) i.
Proof.
  intros H0 H1 H2 H3 H4 H5. split.
  - destruct (@weighted_sum_pixel (-0.2941) (-0.2430) (-0.5424) 0.7276 0.0713 (-0.1608)
                _ _ _ _ _ _ rest _ _ _ _ _ _ _ H0 H1 H2 H3 H4 H5) as (outA & EA & PA).
    destruct (@tasseled_cap_pixel _ _ _ _ _ _ rest _ _ _ _ _ _ _ "greenness"
                (-0.2941) (-0.2430) (-0.5424) 0.7276 0.0713 (-0.1608)
                H0 H1 H2 H3 H4 H5) as (tc & outB & EB & DB & PB).
    { right. left. reflexivity. }
    exists outA, tc, outB. eexists. eexists.
    repeat (split; [eassumption |]). ring.
  - destruct (@weighted_sum_pixel 0.1511 0.1973 0.3283 0.3407 (-0.7117) (-0.4559)
                _ _ _ _ _ _ rest _ _ _ _ _ _ _ H0 H1 H2 H3 H4 H5) as (outA & EA & PA).
    destruct (@tasseled_cap_pixel _ _ _ _ _ _ rest _ _ _ _ _ _ _ "wetness"
                0.1511 0.1973 0.3283 0.3407 (-0.7117) (-0.4559)
                H0 H1 H2 H3 H4 H5) as (tc & outB & EB & DB & PB).
    { right. right. left. reflexivity. }
    exists outA, tc, outB. eexists. eexists.
    repeat (split; [eassumption |]). ring.
Qed.

Lemma greenness_and_wetness_agree_across_engines_witness :
  same_component EngineA.calculate_greenness "greenness" one_pixel_bands 0 /\
  same_component EngineA.calculate_wetness "wetness" one_pixel_bands 0.
Proof.
  apply (@greenness_and_wetness_agree_across_engines
           [Fin 1] [Fin 2] [Fin 3] [Fin 4] [Fin 5] [Fin 6] [] 0%nat 1 2 3 4 5 6);
    reflexivity.
Defined.

(** X6: Engine A's dryness index differs from its greenness index in the
    Blue and Green coefficients only: at every pixel whose six bands are
    numbers, dryness - greenness = 0.0005 * Blue - 0.0004 * Green. *)
Theorem dryness_is_greenness_up_to_blue_and_green
    b0 b1 b2 b3 b4 b5 rest i (v0 v1 v2 v3 v4 v5 : Q) :
  nth_error b0 i = Some (Fin v0) -> nth_error b1 i = Some (Fin v1) ->
  nth_error b2 i = Some (Fin v2) -> nth_error b3 i = Some (Fin v3) ->
  nth_error b4 i = Some (Fin v4) -> nth_error b5 i = Some (Fin v5) ->
  exists dryness greenness d g,
    EngineA.calculate_dryness (b0 :: b1 :: b2 :: b3 :: b4 :: b5 :: rest) = Some dryness /\
    EngineA.calculate_greenness (b0 :: b1 :: b2 :: b3 :: b4 :: b5 :: rest) = Some greenness /\
    nth_error dryness i = Some (Fin d) /\
    nth_error greenness i = Some (Fin g) /\
    d - g == 0.0005 * v0 - 0.0004 * v1.
Proof.
  intros H0 H1 H2 H3 H4 H5.
  destruct (@weighted_sum_pixel (-0.2936) (-0.2434) (-0.5424) 0.7276 0.0713 (-0.1608)
              _ _ _ _ _ _ rest _ _ _ _ _ _ _ H0 H1 H2 H3 H4 H5) as (outD & ED & PD).
  destruct (@weighted_sum_pixel (-0.2941) (-0.2430) (-0.5424) 0.7276 0.0713 (-0.1608)
              _ _ _ _ _ _ rest _ _ _ _ _ _ _ H0 H1 H2 H3 H4 H5) as (outG & EG & PG).
  exists outD, outG. eexists. eexists.
  repeat (split; [eassumption |]). ring.
Qed.

Lemma dryness_is_greenness_up_to_blue_and_green_witness :
  exists dryness greenness d g,
    EngineA.calculate_dryness one_pixel_bands = Some dryness /\
    EngineA.calculate_greenness one_pixel_bands = Some greenness /\
    nth_error dryness 0 = Some (Fin d) /\
    nth_error greenness 0 = Some (Fin g) /\
    d - g == 0.0005 * 1 - 0.0004 * 2.
Proof.
  apply (@dryness_is_greenness_up_to_blue_and_green
           [Fin 1] [Fin 2] [Fin 3] [Fin 4] [Fin 5] [Fin 6] [] 0%nat 1 2 3 4 5 6);
    reflexivity.
Defined.

(** ** RSEI and the number of bands *)

(** X7: with fewer than six bands RSEI is not computed, in either engine and
    whatever the statistical library would answer: Engine A lacks a band
    for its components, and Engine B's Tasseled Cap transform yields no
    component to read. *)
Theorem rsei_needs_six_bands (sklearn : pca_oracle) (bands : list raster) :
  (length bands < 6)%nat ->
  EngineA.calculate_rsei sklearn bands = None /\
  EngineB.calculate_rsei sklearn bands = None.
Proof.
  intros H.
  destruct bands as [| b0 [| b1 [| b2 [| b3 [| b4 [| b5 bands]]]]]];
    try (split; reflexivity).
  simpl in H. lia.
Qed.

Lemma rsei_needs_six_bands_witness :
  EngineA.calculate_rsei (fun _ => None) [[Fin 1]; [Fin 2]; [Fin 3]; [Fin 4]] = None /\
  EngineB.calculate_rsei (fun _ => None) [[Fin 1]; [Fin 2]; [Fin 3]; [Fin 4]] = None.
Proof.
  apply rsei_needs_six_bands. simpl. lia.
Defined.

End ComponentProperties.

(* ================================================================== *)
(** * Engine B's statistics: bounds and the class entries *)
(* ================================================================== *)

Module StatisticsProperties.
Import NumPy NumPyFacts EngineB StatisticsFacts RatioIndexProperties.
Local Open Scope Q_scope.

Lemma In_finite_values (index_data : raster) v :
  In v (finite_values index_data) <-> In (Fin v) index_data.
Proof.
  unfold finite_values. rewrite in_flat_map. split.
  - intros (a & Ha & Hv). destruct a as [| | q |]; try contradiction.
    destruct Hv as [<- | []]. exact Ha.
  - intros H. exists (Fin v). split; [exact H | left; reflexivity].
Qed.

Lemma finite_values_length (index_data : raster) :
  (length (finite_values index_data) <= length index_data)%nat.
Proof.
  induction index_data as [| a l IH]; [apply Nat.le_refl |].
  change (finite_values (a :: l))
    with ((match a with Fin q => [q] | _ => [] end) ++ finite_values l).
  rewrite length_app. destruct a; simpl; lia.
Qed.

Lemma np_min_attained xs : forall x, exists a, In a (x :: xs) /\ np_min x xs == a.
Proof.
  unfold np_min. induction xs as [| y xs IH]; intros x.
  - exists x. split; [left; reflexivity | reflexivity].
  - destruct (IH (Qmin x y)) as (a & [Ha | Ha] & E).
    + destruct (Q.min_dec x y) as [D | D].
      * exists x. split; [left; reflexivity |].
        simpl. rewrite E, <- Ha. exact D.
      * exists y. split; [right; left; reflexivity |].
        simpl. rewrite E, <- Ha. exact D.
    + exists a. split; [right; right; exact Ha | exact E].
Qed.

Lemma np_max_attained xs : forall x, exists a, In a (x :: xs) /\ np_max x xs == a.
Proof.
  unfold np_max. induction xs as [| y xs IH]; intros x.
  - exists x. split; [left; reflexivity | reflexivity].
  - destruct (IH (Qmax x y)) as (a & [Ha | Ha] & E).
    + destruct (Q.max_dec x y) as [D | D].
      * exists x. split; [left; reflexivity |].
        simpl. rewrite E, <- Ha. exact D.
      * exists y. split; [right; left; reflexivity |].
        simpl. rewrite E, <- Ha. exact D.
    + exists a. split; [right; right; exact Ha | exact E].
Qed.

(** X8: Engine B's [calculate_statistics] returns nothing exactly when the
    raster has no finite pixel.  When it returns, the valid-pixel count is
    at least 1 and at most the raster size, every finite pixel lies between
    the reported minimum and maximum, and both are values of finite pixels
    of the raster. *)
Theorem statistics_bounds (index_data : raster) :
  (calculate_statistics index_data = None <-> forall v, ~ In (Fin v) index_data) /\
  (forall s, calculate_statistics index_data = Some s ->
     (1 <= valid_pixels s <= total_pixels s)%nat /\
     total_pixels s = length index_data /\
     (forall v, In (Fin v) index_data -> stat_min s <= v <= stat_max s) /\
     (exists a b, In (Fin a) index_data /\ In (Fin b) index_data /\
                  stat_min s == a /\ stat_max s == b)).
Proof.
  unfold calculate_statistics.
  pose proof (finite_values_length index_data) as HL.
  pose proof (In_finite_values index_data) as HI.
  destruct (finite_values index_data) as [| v0 rest]; split.
  - split; [| reflexivity]. intros _ v Hv. apply HI in Hv. exact Hv.
  - discriminate.
  - split; [discriminate |]. intros H. exfalso.
    apply (H v0), HI. left. reflexivity.
  - intros s [= <-]. cbn [valid_pixels total_pixels stat_min stat_max].
    split; [simpl in *; lia |]. split; [reflexivity |]. split.
    + intros v Hv. apply HI in Hv. destruct Hv as [<- | Hv]; split.
      * apply np_min_le_init.
      * apply np_max_ge_init.
      * apply np_min_le. exact Hv.
      * apply np_max_ge. exact Hv.
    + destruct (np_min_attained rest v0) as (a & Ha & Ea).
      destruct (np_max_attained rest v0) as (b & Hb & Eb).
      exists a, b. repeat split; try assumption; apply HI; assumption.
Qed.

(** ** When the class entries are written *)

Lemma range_test (v0 : Q) rest :
  (Qle_bool (-1 # 1) (np_min v0 rest) && Qle_bool (np_max v0 rest) 1)%bool = true
  <-> forall v, In v (v0 :: rest) -> -1 # 1 <= v <= 1.
Proof.
  rewrite andb_true_iff, !Qle_bool_iff. split.
  - intros [Hmin Hmax] v Hv.
    pose proof (valid_data_in_range _ _ Hmin Hmax) as F.
    rewrite Forall_forall in F. apply F. exact Hv.
  - intros H.
    destruct (np_min_attained rest v0) as (a & Ha & Ea).
    destruct (np_max_attained rest v0) as (b & Hb & Eb).
    rewrite Ea, Eb. split; [apply (H a Ha) | apply (H b Hb)].
Qed.

(** X9: the five class entries are written exactly when every finite pixel
    lies in [-1, 1]: then the statistics hold the five classes, in the order
    of the labels; as soon as one finite pixel lies outside [-1, 1] the
    statistics hold no class entry at all. *)
Theorem classes_only_within_unit_range (index_data : raster) s :
  calculate_statistics index_data = Some s ->
  ((forall v, In (Fin v) index_data -> -1 # 1 <= v <= 1) ->
   map fst (classes s) = labels) /\
  ((exists v, In (Fin v) index_data /\ ~ (-1 # 1 <= v <= 1)) ->
   classes s = []).
Proof.
  unfold calculate_statistics.
  pose proof (In_finite_values index_data) as HI.
  destruct (finite_values index_data) as [| v0 rest]; [discriminate |].
  intros [= <-]. cbn [classes].
  pose proof (range_test v0 rest) as T.
  destruct (Qle_bool (-1 # 1) (np_min v0 rest) && Qle_bool (np_max v0 rest) 1)%bool;
    split.
  - intros _. reflexivity.
  - intros (v & Hv & Hout). exfalso. apply Hout.
    apply (proj1 T eq_refl). apply HI. exact Hv.
  - intros H. assert (false = true) as F; [| discriminate F].
    apply T. intros v Hv. apply H, HI. exact Hv.
  - intros _. reflexivity.
Qed.

Lemma classes_only_within_unit_range_witness :
  (exists s, calculate_statistics [Fin (1 # 2); NaN; Fin 0] = Some s /\
             map fst (classes s) = labels) /\
  (exists s, calculate_statistics [Fin (1 # 2); Fin 3] = Some s /\ classes s = []).
Proof.
  split.
  - eexists. split; [reflexivity |].
    refine (proj1 (@classes_only_within_unit_range
                     [Fin (1 # 2); NaN; Fin 0] _ eq_refl) _).
    intros v [H | [H | [H | []]]]; inversion H; subst; split; discriminate.
  - eexists. split; [reflexivity |].
    refine (proj2 (@classes_only_within_unit_range
                     [Fin (1 # 2); Fin 3] _ eq_refl) _).
    exists 3. split; [right; left; reflexivity |].
    intros [_ H]. apply H. reflexivity.
Defined.

(** ** Statistics of the ratio indices *)

(** The statistics of whatever [calc] returns carry the five classes, and
    the class counts together do not exceed the valid pixels. *)
Definition always_classified (calc : list raster -> option raster) : Prop :=
  forall bands out s,
    calc bands = Some out -> calculate_statistics out = Some s ->
    map fst (classes s) = labels /\ (class_pixel_total s <= valid_pixels s)%nat.

Lemma in_range_classified (out : raster) s :
  (forall i y, nth_error out i = Some y -> in_range y) ->
  calculate_statistics out = Some s ->
  map fst (classes s) = labels /\ (class_pixel_total s <= valid_pixels s)%nat.
Proof.
  intros Hrange Hs.
  assert (Hin : forall v, In (Fin v) out -> -1 # 1 <= v <= 1).
  { intros v Hv. apply In_nth_error in Hv. destruct Hv as [i Hi].
    destruct (Hrange i _ Hi) as [E | (w & E & Hw)]; [discriminate E |].
    injection E as ->. exact Hw. }
  pose proof (@class_pixels_and_ones out s Hs) as P.
  revert Hs P. unfold calculate_statistics.
  pose proof (In_finite_values out) as HI.
  destruct (finite_values out) as [| v0 rest] eqn:E; [discriminate |].
  intros [= <-]. cbn [classes stat_min stat_max valid_pixels].
  assert (T : (Qle_bool (-1 # 1) (np_min v0 rest) && Qle_bool (np_max v0 rest) 1)%bool
              = true).
  { apply range_test. intros v Hv. apply Hin, HI. exact Hv. }
  pose proof T as T'. apply andb_true_iff in T'. destruct T' as [T1 T2].
  apply Qle_bool_iff in T1, T2. intros P. specialize (P T1 T2).
  split; [rewrite T; reflexivity | lia].
Qed.

Ltac classified_B :=
  intros bands out s Hcalc; apply in_range_classified; revert Hcalc;
  cbv beta iota delta
    [EngineB.ndvi_default EngineB.ndwi_default EngineB.ndbi_default
     EngineB.ndsi_default EngineB.calculate_ndvi EngineB.calculate_ndwi
     EngineB.calculate_ndbi EngineB.calculate_ndsi EngineB.get_band];
  repeat match goal with
         | |- context [match nth_error bands ?k with _ => _ end] =>
             destruct (nth_error bands k); [| discriminate]
         end;
  cbv zeta; intros [= <-] i y; apply arr_clip_in_range.

(** X10: the statistics Engine B computes for its own NDVI, NDWI, NDBI and
    NDSI rasters always carry the five class entries (the clip to [-1, 1]
    guarantees the range test), and the five class counts together never
    exceed the number of valid pixels. *)
Theorem ratio_index_statistics_are_classified :
  always_classified ndvi_default /\ always_classified ndwi_default /\
  always_classified ndbi_default /\ always_classified ndsi_default.
Proof.
  split; [| split; [| split]]; classified_B.
Qed.

End StatisticsProperties.

(* ================================================================== *)
(** * Engine A's statistics: the five quality classes *)
(* ================================================================== *)

Module ClassAreaProperties.
Import NumPy NumPyFacts StatisticsFacts.
Local Open Scope Q_scope.

Lemma Qle_bool_reflect (a b : Q) : reflect (a <= b) (Qle_bool a b).
Proof. apply iff_reflect. symmetry. apply Qle_bool_iff. Qed.

(** With ordered finite thresholds every value that is not NaN passes
    exactly one of the five tests. *)
Lemma one_class_per_pixel (v : npfloat) (poor moderate good excellent : Q) :
  v <> NaN -> poor <= moderate -> moderate <= good -> good <= excellent ->
  (hit (EngineA.np_geb v (Fin excellent))
   + hit (EngineA.np_geb v (Fin good) && EngineA.np_ltb v (Fin excellent))
   + hit (EngineA.np_geb v (Fin moderate) && EngineA.np_ltb v (Fin good))
   + hit (EngineA.np_geb v (Fin poor) && EngineA.np_ltb v (Fin moderate))
   + hit (EngineA.np_ltb v (Fin poor)) = 1)%nat.
Proof.
  intros Hv H1 H2 H3. destruct v as [| | x |]; [contradiction | reflexivity | | reflexivity].
  unfold EngineA.np_geb, EngineA.np_ltb, np_leb.
  destruct (Qle_bool_reflect excellent x), (Qle_bool_reflect x excellent),
           (Qle_bool_reflect good x), (Qle_bool_reflect x good),
           (Qle_bool_reflect moderate x), (Qle_bool_reflect x moderate),
           (Qle_bool_reflect poor x), (Qle_bool_reflect x poor);
    try reflexivity; exfalso; Lqa.lra.
Qed.

Lemma counts_partition {A} (f1 f2 f3 f4 f5 : A -> bool) (l : list A) :
  (forall v, In v l ->
     (hit (f1 v) + hit (f2 v) + hit (f3 v) + hit (f4 v) + hit (f5 v) = 1)%nat) ->
  (count_true (map f1 l) + count_true (map f2 l) + count_true (map f3 l)
   + count_true (map f4 l) + count_true (map f5 l) = length l)%nat.
Proof.
  induction l as [| v l IH]; intros H; [reflexivity |].
  rewrite !count_true_cons. simpl length.
  specialize (H v (or_introl eq_refl)) as Hv.
  assert (IH' := IH (fun w Hw => H w (or_intror Hw))). lia.
Qed.

Lemma counts_none {A} (f : A -> bool) (l : list A) :
  (forall v, In v l -> f v = false) -> count_true (map f l) = 0%nat.
Proof.
  induction l as [| v l IH]; intros H; [reflexivity |].
  rewrite count_true_cons, (H v (or_introl eq_refl)), IH; [reflexivity |].
  intros w Hw. apply H. right. exact Hw.
Qed.

Lemma counts_all {A} (f : A -> bool) (l : list A) :
  (forall v, In v l -> f v = true) -> count_true (map f l) = length l.
Proof.
  induction l as [| v l IH]; intros H; [reflexivity |].
  rewrite count_true_cons, (H v (or_introl eq_refl)), IH; [reflexivity |].
  intros w Hw. apply H. right. exact Hw.
Qed.

Lemma class_area_add (a b : nat) :
  EngineA.class_area a + EngineA.class_area b == EngineA.class_area (a + b).
Proof.
  unfold EngineA.class_area. rewrite Nat2Z.inj_add, inject_Z_plus. ring.
Qed.

(** The pixels a raster's statistics are taken over. *)
Definition valid_data (index_data : raster) : raster :=
  filter (fun x => negb (np_isnan x)) index_data.

Lemma valid_data_not_nan (index_data : raster) v :
  In v (valid_data index_data) -> v <> NaN.
Proof.
  unfold valid_data. rewrite filter_In. intros [_ H] ->. discriminate H.
Qed.

(** X11: when the mean and the standard deviation of the valid pixels are
    numbers (the deviation not negative), Engine A's five class areas add up
    to the area of all valid pixels: every pixel that is not NaN is counted
    in exactly one class, at 0.0009 km2 a pixel. *)
Theorem class_areas_cover_the_valid_pixels
    (np_nanstd : raster -> npfloat) (index_data : raster) s (m sd : Q) :
  EngineA.calculate_statistics np_nanstd index_data = Some s ->
  EngineA.mean_value s = Fin m -> EngineA.std_value s = Fin sd -> 0 <= sd ->
  EngineA.excellent_area s + EngineA.good_area s + EngineA.moderate_area s
  + EngineA.poor_area s + EngineA.bad_area s
  == (9 # 10000) * inject_Z (Z.of_nat (length (valid_data index_data))).
Proof.
  unfold EngineA.calculate_statistics. fold (valid_data index_data).
  pose proof (@valid_data_not_nan index_data) as Hnn.
  destruct (length (valid_data index_data) =? 0)%nat; [discriminate |].
  cbv zeta. intros [= <-].
  cbn [EngineA.mean_value EngineA.std_value EngineA.excellent_area EngineA.good_area
       EngineA.moderate_area EngineA.poor_area EngineA.bad_area].
  intros -> -> Hsd.
  rewrite !class_area_add.
  change (np_add (Fin m) (np_mul (Fin 1.5) (Fin sd))) with (Fin (m + 1.5 * sd)).
  change (np_add (Fin m) (np_mul (Fin 0.5) (Fin sd))) with (Fin (m + 0.5 * sd)).
  change (np_sub (Fin m) (np_mul (Fin 0.5) (Fin sd))) with (Fin (m + - (0.5 * sd))).
  change (np_sub (Fin m) (np_mul (Fin 1.5) (Fin sd))) with (Fin (m + - (1.5 * sd))).
  rewrite (@counts_partition _ _ _ _ _ _ (valid_data index_data)).
  - unfold EngineA.class_area, EngineA.area_per_pixel. field.
  - intros v Hv. apply one_class_per_pixel; [apply Hnn; exact Hv | | |]; Lqa.lra.
Qed.

(** A stand-in for numpy's standard deviation on the rasters below. *)
Definition std_one : raster -> npfloat := fun _ => Fin 1.

Lemma class_areas_cover_the_valid_pixels_witness :
  exists s,
    EngineA.calculate_statistics std_one [Fin 1; NaN; Fin 3; Fin 2; Fin 0] = Some s /\
    EngineA.excellent_area s + EngineA.good_area s + EngineA.moderate_area s
    + EngineA.poor_area s + EngineA.bad_area s == (9 # 10000) * 4.
Proof.
  eexists. split; [reflexivity |].
  eapply (@class_areas_cover_the_valid_pixels std_one [Fin 1; NaN; Fin 3; Fin 2; Fin 0]);
    [reflexivity | reflexivity | reflexivity | discriminate].
Defined.

(** X12: when the mean or the standard deviation of the valid pixels is NaN
    (a raster holding both infinities, or a deviation numpy could not
    compute), every threshold is NaN, every test fails, and all five class
    areas are 0, however many valid pixels there are. *)
Theorem nan_moments_give_empty_classes
    (np_nanstd : raster -> npfloat) (index_data : raster) s :
  EngineA.calculate_statistics np_nanstd index_data = Some s ->
  EngineA.mean_value s = NaN \/ EngineA.std_value s = NaN ->
  EngineA.excellent_area s == 0 /\ EngineA.good_area s == 0 /\
  EngineA.moderate_area s == 0 /\ EngineA.poor_area s == 0 /\
  EngineA.bad_area s == 0.
Proof.
  unfold EngineA.calculate_statistics. fold (valid_data index_data).
  destruct (length (valid_data index_data) =? 0)%nat; [discriminate |].
  cbv zeta. intros [= <-].
  cbn [EngineA.mean_value EngineA.std_value EngineA.excellent_area EngineA.good_area
       EngineA.moderate_area EngineA.poor_area EngineA.bad_area].
  intros H.
  destruct H as [E | E]; rewrite E; [| destruct (EngineA.nanmean _)];
    repeat split; rewrite counts_none; try reflexivity; intros v _;
    destruct v; reflexivity.
Qed.

Lemma nan_moments_give_empty_classes_witness :
  exists s,
    EngineA.calculate_statistics std_one [PosInf; Fin 1; NegInf] = Some s /\
    EngineA.excellent_area s == 0 /\ EngineA.good_area s == 0 /\
    EngineA.moderate_area s == 0 /\ EngineA.poor_area s == 0 /\
    EngineA.bad_area s == 0.
Proof.
  eexists. split; [reflexivity |].
  eapply (@nan_moments_give_empty_classes std_one [PosInf; Fin 1; NegInf]);
    [reflexivity | left; reflexivity].
Defined.

(** ** A raster of one value *)

Lemma sum_of_equal (c : Q) (l : raster) :
  (forall v, In v l -> v = Fin c) ->
  forall a, exists t, fold_left np_add l (Fin a) = Fin t /\
                      t == a + inject_Z (Z.of_nat (length l)) * c.
Proof.
  induction l as [| v l IH]; intros H a.
  - exists a. split; [reflexivity |]. simpl. ring.
  - rewrite (H v (or_introl eq_refl)). cbn [fold_left np_add].
    destruct (IH (fun w Hw => H w (or_intror Hw)) (a + c)) as (t & E & Ht).
    exists t. split; [exact E |]. rewrite Ht.
    change (length (Fin c :: l)) with (S (length l)).
    rewrite Nat2Z.inj_succ. unfold Z.succ. rewrite inject_Z_plus. ring.
Qed.

(** X13: a raster whose valid pixels all hold one value [c], with standard
    deviation 0, is rated 'excellent' throughout, whatever [c] is: the four
    thresholds coincide with the mean, so the other four class areas are 0. *)
Theorem uniform_raster_is_all_excellent
    (np_nanstd : raster -> npfloat) (index_data : raster) s (c : Q) :
  EngineA.calculate_statistics np_nanstd index_data = Some s ->
  (forall y, In y index_data -> y = NaN \/ y = Fin c) ->
  EngineA.std_value s = Fin 0 ->
  EngineA.excellent_area s
    == (9 # 10000) * inject_Z (Z.of_nat (length (valid_data index_data))) /\
  EngineA.good_area s == 0 /\ EngineA.moderate_area s == 0 /\
  EngineA.poor_area s == 0 /\ EngineA.bad_area s == 0.
Proof.
  unfold EngineA.calculate_statistics. fold (valid_data index_data).
  destruct (length (valid_data index_data) =? 0)%nat eqn:En; [discriminate |].
  apply Nat.eqb_neq in En.
  cbv zeta. intros [= <-].
  cbn [EngineA.mean_value EngineA.std_value EngineA.excellent_area EngineA.good_area
       EngineA.moderate_area EngineA.poor_area EngineA.bad_area].
  intros Hall ->.
  assert (Hv : forall v, In v (valid_data index_data) -> v = Fin c).
  { intros v Hv. unfold valid_data in Hv. apply filter_In in Hv.
    destruct Hv as [Hin Hn]. destruct (Hall v Hin) as [-> | ->];
      [discriminate Hn | reflexivity]. }
  destruct (@sum_of_equal c _ Hv 0) as (t & Et & Ht).
  unfold EngineA.nanmean. rewrite Et.
  set (n := inject_Z (Z.of_nat (length (valid_data index_data)))) in *.
  assert (Hn : ~ n == 0).
  { unfold n. intros E. apply En.
    assert (Z.of_nat (length (valid_data index_data)) = 0%Z) as Z0; [| lia].
    unfold Qeq in E. simpl in E. lia. }
  cbn [np_div]. destruct (Qeq_bool n 0) eqn:Eq0;
    [apply Qeq_bool_iff in Eq0; contradiction |].
  cbn [np_mul np_add np_sub np_neg].
  assert (Hm : t / n == c) by (rewrite Ht; field; exact Hn).
  assert (G : forall q, q == c ->
                forall v, In v (valid_data index_data) ->
                          EngineA.np_geb v (Fin q) = true /\
                          EngineA.np_ltb v (Fin q) = false).
  { intros q Hq v Hin. rewrite (Hv v Hin).
    unfold EngineA.np_geb, EngineA.np_ltb, np_leb.
    assert (Qle_bool q c = true) as -> by (apply Qle_bool_iff; rewrite Hq; apply Qle_refl).
    assert (Qle_bool c q = true) as -> by (apply Qle_bool_iff; rewrite Hq; apply Qle_refl).
    split; reflexivity. }
  assert (E1 : t / n + 1.5 * 0 == c) by (rewrite Hm; ring).
  assert (E2 : t / n + 0.5 * 0 == c) by (rewrite Hm; ring).
  assert (E3 : t / n + - (0.5 * 0) == c) by (rewrite Hm; ring).
  assert (E4 : t / n + - (1.5 * 0) == c) by (rewrite Hm; ring).
  split; [| split; [| split; [| split]]].
  - rewrite counts_all.
    + unfold EngineA.class_area, EngineA.area_per_pixel. fold n. field.
    + intros v Hin. apply (G _ E1 v Hin).
  - rewrite counts_none; [reflexivity |].
    intros v Hin. rewrite (proj2 (G _ E1 v Hin)). apply andb_false_r.
  - rewrite counts_none; [reflexivity |].
    intros v Hin. rewrite (proj2 (G _ E2 v Hin)). apply andb_false_r.
  - rewrite counts_none; [reflexivity |].
    intros v Hin. rewrite (proj2 (G _ E3 v Hin)). apply andb_false_r.
  - rewrite counts_none; [reflexivity |].
    intros v Hin. apply (G _ E4 v Hin).
Qed.

(** A stand-in for numpy's standard deviation of a constant raster. *)
Definition std_zero : raster -> npfloat := fun _ => Fin 0.

Lemma uniform_raster_is_all_excellent_witness :
  exists s,
    EngineA.calculate_statistics std_zero [Fin (-1 # 1); NaN; Fin (-1 # 1)] = Some s /\
    EngineA.excellent_area s == (9 # 10000) * 2 /\
    EngineA.good_area s == 0 /\ EngineA.moderate_area s == 0 /\
    EngineA.poor_area s == 0 /\ EngineA.bad_area s == 0.
Proof.
  eexists. split; [reflexivity |].
  eapply (@uniform_raster_is_all_excellent std_zero
            [Fin (-1 # 1); NaN; Fin (-1 # 1)] _ (-1 # 1));
    [reflexivity | | reflexivity].
  intros y [<- | [<- | [<- | []]]]; [right | left | right]; reflexivity.
Defined.

End ClassAreaProperties.

(* ================================================================== *)
(** * The statistics action: class percentages *)
(* ================================================================== *)

Module StatisticsActionProperties.
Import NumPy IndexViews.
Local Open Scope Q_scope.

Lemma total_positive_test (t : Q) :
  EngineA.np_ltb (Fin 0) (Fin t) = true <-> 0 < t.
Proof.
  unfold EngineA.np_ltb, np_leb. rewrite andb_true_iff, negb_true_iff.
  rewrite Qle_bool_iff, <- not_true_iff_false, Qle_bool_iff. split.
  - intros [_ H]. apply Qnot_le_lt. exact H.
  - intros H. split; [apply Qlt_le_weak; exact H | apply Qlt_not_le; exact H].
Qed.

Lemma percentage_value (a t : Q) :
  0 < t -> percentage (Fin a) (Fin t) = Fin (a / t * 100).
Proof.
  intros H. unfold percentage. cbn [np_div].
  destruct (Qeq_bool t 0) eqn:E; [| reflexivity].
  apply Qeq_bool_iff in E. rewrite E in H. discriminate H.
Qed.

(** X14: for a row whose five areas are numbers or NULL, the statistics
    action reports their sum as the total area; when the total is positive
    the five percentages add up to 100, and when it is not (no area stored,
    or all areas 0) all five percentages are 0 and nothing is divided. *)
Theorem percentages_add_up_to_100 (ecological_index : index_areas) (a1 a2 a3 a4 a5 : Q) :
  or_0 (excellent_area ecological_index) = Fin a1 ->
  or_0 (good_area ecological_index) = Fin a2 ->
  or_0 (moderate_area ecological_index) = Fin a3 ->
  or_0 (poor_area ecological_index) = Fin a4 ->
  or_0 (bad_area ecological_index) = Fin a5 ->
  exists t p1 p2 p3 p4 p5,
    total_area (statistics ecological_index) = Fin t /\
    t == a1 + a2 + a3 + a4 + a5 /\
    excellent_percentage (statistics ecological_index) = Fin p1 /\
    good_percentage (statistics ecological_index) = Fin p2 /\
    moderate_percentage (statistics ecological_index) = Fin p3 /\
    poor_percentage (statistics ecological_index) = Fin p4 /\
    bad_percentage (statistics ecological_index) = Fin p5 /\
    (0 < t -> p1 + p2 + p3 + p4 + p5 == 100) /\
    (t <= 0 -> p1 == 0 /\ p2 == 0 /\ p3 == 0 /\ p4 == 0 /\ p5 == 0).
Proof.
  intros H1 H2 H3 H4 H5. unfold statistics. rewrite H1, H2, H3, H4, H5.
  cbn [fold_left np_add].
  set (t := 0 + a1 + a2 + a3 + a4 + a5).
  assert (Ht : t == a1 + a2 + a3 + a4 + a5) by (unfold t; ring).
  destruct (EngineA.np_ltb (Fin 0) (Fin t)) eqn:E.
  - apply total_positive_test in E.
    exists t. do 5 eexists. cbn [total_area excellent_percentage good_percentage
      moderate_percentage poor_percentage bad_percentage].
    rewrite !(percentage_value _ E).
    repeat (split; [first [reflexivity | exact Ht] |]). split.
    + intros _. unfold t in *. field. intros Z. Lqa.lra.
    + intros Hle. exfalso. apply (Qlt_not_le _ _ E Hle).
  - exists t, 0, 0, 0, 0, 0.
    repeat (split; [first [reflexivity | exact Ht] |]). split.
    + intros Hpos. apply total_positive_test in Hpos. congruence.
    + intros _. repeat split; reflexivity.
Qed.

Lemma percentages_add_up_to_100_witness :
  exists t p1 p2 p3 p4 p5,
    total_area (statistics (mkAreas (Some (Fin 3)) None (Some (Fin 1)) (Some (Fin 0)) None))
      = Fin t /\
    t == 3 + 0 + 1 + 0 + 0 /\
    excellent_percentage
      (statistics (mkAreas (Some (Fin 3)) None (Some (Fin 1)) (Some (Fin 0)) None)) = Fin p1 /\
    good_percentage
      (statistics (mkAreas (Some (Fin 3)) None (Some (Fin 1)) (Some (Fin 0)) None)) = Fin p2 /\
    moderate_percentage
      (statistics (mkAreas (Some (Fin 3)) None (Some (Fin 1)) (Some (Fin 0)) None)) = Fin p3 /\
    poor_percentage
      (statistics (mkAreas (Some (Fin 3)) None (Some (Fin 1)) (Some (Fin 0)) None)) = Fin p4 /\
    bad_percentage
      (statistics (mkAreas (Some (Fin 3)) None (Some (Fin 1)) (Some (Fin 0)) None)) = Fin p5 /\
    (0 < t -> p1 + p2 + p3 + p4 + p5 == 100) /\
    (t <= 0 -> p1 == 0 /\ p2 == 0 /\ p3 == 0 /\ p4 == 0 /\ p5 == 0).
Proof.
  apply (@percentages_add_up_to_100
           (mkAreas (Some (Fin 3)) None (Some (Fin 1)) (Some (Fin 0)) None) 3 0 1 0 0);
    reflexivity.
Defined.

End StatisticsActionProperties.

(* ================================================================== *)
(** * The stress indices of the land-use analysis *)
(* ================================================================== *)

Module StressIndexProperties.
Import LandUse LandUseStress.
Local Open Scope Q_scope.

Lemma QofN_le (a b : nat) : (a <= b)%nat -> QofN a <= QofN b.
Proof. intros H. unfold QofN. rewrite <- Zle_Qle. lia. Qed.

Lemma QofN_pos (a : nat) : (0 < a)%nat -> 0 < QofN a.
Proof. intros H. unfold QofN. change 0 with (inject_Z 0). rewrite <- Zlt_Qlt. lia. Qed.

Lemma QofN_add (a b : nat) : QofN (a + b) == QofN a + QofN b.
Proof. unfold QofN. rewrite Nat2Z.inj_add, inject_Z_plus. reflexivity. Qed.

(** The sum of [area * weight] over the classes present. *)
Definition weighted_total (entries : list class_entry) : Q :=
  fold_right (fun e acc => QofN (area e) * weight e + acc) 0 entries.

Lemma proportion_fold (T : Q) (entries : list class_entry) :
  ~ T == 0 ->
  forall a,
    fold_left (fun acc info => acc + QofN (area info) / T * weight info) entries a
    == a + weighted_total entries / T.
Proof.
  intros HT. induction entries as [| e l IH]; intros a.
  - cbn [fold_left weighted_total fold_right]. field. exact HT.
  - change (weighted_total (e :: l)) with (QofN (area e) * weight e + weighted_total l).
    cbn [fold_left]. rewrite IH.
    generalize (QofN (area e)) (weight e) (weighted_total l). intros x w r.
    field. exact HT.
Qed.

Lemma product_fold (entries : list class_entry) :
  forall a,
    fold_left (fun acc info => acc + QofN (area info) * weight info) entries a
    == a + weighted_total entries.
Proof.
  induction entries as [| e l IH]; intros a.
  - cbn [fold_left weighted_total fold_right]. ring.
  - change (weighted_total (e :: l)) with (QofN (area e) * weight e + weighted_total l).
    cbn [fold_left]. rewrite IH. ring.
Qed.

Lemma weighted_total_bounds (lo hi : Q) (entries : list class_entry) :
  (forall e, In e entries -> lo <= weight e <= hi) ->
  lo * QofN (total_of entries) <= weighted_total entries <= hi * QofN (total_of entries).
Proof.
  unfold total_of. induction entries as [| e l IH]; intros H.
  - change (weighted_total []) with 0. change (QofN (list_sum (map area []))) with 0.
    rewrite !Qmult_0_r. split; apply Qle_refl.
  - change (weighted_total (e :: l)) with (QofN (area e) * weight e + weighted_total l).
    change (list_sum (map area (e :: l))) with (area e + list_sum (map area l))%nat.
    destruct (IH (fun x Hx => H x (or_intror Hx))) as [IH1 IH2].
    destruct (H e (or_introl eq_refl)) as [H1 H2].
    rewrite QofN_add.
    assert (0 <= QofN (area e)) by (apply (QofN_le (Nat.le_0_l _))).
    generalize dependent (weighted_total l). generalize dependent (QofN (area e)).
    generalize dependent (QofN (list_sum (map area l))). generalize dependent (weight e).
    intros w H1 H2 t x Hx r IH1 IH2. split; Lqa.nra.
Qed.

Lemma present_entry (table : list (Z * Q)) (data : list Z) (e : class_entry) :
  In e (present_classes table data) ->
  In (class_id e, weight e) table /\ (0 < area e)%nat /\
  area e = count_equal data (class_id e).
Proof.
  unfold present_classes. rewrite filter_In, in_map_iff.
  intros [((c, w) & <- & Hin) Hpos]. cbn [class_id weight area fst snd] in *.
  apply Nat.ltb_lt in Hpos. repeat split; assumption.
Qed.

Lemma present_total_positive (table : list (Z * Q)) (data : list Z) c w :
  In (c, w) table -> In c data -> (0 < total_of (present_classes table data))%nat.
Proof.
  intros Ht Hd.
  assert (Hc : (0 < count_equal data c)%nat) by (apply count_occ_In; exact Hd).
  assert (Hin : In (mkEntry c (count_equal data c) w) (present_classes table data)).
  { unfold present_classes. apply filter_In. split.
    - apply in_map_iff. exists (c, w). split; [reflexivity | exact Ht].
    - apply Nat.ltb_lt. exact Hc. }
  unfold total_of.
  pose proof (@CohesionFacts.in_le_list_sum (map area (present_classes table data))
                (count_equal data c)) as Hle.
  assert (In (count_equal data c) (map area (present_classes table data))) as Hm.
  { apply in_map_iff. eexists. split; [| exact Hin]. reflexivity. }
  specialize (Hle Hm). lia.
Qed.

(** A weighted mean lies between the bounds of the weights. *)
Lemma weighted_mean_bounds (lo hi : Q) (entries : list class_entry) :
  (forall e, In e entries -> lo <= weight e <= hi) ->
  (0 < total_of entries)%nat ->
  lo <= weighted_total entries / QofN (total_of entries) <= hi.
Proof.
  intros Hw Hpos. apply QofN_pos in Hpos.
  destruct (@weighted_total_bounds lo hi entries Hw) as [H1 H2]. split.
  - apply Qle_shift_div_l; assumption.
  - apply Qle_shift_div_r; assumption.
Qed.

Lemma fragility_weights c w :
  In (c, w) class_fragility_table -> 0.1 <= w <= 0.9.
Proof.
  unfold class_fragility_table. simpl.
  intros H. repeat (destruct H as [[= <- <-] | H]; [split; discriminate |]).
  contradiction.
Qed.

Lemma erosion_weights c w :
  In (c, w) erosion_sensitivity -> 0 <= w <= 0.9.
Proof.
  unfold erosion_sensitivity. simpl.
  intros H. repeat (destruct H as [[= <- <-] | H]; [split; discriminate |]).
  contradiction.
Qed.

Lemma degradation_weights c w :
  In (c, w) degradation_sensitivity -> 0 <= w <= 1.
Proof.
  unfold degradation_sensitivity. simpl.
  intros H. repeat (destruct H as [[= <- <-] | H]; [split; discriminate |]).
  contradiction.
Qed.

Lemma no_class_no_entry (table : list (Z * Q)) (data : list Z) :
  (forall c w, In (c, w) table -> In c landuse_classes) ->
  (forall c, In c landuse_classes -> ~ In c data) ->
  present_classes table data = [].
Proof.
  intros Hkeys Hnone.
  destruct (present_classes table data) as [| e l] eqn:E; [reflexivity |].
  exfalso.
  assert (He : In e (present_classes table data)) by (rewrite E; left; reflexivity).
  destruct (@present_entry _ _ _ He) as (Ht & Hpos & Ha).
  apply (Hnone (class_id e)); [apply (Hkeys _ _ Ht) |].
  rewrite Ha in Hpos. apply count_occ_In in Hpos. exact Hpos.
Qed.

Lemma table_keys :
  (forall c w, In (c, w) class_fragility_table -> In c landuse_classes) /\
  (forall c w, In (c, w) erosion_sensitivity -> In c landuse_classes) /\
  (forall c w, In (c, w) degradation_sensitivity -> In c landuse_classes).
Proof.
  repeat split; intros c w H; simpl in H;
    repeat (destruct H as [[= <- <-] | H]; [simpl; tauto |]); contradiction.
Qed.

Lemma sensitivity_index_bounds (table : list (Z * Q)) (hi : Q) (data : list Z) :
  (forall c w, In (c, w) table -> 0 <= w <= hi) -> 0 <= hi ->
  exists r, sensitivity_index table (Some data) = Some r /\ 0 <= index_of r <= hi /\
            (present_classes table data = [] -> index_of r == 0).
Proof.
  intros Hw Hhi. unfold sensitivity_index.
  destruct (total_of (present_classes table data) =? 0)%nat eqn:E.
  - eexists. split; [reflexivity |]. cbn [index_of].
    split; [split; [apply Qle_refl | exact Hhi] | reflexivity].
  - apply Nat.eqb_neq in E. eexists. split; [reflexivity |]. cbn [index_of].
    rewrite product_fold, Qplus_0_l. split.
    + apply weighted_mean_bounds; [| lia].
      intros e He. apply (Hw (class_id e)). apply (@present_entry _ _ _ He).
    + intros Hnil. rewrite Hnil in E. exfalso. apply E. reflexivity.
Qed.

Lemma fragility_index_bounds (data : list Z) :
  exists r, calculate_fragility_index (Some data) = Some r /\
            0 <= index_of r <= 0.9 /\
            ((0 < total_of (present_classes class_fragility_table data))%nat ->
             0.1 <= index_of r) /\
            (present_classes class_fragility_table data = [] -> index_of r == 0).
Proof.
  unfold calculate_fragility_index.
  destruct (total_of (present_classes class_fragility_table data) =? 0)%nat eqn:E.
  - apply Nat.eqb_eq in E. eexists. split; [reflexivity |]. cbn [index_of].
    split; [split; discriminate |]. split; [intros H; lia | reflexivity].
  - apply Nat.eqb_neq in E. eexists. split; [reflexivity |]. cbn [index_of].
    assert (Hpos : (0 < total_of (present_classes class_fragility_table data))%nat) by lia.
    assert (HT : ~ QofN (total_of (present_classes class_fragility_table data)) == 0).
    { intros Z0. apply QofN_pos in Hpos. rewrite Z0 in Hpos. discriminate Hpos. }
    rewrite (@proportion_fold _ _ HT), Qplus_0_l.
    assert (B : 0.1 <= weighted_total (present_classes class_fragility_table data)
                       / QofN (total_of (present_classes class_fragility_table data))
                <= 0.9).
    { apply weighted_mean_bounds; [| exact Hpos].
      intros e He. apply (@fragility_weights (class_id e)).
      apply (@present_entry _ _ _ He). }
    destruct B as [B1 B2]. split; [split; [| exact B2] |].
    + eapply Qle_trans; [| exact B1]. discriminate.
    + split; [intros _; exact B1 |].
      intros Hnil. rewrite Hnil in E. exfalso. apply E. reflexivity.
Qed.

(** X15: the three weighted stress indices stay within the range of their
    weight tables for every loaded raster: fragility in [0, 0.9] (and at
    least 0.1 as soon as one pixel carries a table class), soil erosion in
    [0, 0.9], land degradation in [0, 1].  A raster without any table
    class gives 0 for all three, without a division. *)
Theorem stress_indices_are_bounded (data : list Z) :
  exists f e d,
    calculate_fragility_index (Some data) = Some f /\
    calculate_soil_erosion_index (Some data) = Some e /\
    calculate_land_degradation_index (Some data) = Some d /\
    0 <= index_of f <= 0.9 /\ 0 <= index_of e <= 0.9 /\ 0 <= index_of d <= 1 /\
    ((exists c, In c landuse_classes /\ In c data) -> 0.1 <= index_of f) /\
    ((forall c, In c landuse_classes -> ~ In c data) ->
     index_of f == 0 /\ index_of e == 0 /\ index_of d == 0).
Proof.
  destruct (fragility_index_bounds data) as (f & Ef & Bf & Lf & Zf).
  destruct (@sensitivity_index_bounds erosion_sensitivity 0.9 data
              erosion_weights) as (e & Ee & Be & Ze); [discriminate |].
  destruct (@sensitivity_index_bounds degradation_sensitivity 1 data
              degradation_weights) as (d & Ed & Bd & Zd); [discriminate |].
  destruct table_keys as (K1 & K2 & K3).
  exists f, e, d.
  split; [exact Ef |]. split; [exact Ee |]. split; [exact Ed |].
  split; [exact Bf |]. split; [exact Be |]. split; [exact Bd |]. split.
  - intros (c & Hc & Hd). apply Lf.
    assert (exists w, In (c, w) class_fragility_table) as [w Hw].
    { simpl in Hc. unfold class_fragility_table.
      repeat (destruct Hc as [<- | Hc]; [eexists; simpl; tauto |]). contradiction. }
    apply (@present_total_positive _ _ _ _ Hw Hd).
  - intros Hnone. split; [| split].
    + apply Zf. apply no_class_no_entry; assumption.
    + apply Ze. apply no_class_no_entry; assumption.
    + apply Zd. apply no_class_no_entry; assumption.
Qed.

(** ** The two area ratios *)

Lemma counted_classes_le (data : list Z) :
  (count_equal data 1 + count_equal data 5 + count_equal data 6 <= valid_area data)%nat.
Proof.
  unfold count_equal, valid_area, valid_data_mask.
  induction data as [| v l IH]; [apply Nat.le_refl |].
  cbn [map]. unfold NumPy.count_true in *. cbn [filter].
  simpl count_occ.
  destruct (negb (v =? sentinel)%Z) eqn:Ev; cbn [length];
    destruct (Z.eq_dec v 1), (Z.eq_dec v 5), (Z.eq_dec v 6); subst;
    try discriminate; try (cbv in Ev; discriminate Ev); lia.
Qed.

Lemma development_area_value (data : list Z) :
  fold_left (fun acc class_id =>
               let area := count_equal data class_id in
               if (0 <? area)%nat then (acc + area)%nat else acc)
            development_classes 0%nat
  = (count_equal data 1 + count_equal data 5)%nat.
Proof.
  unfold development_classes. cbn [fold_left]. cbv zeta.
  destruct (0 <? count_equal data 1)%nat eqn:E1;
    destruct (0 <? count_equal data 5)%nat eqn:E5;
    try apply Nat.ltb_ge in E1; try apply Nat.ltb_ge in E5; lia.
Qed.

Lemma ratio_bounds (x T : nat) :
  (0 < T)%nat -> 0 <= QofN x / QofN T * 100.
Proof.
  intros HT. apply Qmult_le_0_compat; [| discriminate].
  apply Qle_shift_div_l; [apply QofN_pos; exact HT |].
  rewrite Qmult_0_l. apply (QofN_le (Nat.le_0_l x)).
Qed.

(** X16: the unused-land ratio and the development ratio (cropland plus
    built-up land) are percentages of the same valid area: both are at
    least 0 and together they never exceed 100; for a raster without valid
    pixels both are 0 and nothing is divided. *)
Theorem unused_and_development_ratios (data : list Z) :
  exists u d,
    calculate_unused_land_ratio (Some data) = Some u /\
    calculate_development_ratio (Some data) = Some d /\
    0 <= ratio_of u /\ 0 <= ratio_of d /\ ratio_of u + ratio_of d <= 100 /\
    (valid_area data = 0%nat -> u = NoValidArea 0 /\ d = NoValidArea 0).
Proof.
  unfold calculate_unused_land_ratio, calculate_development_ratio.
  rewrite development_area_value. unfold unused_land_classes. cbn [fold_left].
  pose proof (counted_classes_le data) as Hle.
  destruct (valid_area data =? 0)%nat eqn:E.
  - do 2 eexists. do 2 (split; [reflexivity |]). cbn [ratio_of].
    repeat split; discriminate.
  - apply Nat.eqb_neq in E.
    assert (HT : (0 < valid_area data)%nat) by lia.
    do 2 eexists. do 2 (split; [reflexivity |]). cbn [ratio_of].
    split; [apply ratio_bounds; exact HT |].
    split; [apply ratio_bounds; exact HT |].
    split; [| intros Z0; lia].
    pose proof (QofN_pos HT) as HTq.
    setoid_replace (QofN (0 + count_equal data 6) / QofN (valid_area data) * 100
                    + QofN (count_equal data 1 + count_equal data 5)
                      / QofN (valid_area data) * 100)
      with (QofN (0 + count_equal data 6 + (count_equal data 1 + count_equal data 5))
            / QofN (valid_area data) * 100).
    + setoid_replace 100 with (1 * 100) at 2 by reflexivity.
      apply Qmult_le_compat_r; [| discriminate].
      apply Qle_shift_div_r; [exact HTq |]. rewrite Qmult_1_l.
      apply QofN_le. lia.
    + rewrite (QofN_add (0 + count_equal data 6)). field.
      intros Z0. rewrite Z0 in HTq. discriminate HTq.
Qed.
(** ** A raster of one class *)

Ltac single_present H data :=
  pose proof (DiversityFacts.single_class_counted H) as Hn;
  pose proof (fun k => @DiversityFacts.other_class_absent data _ k H) as Z0;
  destruct H as (c_in_table & _ & _);
  apply Nat.ltb_lt in Hn;
  unfold present_classes, class_fragility_table, erosion_sensitivity,
    degradation_sensitivity;
  cbn [map fst snd]; unfold landuse_classes in *; simpl in c_in_table;
  repeat (destruct c_in_table as [<- | c_in_table]); [ .. | contradiction ];
  repeat match goal with
         | |- context [count_equal data ?k] =>
             rewrite (Z0 k) by (first [simpl; tauto | discriminate])
         end;
  cbn [filter area]; rewrite Hn, ?Nat.ltb_irrefl;
  eexists; (split; [reflexivity | simpl; tauto]).

Lemma single_class_present (data : list Z) (c : Z) :
  DiversityFacts.single_class data c ->
  (exists w, present_classes class_fragility_table data
             = [mkEntry c (count_equal data c) w] /\ In (c, w) class_fragility_table) /\
  (exists w, present_classes erosion_sensitivity data
             = [mkEntry c (count_equal data c) w] /\ In (c, w) erosion_sensitivity) /\
  (exists w, present_classes degradation_sensitivity data
             = [mkEntry c (count_equal data c) w] /\ In (c, w) degradation_sensitivity).
Proof.
  intros H. split; [| split].
  - single_present H data.
  - single_present H data.
  - single_present H data.
Qed.

Lemma one_entry_indices (c : Z) (n : nat) (w : Q) :
  (0 < n)%nat ->
  fold_left (fun acc info => acc + QofN (area info) / QofN (total_of [mkEntry c n w])
                                   * weight info)
            [mkEntry c n w] 0 == w /\
  fold_left (fun acc info => acc + QofN (area info) * weight info) [mkEntry c n w] 0
    / QofN (total_of [mkEntry c n w]) == w /\
  (total_of [mkEntry c n w] =? 0)%nat = false.
Proof.
  intros Hn. unfold total_of. cbn [map area weight fold_left].
  change (list_sum [n]) with (n + 0)%nat. rewrite Nat.add_0_r.
  assert (Hq : ~ QofN n == 0).
  { intros Z0. apply QofN_pos in Hn. rewrite Z0 in Hn. discriminate Hn. }
  split; [field; exact Hq |]. split; [field; exact Hq |].
  apply Nat.eqb_neq. lia.
Qed.

(** X17: for a raster in which one table class occurs and every other pixel
    is unclassified, each of the three weighted stress indices is exactly
    the weight its table gives that class (for example 0.1 for a raster of
    forest only). *)
Theorem single_class_stress_indices (data : list Z) (c : Z) :
  DiversityFacts.single_class data c ->
  exists f e d wf we wd,
    In (c, wf) class_fragility_table /\ In (c, we) erosion_sensitivity /\
    In (c, wd) degradation_sensitivity /\
    calculate_fragility_index (Some data) = Some f /\ index_of f == wf /\
    calculate_soil_erosion_index (Some data) = Some e /\ index_of e == we /\
    calculate_land_degradation_index (Some data) = Some d /\ index_of d == wd.
Proof.
  intros H.
  pose proof (DiversityFacts.single_class_counted H) as Hn.
  destruct (single_class_present H) as ((wf & Pf & If) & (we & Pe & Ie) & (wd & Pd & Id)).
  unfold calculate_fragility_index, calculate_soil_erosion_index,
    calculate_land_degradation_index, sensitivity_index.
  rewrite Pf, Pe, Pd.
  destruct (@one_entry_indices c _ wf Hn) as (F1 & _ & T).
  destruct (@one_entry_indices c _ we Hn) as (_ & E2 & _).
  destruct (@one_entry_indices c _ wd Hn) as (_ & D2 & _).
  assert (Te : (total_of [mkEntry c (count_equal data c) we] =? 0)%nat = false) by exact T.
  assert (Td : (total_of [mkEntry c (count_equal data c) wd] =? 0)%nat = false) by exact T.
  rewrite T, Te, Td.
  do 3 eexists. exists wf, we, wd.
  split; [exact If |]. split; [exact Ie |]. split; [exact Id |].
  split; [reflexivity |]. split; [exact F1 |].
  split; [reflexivity |]. split; [exact E2 |].
  split; [reflexivity | exact D2].
Qed.

Lemma single_class_stress_indices_witness :
  exists f e d wf we wd,
    In (2%Z, wf) class_fragility_table /\ In (2%Z, we) erosion_sensitivity /\
    In (2%Z, wd) degradation_sensitivity /\
    calculate_fragility_index (Some [2; 2; sentinel; 2]%Z) = Some f /\ index_of f == wf /\
    calculate_soil_erosion_index (Some [2; 2; sentinel; 2]%Z) = Some e /\ index_of e == we /\
    calculate_land_degradation_index (Some [2; 2; sentinel; 2]%Z) = Some d /\
    index_of d == wd.
Proof.
  apply (@single_class_stress_indices [2; 2; sentinel; 2]%Z 2%Z).
  split; [simpl; tauto |]. split; [simpl; tauto |].
  intros v [<- | [<- | [<- | [<- | []]]]];
    first [left; reflexivity | right; simpl; intuition discriminate].
Defined.

End StressIndexProperties.

(* ================================================================== *)
(** * The orchestrator jobs: what a run writes *)
(* ================================================================== *)

Module JobProperties.
Import NumPy Django Models Orchestrator ProcessedImageFacts.
Local Open Scope string_scope.

(** ** Tables only grow *)

(** [after] holds the rows of [before], in place, and maybe more. *)
Definition extends (before after : list row) : Prop :=
  exists added, after = (before ++ added)%list.

Lemma extends_refl l : extends l l.
Proof. exists []. symmetry. apply app_nil_r. Qed.

Lemma extends_trans l1 l2 l3 : extends l1 l2 -> extends l2 l3 -> extends l1 l3.
Proof. intros [a ->] [b ->]. exists (a ++ b)%list. symmetry. apply app_assoc. Qed.

Lemma extends_add l (r : row) : extends l (l ++ [r])%list.
Proof. exists [r]. reflexivity. Qed.

(** What a step may do to the database: append index rows and RSEI result
    rows, and nothing else. *)
Definition appends_results (db db' : DB) : Prop :=
  extends (ecological_indices db) (ecological_indices db') /\
  extends (rsei_results db) (rsei_results db') /\
  remote_sensing_images db' = remote_sensing_images db /\
  processing_tasks db' = processing_tasks db.

Lemma appends_results_refl db : appends_results db db.
Proof. repeat split; apply extends_refl. Qed.

Lemma appends_results_trans db1 db2 db3 :
  appends_results db1 db2 -> appends_results db2 db3 -> appends_results db1 db3.
Proof.
  intros (A1 & A2 & A3 & A4) (B1 & B2 & B3 & B4). repeat split.
  - eapply extends_trans; eassumption.
  - eapply extends_trans; eassumption.
  - congruence.
  - congruence.
Qed.

Lemma add_index_appends db r : appends_results db (add_index db r).
Proof.
  repeat split; cbn [add_index ecological_indices rsei_results];
    [apply extends_add | apply extends_refl].
Qed.

Lemma add_rsei_result_appends db r : appends_results db (add_rsei_result db r).
Proof.
  repeat split; cbn [add_rsei_result ecological_indices rsei_results];
    [apply extends_refl | apply extends_add].
Qed.

Lemma index_step_appends calculator bands image_id state index_type :
  appends_results (fst state)
    (fst (index_step calculator bands image_id state index_type)).
Proof.
  destruct state as [db d]. unfold index_step.
  destruct (dispatch bands index_type) as [[index_data |] |];
    try apply appends_results_refl.
  destruct (objects_create _ _ _ _);
    [apply add_index_appends | apply appends_results_refl].
Qed.

Lemma loop_appends calculator bands image_id indices_list : forall state,
  appends_results (fst state)
    (fst (fold_left (index_step calculator bands image_id) indices_list state)).
Proof.
  induction indices_list as [| t l IH]; intros state; [apply appends_results_refl |].
  cbn [fold_left]. eapply appends_results_trans; [apply index_step_appends | apply IH].
Qed.

Lemma rsei_step_appends calculator bands image_id state :
  appends_results (fst state) (rsei_step calculator bands image_id state).
Proof.
  destruct state as [db d]. unfold rsei_step. cbn [fst].
  destruct (forallb _ _); [| apply appends_results_refl].
  destruct (EngineA.calculate_rsei _ _); [| apply appends_results_refl].
  destruct (objects_create EcologicalIndex _ _ _); [| apply appends_results_refl].
  destruct (rsei_result_kwargs _ _ _ _); [| apply add_index_appends].
  destruct (objects_create RSEIResult _ _ _); [| apply add_index_appends].
  eapply appends_results_trans; [apply add_index_appends | apply add_rsei_result_appends].
Qed.

(** What a whole job may do: append results, rewrite image rows in place,
    and add at most one task row. *)
Definition grows (db db' : DB) : Prop :=
  extends (ecological_indices db) (ecological_indices db') /\
  extends (rsei_results db) (rsei_results db') /\
  length (remote_sensing_images db') = length (remote_sensing_images db) /\
  (length (processing_tasks db) <= length (processing_tasks db')
   <= S (length (processing_tasks db)))%nat.

Lemma save_length m instance table : length (save m instance table) = length table.
Proof. unfold save. apply length_map. Qed.

(** The loop and the RSEI block together, from the state after the task
    row was added. *)
Lemma results_append calculator bands image_id indices_list db :
  appends_results db
    (rsei_step calculator bands image_id
       (fold_left (index_step calculator bands image_id) indices_list (db, []))).
Proof.
  eapply appends_results_trans; [| apply rsei_step_appends].
  apply (@loop_appends calculator bands image_id indices_list (db, [])).
Qed.

(** ** The end of a job *)

(** What saving the task, or an [except] clause, may do: rewrite task rows
    and image rows in place. *)
Definition rewrites_in_place (db db' : DB) : Prop :=
  ecological_indices db' = ecological_indices db /\
  rsei_results db' = rsei_results db /\
  length (remote_sensing_images db') = length (remote_sensing_images db) /\
  length (processing_tasks db') = length (processing_tasks db).

Lemma save_task_rewrites TaskModel task db db' :
  save_task TaskModel task db = inl db' ->
  rewrites_in_place db db' /\ remote_sensing_images db' = remote_sensing_images db.
Proof.
  unfold save_task, save_checked.
  destruct (filter _ (datetime_fields TaskModel)); [| discriminate].
  intros [= <-]. unfold rewrites_in_place.
  cbn [ecological_indices rsei_results remote_sensing_images processing_tasks].
  rewrite save_length. repeat split.
Qed.

Lemma except_with_task_rewrites TaskModel task e db :
  rewrites_in_place db (fst (except_with_task TaskModel task e db)) /\
  remote_sensing_images (fst (except_with_task TaskModel task e db))
  = remote_sensing_images db /\
  exists e', snd (except_with_task TaskModel task e db) = inr e'.
Proof.
  unfold except_with_task, fail_task.
  destruct (save_task TaskModel _ db) as [db' | e'] eqn:S; cbn [fst snd].
  - destruct (@save_task_rewrites _ _ _ _ S) as [R I].
    split; [exact R |]. split; [exact I | eexists; reflexivity].
  - split; [repeat split |]. split; [reflexivity | eexists; reflexivity].
Qed.

Lemma fail_image_rewrites image db : rewrites_in_place db (fail_image image db).
Proof.
  unfold rewrites_in_place, fail_image.
  cbn [save_image ecological_indices rsei_results remote_sensing_images
       processing_tasks].
  rewrite save_length. repeat split.
Qed.

Lemma rewrites_in_place_trans db1 db2 db3 :
  rewrites_in_place db1 db2 -> rewrites_in_place db2 db3 -> rewrites_in_place db1 db3.
Proof.
  intros (A1 & A2 & A3 & A4) (B1 & B2 & B3 & B4).
  unfold rewrites_in_place. rewrite B1, B2, B3, B4. repeat split; assumption.
Qed.

Lemma except_with_task_and_image_rewrites TaskModel task image e db :
  rewrites_in_place db (fst (except_with_task_and_image TaskModel task image e db)) /\
  exists e', snd (except_with_task_and_image TaskModel task image e db) = inr e'.
Proof.
  unfold except_with_task_and_image, fail_task.
  destruct (save_task TaskModel _ db) as [db' | e'] eqn:S; cbn [fst snd].
  - destruct (@save_task_rewrites _ _ _ _ S) as [R _].
    split; [| eexists; reflexivity].
    eapply rewrites_in_place_trans; [exact R | apply fail_image_rewrites].
  - split; [repeat split | eexists; reflexivity].
Qed.

Lemma grows_then_rewrites db db1 db2 :
  grows db db1 -> rewrites_in_place db1 db2 -> grows db db2.
Proof.
  intros (A1 & A2 & A3 & A4) (B1 & B2 & B3 & B4).
  unfold grows. rewrite B1, B2, B3, B4. repeat split; assumption || apply A4.
Qed.

Lemma grows_then_appends db db1 db2 :
  grows db db1 -> appends_results db1 db2 -> grows db db2.
Proof.
  intros (A1 & A2 & A3 & A4) (B1 & B2 & B3 & B4).
  unfold grows. rewrite B3, B4.
  split; [eapply extends_trans; eassumption |].
  split; [eapply extends_trans; eassumption |].
  split; assumption.
Qed.

Lemma add_task_grows db task : grows db (add_task db task).
Proof.
  unfold grows.
  cbn [add_task ecological_indices rsei_results remote_sensing_images
       processing_tasks].
  rewrite length_app. cbn [length].
  repeat split; try apply extends_refl; lia.
Qed.

Lemma save_image_rewrites image db : rewrites_in_place db (save_image image db).
Proof.
  unfold rewrites_in_place.
  cbn [save_image ecological_indices rsei_results remote_sensing_images
       processing_tasks].
  rewrite save_length. repeat split.
Qed.

(** X18: neither job ever deletes or reorders a row: after a run, however it
    ends, the EcologicalIndex and RSEIResult tables hold their old rows in
    place followed by the new ones, the image table has as many rows as
    before, and at most one task row was added.  The RSEI-only job moreover
    leaves the image table and the RSEIResult table exactly as they were. *)
Theorem jobs_only_add_rows
    (TaskModel : model) (calculator : Calculator) (request_id : string) (now : Q)
    (image_id : string) (indices_list : list string) (db : DB) :
  grows db (fst (calculate_ecological_indices_on TaskModel calculator request_id now
                   image_id indices_list db)) /\
  grows db (fst (calculate_rsei_only_on TaskModel calculator request_id now image_id db)) /\
  remote_sensing_images
    (fst (calculate_rsei_only_on TaskModel calculator request_id now image_id db))
  = remote_sensing_images db /\
  rsei_results
    (fst (calculate_rsei_only_on TaskModel calculator request_id now image_id db))
  = rsei_results db.
Proof.
  assert (R : grows db db).
  { repeat split; try apply extends_refl; lia. }
  split.
  - unfold calculate_ecological_indices_on.
    destruct (objects_get (remote_sensing_images db) (VStr image_id)) as [image | e];
      [| exact R].
    destruct (objects_create TaskModel _ _ _) as [task | e];
      [| cbn [fst]; apply (@grows_then_rewrites _ _ _ R), fail_image_rewrites].
    pose proof (add_task_grows db task) as T.
    destruct (file_bands calculator) as [bands |];
      [| apply (@grows_then_rewrites _ _ _ T), except_with_task_and_image_rewrites].
    cbv zeta.
    pose proof (@grows_then_appends _ _ _ T
                  (results_append calculator bands image_id indices_list
                     (add_task db task))) as T2.
    match goal with
    | |- context [save_task TaskModel ?t ?d] =>
        assert (T3 : grows db d)
          by (apply (@grows_then_rewrites _ _ _ T2), save_image_rewrites);
        destruct (save_task TaskModel t d) as [db4 | e] eqn:S
    end.
    + cbn [fst]. apply (@grows_then_rewrites _ _ _ T3). apply (@save_task_rewrites _ _ _ _ S).
    + apply (@grows_then_rewrites _ _ _ T3), except_with_task_and_image_rewrites.
  - unfold calculate_rsei_only_on.
    destruct (objects_get (remote_sensing_images db) (VStr image_id)) as [image | e];
      [| cbn [fst]; split; [exact R | split; reflexivity]].
    destruct (objects_create TaskModel _ _ _) as [task | e];
      [| cbn [fst]; split; [exact R | split; reflexivity]].
    pose proof (add_task_grows db task) as T.
    assert (F : forall t e db1,
               grows db db1 ->
               remote_sensing_images db1 = remote_sensing_images db ->
               rsei_results db1 = rsei_results db ->
               grows db (fst (except_with_task TaskModel t e db1)) /\
               remote_sensing_images (fst (except_with_task TaskModel t e db1))
               = remote_sensing_images db /\
               rsei_results (fst (except_with_task TaskModel t e db1))
               = rsei_results db).
    { intros t e db1 G1 I1 R1.
      destruct (except_with_task_rewrites TaskModel t e db1) as (W & I & _).
      split; [apply (@grows_then_rewrites _ _ _ G1 W) |].
      split; [congruence |]. destruct W as (_ & W2 & _). congruence. }
    destruct (file_bands calculator) as [bands |];
      [| apply (F _ _ _ T); reflexivity].
    destruct (EngineA.calculate_rsei _ _) as [rsei_result |];
      [| apply (F _ _ _ T); reflexivity].
    destruct (objects_create EcologicalIndex _ _ _) as [rsei_index | e];
      [| apply (F _ _ _ T); reflexivity].
    cbv zeta.
    pose proof (@grows_then_appends _ _ _ T (add_index_appends (add_task db task) rsei_index))
      as T2.
    match goal with
    | |- context [save_task TaskModel ?t ?d] =>
        destruct (save_task TaskModel t d) as [db4 | e] eqn:S
    end.
    + cbn [fst]. destruct (@save_task_rewrites _ _ _ _ S) as [W I].
      split; [apply (@grows_then_rewrites _ _ _ T2 W) |].
      split; [rewrite I; reflexivity |].
      destruct W as (_ & W2 & _). rewrite W2. reflexivity.
    + apply (F _ _ _ T2); reflexivity.
Qed.

(** ** One row per image and index type *)











(** ** A second run for index types that already have their row *)







(** ** What a run reports, and when an RSEI result is stored *)

(** The index types the loop has a branch for. *)
Definition supported_types : list string :=
  ["ndvi"; "ndwi"; "ndbi"; "ndsi"; "wetness"; "dryness"; "heat"; "greenness"].

Lemma dispatch_supported bands t x :
  dispatch bands t = Some x -> In t supported_types.
Proof.
  unfold dispatch, supported_types.
  repeat match goal with
         | |- context [String.eqb t ?s] =>
             destruct (String.eqb_spec t s) as [-> | _]; [intros _; simpl; tauto |]
         end.
  discriminate.
Qed.

Lemma dict_set_NoDup (d : index_dict) key v :
  NoDup (map fst d) -> NoDup (map fst (dict_set d key v)).
Proof.
  induction d as [| [k w] d IH]; simpl; intros N.
  - constructor; [intros [] | constructor].
  - inversion N as [| ? ? Hk Hd]; subst.
    destruct (String.eqb_spec k key) as [-> | Hne]; simpl.
    + constructor; assumption.
    + constructor; [| apply IH; exact Hd].
      intros Hin. apply In_dict_set in Hin. destruct Hin as [-> | Hin]; auto.
Qed.

(** The keys of [calculated_indices] are distinct, were requested, and are
    supported index types. *)
Definition reported (indices_list : list string) (d : index_dict) : Prop :=
  NoDup (map fst d) /\
  forall t, In t (map fst d) -> In t indices_list /\ In t supported_types.

Lemma index_step_reported calculator bands image_id state index_type l :
  reported l (snd state) ->
  reported (index_type :: l)
    (snd (index_step calculator bands image_id state index_type)).
Proof.
  destruct state as [db d]. unfold index_step. cbn [snd]. intros [N S].
  assert (W : reported (index_type :: l) d).
  { split; [exact N |]. intros t Ht. destruct (S t Ht). split; [right |]; assumption. }
  destruct (dispatch bands index_type) as [[index_data |] |] eqn:D; try exact W.
  destruct (objects_create _ _ _ _); [| exact W].
  cbn [snd]. split; [apply dict_set_NoDup; exact N |].
  intros t Ht. apply In_dict_set in Ht. destruct Ht as [-> | Ht].
  - split; [left; reflexivity | apply (dispatch_supported _ _ D)].
  - destruct (S t Ht). split; [right |]; assumption.
Qed.

Lemma loop_reported calculator bands image_id indices_list : forall state l,
  reported l (snd state) ->
  (forall t, In t l -> In t (l ++ indices_list)%list) ->
  reported (rev indices_list ++ l)%list
    (snd (fold_left (index_step calculator bands image_id) indices_list state)).
Proof.
  induction indices_list as [| t ts IH]; intros state l R _; [exact R |].
  cbn [fold_left rev]. rewrite <- app_assoc. cbn [app].
  apply IH; [apply index_step_reported; exact R |].
  intros t' Ht'. apply in_or_app. left. exact Ht'.
Qed.

(** The dict [calculated_indices] after the loop over [indices_list]. *)
Definition loop_dict (calculator : Calculator) (bands : list raster) (image_id : string)
    (indices_list : list string) (db : DB) : index_dict :=
  snd (fold_left (index_step calculator bands image_id) indices_list (db, [])).

Lemma loop_dict_reported calculator bands image_id indices_list db :
  NoDup (map fst (loop_dict calculator bands image_id indices_list db)) /\
  (forall t, In t (map fst (loop_dict calculator bands image_id indices_list db)) ->
             In t indices_list /\ In t supported_types /\ t <> "rsei") /\
  (length (loop_dict calculator bands image_id indices_list db)
   <= length indices_list)%nat.
Proof.
  unfold loop_dict.
  assert (R0 : reported [] (snd (db, @nil (string * row)))).
  { split; [constructor | intros t []]. }
  pose proof (@loop_reported calculator bands image_id indices_list
                (db, []) [] R0 (fun t F => match F with end)) as [N S].
  assert (S' : forall t,
             In t (map fst (snd (fold_left (index_step calculator bands image_id)
                                    indices_list (db, [])))) ->
             In t indices_list /\ In t supported_types).
  { intros t Ht. destruct (S t Ht) as [H1 H2]. split; [| exact H2].
    rewrite app_nil_r in H1. apply in_rev. exact H1. }
  split; [exact N |]. split.
  - intros t Ht. destruct (S' t Ht) as [H1 H2]. repeat split; try assumption.
    intros ->. simpl in H2. intuition discriminate.
  - rewrite <- (length_map fst).
    apply NoDup_incl_length; [exact N |]. intros t Ht. apply (S' t Ht).
Qed.

(** X21: the dict [calculated_indices] that the loop of the index job builds,
    from any database and for any band stack, has no repeated key (also when
    an index type is requested twice), and its keys are requested index
    types that the loop supports: 'rsei', although a valid choice of the
    API, is never among them.  Its keys and its size are what the job
    returns as 'calculated_indices' and in its message when it returns. *)
Theorem calculated_indices_are_distinct_and_supported
    (TaskModel : model) (calculator : Calculator) (request_id : string) (now : Q)
    (image_id : string) (indices_list : list string) (db : DB) :
  (forall bands db0,
      NoDup (map fst (loop_dict calculator bands image_id indices_list db0)) /\
      (forall t, In t (map fst (loop_dict calculator bands image_id indices_list db0)) ->
                 In t indices_list /\ In t supported_types /\ t <> "rsei") /\
      (length (loop_dict calculator bands image_id indices_list db0)
       <= length indices_list)%nat) /\
  (forall ret,
      snd (calculate_ecological_indices_on TaskModel calculator request_id now
             image_id indices_list db) = inl ret ->
      exists bands db0,
        file_bands calculator = Some bands /\
        calculated_indices ret
        = map fst (loop_dict calculator bands image_id indices_list db0) /\
        calculated_count ret
        = length (loop_dict calculator bands image_id indices_list db0)).
Proof.
  split; [intros bands db0; apply loop_dict_reported |].
  unfold calculate_ecological_indices_on.
  destruct (objects_get _ _) as [image | e]; [| intros ret E; discriminate E].
  destruct (objects_create TaskModel _ _ _) as [task | e];
    [| intros ret E; discriminate E].
  destruct (file_bands calculator) as [bands |].
  2:{ intros ret E.
      destruct (except_with_task_and_image_rewrites TaskModel task image
                  (Exception "无法加载遥感影像") (add_task db task)) as (_ & (e' & E')).
      rewrite E' in E. discriminate E. }
  cbv zeta.
  match goal with
  | |- context [save_task TaskModel ?t ?d] =>
      destruct (save_task TaskModel t d) as [db4 | e] eqn:S
  end.
  - intros ret [= <-]. exists bands, (add_task db task).
    split; [reflexivity |]. split; reflexivity.
  - intros ret E.
    match goal with
    | H : snd (except_with_task_and_image TaskModel ?t ?i ?x ?d) = _ |- _ =>
        destruct (except_with_task_and_image_rewrites TaskModel t i x d)
          as (_ & (e' & E'))
    end.
    rewrite E' in E. discriminate E.
Qed.

Lemma dict_has_In (d : index_dict) key : dict_has d key = true -> In key (map fst d).
Proof.
  unfold dict_has. induction d as [| [k w] d IH]; simpl; [discriminate |].
  destruct (String.eqb_spec k key) as [-> | _]; [intros _; left; reflexivity |].
  intros H. right. apply IH. exact H.
Qed.

Lemma rsei_step_result calculator bands image_id db d :
  rsei_results (rsei_step calculator bands image_id (db, d)) <> rsei_results db ->
  (forall c, In c rsei_components -> In c (map fst d)) /\
  index_row_for (rsei_step calculator bands image_id (db, d)) image_id "rsei".
Proof.
  unfold rsei_step.
  destruct (forallb (dict_has d) rsei_components) eqn:F; [| intros H; contradiction H; reflexivity].
  destruct (EngineA.calculate_rsei _ _) as [rsei_result |];
    [| intros H; contradiction H; reflexivity].
  destruct (objects_create EcologicalIndex _ _ _) as [rsei_index | e] eqn:E;
    [| intros H; contradiction H; reflexivity].
  intros _. split.
  - intros c Hc. apply dict_has_In. rewrite forallb_forall in F. apply F. exact Hc.
  - destruct (created_index_row _ _ _ _ _ E) as [H1 H2].
    assert (R : index_row_for (add_index db rsei_index) image_id "rsei").
    { exists rsei_index. split; [| split; assumption].
      cbn [add_index ecological_indices]. apply in_or_app. right. left. reflexivity. }
    destruct (rsei_result_kwargs _ _ _ _); [| exact R].
    destruct (objects_create RSEIResult _ _ _); exact R.
Qed.

Lemma index_step_rsei_results calculator bands image_id state index_type :
  rsei_results (fst (index_step calculator bands image_id state index_type))
  = rsei_results (fst state).
Proof.
  destruct state as [db d]. unfold index_step.
  destruct (dispatch bands index_type) as [[index_data |] |]; try reflexivity.
  destruct (objects_create _ _ _ _); reflexivity.
Qed.

Lemma loop_rsei_results calculator bands image_id indices_list : forall state,
  rsei_results (fst (fold_left (index_step calculator bands image_id) indices_list state))
  = rsei_results (fst state).
Proof.
  induction indices_list as [| t l IH]; intros state; [reflexivity |].
  cbn [fold_left]. rewrite IH. apply index_step_rsei_results.
Qed.

(** X22: the index job stores an RSEIResult row only in a run that was asked
    for all four components (greenness, wetness, dryness, heat) and
    calculated them, and then the image also has its 'rsei' index row. *)
Theorem rsei_result_needs_the_four_components
    (TaskModel : model) (calculator : Calculator) (request_id : string) (now : Q)
    (image_id : string) (indices_list : list string) (db : DB) :
  rsei_results
    (fst (calculate_ecological_indices_on TaskModel calculator request_id now
            image_id indices_list db)) <> rsei_results db ->
  (forall c, In c rsei_components -> In c indices_list) /\
  index_row_for
    (fst (calculate_ecological_indices_on TaskModel calculator request_id now
            image_id indices_list db)) image_id "rsei".
Proof.
  unfold calculate_ecological_indices_on.
  destruct (objects_get _ _) as [image | e]; [| intros H; contradiction H; reflexivity].
  destruct (objects_create TaskModel _ _ _) as [task | e];
    [| intros H; contradiction H; reflexivity].
  destruct (file_bands calculator) as [bands |].
  2:{ destruct (except_with_task_and_image_rewrites TaskModel task image
                  (Exception "无法加载遥感影像") (add_task db task)) as ((_ & E & _) & _).
      intros H. contradiction H. }
  cbv zeta.
  pose proof (@loop_rsei_results calculator bands image_id indices_list
                (add_task db task, [])) as Same.
  assert (R0 : reported [] (snd (add_task db task, @nil (string * row)))).
  { split; [constructor | intros t []]. }
  pose proof (@loop_reported calculator bands image_id indices_list
                (add_task db task, []) [] R0 (fun t F => match F with end)) as [_ S].
  destruct (fold_left (index_step calculator bands image_id) indices_list
                      (add_task db task, [])) as [db1 d].
  cbn [fst snd add_task rsei_results] in Same, S.
  assert (Tail : forall db5 : DB,
             ecological_indices db5
             = ecological_indices (rsei_step calculator bands image_id (db1, d)) ->
             rsei_results db5
             = rsei_results (rsei_step calculator bands image_id (db1, d)) ->
             rsei_results db5 <> rsei_results db ->
             (forall c, In c rsei_components -> In c indices_list) /\
             index_row_for db5 image_id "rsei").
  { intros db5 E1 E2 H. rewrite E2, <- Same in H.
    destruct (@rsei_step_result calculator bands image_id db1 d H) as [Hc Hrow].
    split.
    - intros c Hin. destruct (S c (Hc c Hin)) as [H1 _].
      rewrite app_nil_r in H1. apply in_rev. exact H1.
    - destruct Hrow as (r & Hr & H1 & H2). exists r. split; [| split; assumption].
      rewrite E1. exact Hr. }
  match goal with
  | |- context [save_task TaskModel ?t ?d0] =>
      destruct (save_task TaskModel t d0) as [db4 | e] eqn:Sv
  end.
  - cbn [fst]. destruct (@save_task_rewrites _ _ _ _ Sv) as ((E1 & E2 & _) & _).
    apply Tail; [rewrite E1 | rewrite E2]; reflexivity.
  - match goal with
    | |- context [except_with_task_and_image TaskModel ?t ?i ?x ?d0] =>
        destruct (except_with_task_and_image_rewrites TaskModel t i x d0)
          as ((E1 & E2 & _) & _)
    end.
    apply Tail; [rewrite E1 | rewrite E2]; reflexivity.
Qed.

(** A run for the four components on the sample image, for the task class
    with the field [celery_task_id] declared.  (Under the repository's class
    a run stops at the creation of the task record.)  This run writes the
    four index rows, the 'rsei' row and the RSEIResult row, and then raises
    when the task is saved. *)
Definition components_run : DB * (job_return + exn) :=
  calculate_ecological_indices_on (with_field ProcessingTask "celery_task_id")
    TaskRecordFacts.sample_calculator
    "job-1" 0 "img-1" ["greenness"; "wetness"; "dryness"; "heat"]
    TaskRecordFacts.one_image_db.

Lemma rsei_result_needs_the_four_components_witness :
  snd components_run = inr (DateTimeTypeError "completed_at") /\
  length (rsei_results (fst components_run)) = 1%nat /\
  (forall c, In c rsei_components ->
             In c ["greenness"; "wetness"; "dryness"; "heat"]) /\
  index_row_for (fst components_run) "img-1" "rsei".
Proof.
  split; [vm_compute; reflexivity |].
  split; [vm_compute; reflexivity |].
  apply (@rsei_result_needs_the_four_components
           (with_field ProcessingTask "celery_task_id")
           TaskRecordFacts.sample_calculator "job-1" 0 "img-1"
           ["greenness"; "wetness"; "dryness"; "heat"] TaskRecordFacts.one_image_db).
  vm_compute. discriminate.
Defined.

(** ** The end of a run *)

(** Once [time.time()] has been assigned to [completed_at], a class that
    declares that field as a [DateTimeField] refuses every [task.save()]. *)
Lemma completed_task_not_saved TaskModel task current_step now db :
  In "completed_at" (datetime_fields TaskModel) ->
  (exists e, save_task TaskModel (complete_task task current_step now) db = inr e) /\
  (forall e0, exists e,
      fail_task TaskModel (complete_task task current_step now) e0 db = inr e).
Proof.
  intros Hin.
  assert (G : forall t,
             getattr t "completed_at" = Some (VNum (Fin now)) ->
             exists e, save_task TaskModel t db = inr e).
  { intros t Ht. unfold save_task, save_checked.
    assert (F : In "completed_at"
                  (filter (fun name => match getattr t name with
                                       | Some v => negb (datetime_accepts v)
                                       | None => false
                                       end) (datetime_fields TaskModel))).
    { apply filter_In. split; [exact Hin |]. rewrite Ht. reflexivity. }
    destruct (filter _ (datetime_fields TaskModel)) as [| name names];
      [contradiction | eexists; reflexivity]. }
  split; [apply G; reflexivity |].
  intros e0. unfold fail_task. apply G. reflexivity.
Qed.

(** X23: no run of either job returns when the task class declares
    [completed_at] as a DateTimeField, as the repository's class does: the
    success path assigns [time.time()], a float, to that field, [task.save()]
    raises, and the job ends in an exception (a run that failed earlier ends
    in one anyway).  This holds also for a class that declares the field
    [celery_task_id], with which a run gets past the creation of its task
    record. *)
Theorem jobs_end_in_an_exception
    (TaskModel : model) (calculator : Calculator) (request_id : string) (now : Q)
    (image_id : string) (indices_list : list string) (db : DB) :
  In "completed_at" (datetime_fields TaskModel) ->
  (exists e,
      snd (calculate_ecological_indices_on TaskModel calculator request_id now
             image_id indices_list db) = inr e) /\
  (exists e,
      snd (calculate_rsei_only_on TaskModel calculator request_id now image_id db)
      = inr e).
Proof.
  intros Hin. split.
  - unfold calculate_ecological_indices_on.
    destruct (objects_get _ _) as [image | e]; [| eexists; reflexivity].
    destruct (objects_create TaskModel _ _ _) as [task | e]; [| eexists; reflexivity].
    destruct (file_bands calculator) as [bands |].
    2:{ apply (except_with_task_and_image_rewrites TaskModel task image
                 (Exception "无法加载遥感影像") (add_task db task)). }
    cbv zeta.
    match goal with
    | |- context [save_task TaskModel (complete_task ?t ?s now) ?d] =>
        destruct (@completed_task_not_saved TaskModel t s now d Hin) as [[e E] _];
        rewrite E
    end.
    match goal with
    | |- context [except_with_task_and_image TaskModel ?t ?i ?x ?d] =>
        apply (except_with_task_and_image_rewrites TaskModel t i x d)
    end.
  - unfold calculate_rsei_only_on.
    destruct (objects_get _ _) as [image | e]; [| eexists; reflexivity].
    destruct (objects_create TaskModel _ _ _) as [task | e]; [| eexists; reflexivity].
    assert (F : forall t e d, exists e', snd (except_with_task TaskModel t e d) = inr e').
    { intros t e d. apply (except_with_task_rewrites TaskModel t e d). }
    destruct (file_bands calculator) as [bands |]; [| apply F].
    destruct (EngineA.calculate_rsei _ _) as [rsei_result |]; [| apply F].
    destruct (objects_create EcologicalIndex _ _ _) as [rsei_index | e]; [| apply F].
    cbv zeta.
    match goal with
    | |- context [save_task TaskModel (complete_task ?t ?s now) ?d] =>
        destruct (@completed_task_not_saved TaskModel t s now d Hin) as [[e E] _];
        rewrite E
    end.
    apply F.
Qed.

Lemma jobs_end_in_an_exception_witness :
  (exists e,
      snd (calculate_ecological_indices_on (with_field ProcessingTask "celery_task_id")
             TaskRecordFacts.sample_calculator "job-1" 0 "img-1" ["ndvi"]
             TaskRecordFacts.one_image_db) = inr e) /\
  (exists e,
      snd (calculate_rsei_only_on (with_field ProcessingTask "celery_task_id")
             TaskRecordFacts.sample_calculator "job-1" 0 "img-1"
             TaskRecordFacts.one_image_db) = inr e).
Proof.
  apply jobs_end_in_an_exception.
  right. right. left. reflexivity.
Defined.

(** ** The RSEI-only job *)

(** The job added no index row, or one row of type 'rsei' for the image. *)
Definition at_most_one_rsei_row (image_id : string) (db db' : DB) : Prop :=
  ecological_indices db' = ecological_indices db \/
  exists r, ecological_indices db' = (ecological_indices db ++ [r])%list /\
            has_value r "index_type" (VStr "rsei") = true /\
            has_value r "remote_sensing_image" (VStr image_id) = true.

(** X24: whatever its outcome, the RSEI-only job adds at most one
    EcologicalIndex row, and that row is of type 'rsei' for the requested
    image; a run that returns has added exactly that row.  The job stores
    no RSEIResult row and leaves the image rows as they were: unlike the
    index job it never marks an image processed. *)
Theorem rsei_only_adds_at_most_one_rsei_row
    (TaskModel : model) (calculator : Calculator) (request_id : string) (now : Q)
    (image_id : string) (db : DB) :
  at_most_one_rsei_row image_id db
    (fst (calculate_rsei_only_on TaskModel calculator request_id now image_id db)) /\
  (forall ret,
      snd (calculate_rsei_only_on TaskModel calculator request_id now image_id db)
      = inl ret ->
      exists r,
        ecological_indices
          (fst (calculate_rsei_only_on TaskModel calculator request_id now image_id db))
        = (ecological_indices db ++ [r])%list /\
        has_value r "index_type" (VStr "rsei") = true /\
        has_value r "remote_sensing_image" (VStr image_id) = true) /\
  rsei_results
    (fst (calculate_rsei_only_on TaskModel calculator request_id now image_id db))
  = rsei_results db /\
  remote_sensing_images
    (fst (calculate_rsei_only_on TaskModel calculator request_id now image_id db))
  = remote_sensing_images db.
Proof.
  unfold calculate_rsei_only_on.
  assert (A0 : at_most_one_rsei_row image_id db db) by (left; reflexivity).
  destruct (objects_get _ _) as [image | e].
  2:{ cbn [fst snd]. split; [exact A0 |]. split; [intros ret E; discriminate E |].
      split; reflexivity. }
  destruct (objects_create TaskModel _ _ _) as [task | e].
  2:{ cbn [fst snd]. split; [exact A0 |]. split; [intros ret E; discriminate E |].
      split; reflexivity. }
  assert (F : forall t e db1,
             at_most_one_rsei_row image_id db db1 ->
             rsei_results db1 = rsei_results db ->
             remote_sensing_images db1 = remote_sensing_images db ->
             at_most_one_rsei_row image_id db
               (fst (except_with_task TaskModel t e db1)) /\
             (forall ret,
                 snd (except_with_task TaskModel t e db1) = inl ret ->
                 exists r,
                   ecological_indices (fst (except_with_task TaskModel t e db1))
                   = (ecological_indices db ++ [r])%list /\
                   has_value r "index_type" (VStr "rsei") = true /\
                   has_value r "remote_sensing_image" (VStr image_id) = true) /\
             rsei_results (fst (except_with_task TaskModel t e db1)) = rsei_results db /\
             remote_sensing_images (fst (except_with_task TaskModel t e db1))
             = remote_sensing_images db).
  { intros t e db1 A R I.
    destruct (except_with_task_rewrites TaskModel t e db1)
      as ((E1 & E2 & _) & E3 & (e' & E')).
    split; [unfold at_most_one_rsei_row in *; rewrite E1; exact A |].
    split; [intros ret Hret; rewrite E' in Hret; discriminate Hret |].
    split; congruence. }
  assert (A1 : at_most_one_rsei_row image_id db (add_task db task))
    by (left; reflexivity).
  destruct (file_bands calculator) as [bands |]; [| apply F; [exact A1 | |]; reflexivity].
  destruct (EngineA.calculate_rsei _ _) as [rsei_result |];
    [| apply F; [exact A1 | |]; reflexivity].
  destruct (objects_create EcologicalIndex _ _ _) as [rsei_index | e] eqn:E;
    [| apply F; [exact A1 | |]; reflexivity].
  cbv zeta.
  destruct (created_index_row _ _ _ _ _ E) as [H1 H2].
  assert (A2 : at_most_one_rsei_row image_id db (add_index (add_task db task) rsei_index)).
  { right. exists rsei_index. split; [reflexivity |]. split; assumption. }
  match goal with
  | |- context [save_task TaskModel ?t ?d] =>
      destruct (save_task TaskModel t d) as [db4 | e] eqn:S
  end.
  - cbn [fst snd]. destruct (@save_task_rewrites _ _ _ _ S) as ((E1 & E2 & _) & E3).
    split; [unfold at_most_one_rsei_row in *; rewrite E1; exact A2 |].
    split; [| split; [rewrite E2 | rewrite E3]; reflexivity].
    intros ret _. exists rsei_index. rewrite E1.
    split; [reflexivity |]. split; assumption.
  - apply F; [exact A2 | |]; reflexivity.
Qed.




End JobProperties.

(* ================================================================== *)
(** * Login: who gets in *)
(* ================================================================== *)

Module LoginProperties.
Import Accounts.
Local Open Scope string_scope.

(** An active user of the state has these credentials. *)
Definition credentials_match (st : State) (name pass : string) : Prop :=
  exists u, In u (users st) /\ username u = name /\ password u = pass /\
            user_is_active u = true.

Lemma authenticate_some (st : State) name pass :
  (exists u, authenticate st name pass = Some u) <-> credentials_match st name pass.
Proof.
  unfold authenticate, credentials_match. split.
  - intros [u H]. apply find_some in H. destruct H as [Hin H].
    apply andb_true_iff in H. destruct H as [H Ha].
    apply andb_true_iff in H. destruct H as [Hn Hp].
    apply String.eqb_eq in Hn, Hp. exists u. repeat split; assumption.
  - intros (u & Hin & Hn & Hp & Ha).
    destruct (find _ (users st)) as [u' |] eqn:F; [exists u'; reflexivity |].
    exfalso. apply (find_none _ _ F) in Hin.
    rewrite Hn, Hp, Ha, !String.eqb_refl in Hin. discriminate Hin.
Qed.

Lemma authenticate_username (st : State) name pass u :
  authenticate st name pass = Some u -> username u = name.
Proof.
  unfold authenticate. intros H. apply find_some in H. destruct H as [_ H].
  apply andb_true_iff in H. destruct H as [H _].
  apply andb_true_iff in H. destruct H as [Hn _].
  apply String.eqb_eq in Hn. exact Hn.
Qed.

Lemma falsy_false v : falsy v = false <-> exists s, v = Some s /\ s <> "".
Proof.
  unfold falsy. destruct v as [s |].
  - split.
    + intros H. exists s. split; [reflexivity |]. intros ->. discriminate H.
    + intros (s' & [= <-] & Hne). destruct (String.eqb_spec s ""); [contradiction | reflexivity].
  - split; [discriminate | intros (s & E & _); discriminate E].
Qed.

(** X26: login answers 200 exactly when the request carries a non-empty
    username and a non-empty password that are the credentials of an active
    user, and then binds the session to that username; it answers 400
    exactly when the username or the password is missing or empty, whether
    or not a user would match; every answer other than 200 (400 or 401, as
    for a wrong password or a deactivated user) leaves the state untouched. *)
Theorem login_answers (request : Request) (st : State) :
  ((exists message, snd (login request st) = HTTP_200 message) <->
   (exists name pass,
       data_get (data request) "username" = Some name /\ name <> "" /\
       data_get (data request) "password" = Some pass /\ pass <> "" /\
       credentials_match st name pass)) /\
  ((exists error, snd (login request st) = HTTP_400 error) <->
   (falsy (data_get (data request) "username") = true \/
    falsy (data_get (data request) "password") = true)) /\
  (forall message, snd (login request st) = HTTP_200 message ->
     session_user (fst (login request st)) = data_get (data request) "username") /\
  ((forall message, snd (login request st) <> HTTP_200 message) ->
   fst (login request st) = st).
Proof.
  unfold login.
  destruct (falsy (data_get (data request) "username")) eqn:Fu.
  { cbn [orb fst snd]. repeat split.
    - intros [m E]. discriminate E.
    - intros (name & pass & Hn & Hne & _).
      rewrite Hn in Fu. simpl in Fu.
      destruct (String.eqb_spec name ""); [contradiction | discriminate Fu].
    - intros _. left. reflexivity.
    - intros _. eexists. reflexivity.
    - intros m E. discriminate E. }
  destruct (falsy (data_get (data request) "password")) eqn:Fp.
  { cbn [orb fst snd]. repeat split.
    - intros [m E]. discriminate E.
    - intros (name & pass & _ & _ & Hp & Hne & _).
      rewrite Hp in Fp. simpl in Fp.
      destruct (String.eqb_spec pass ""); [contradiction | discriminate Fp].
    - intros _. right. reflexivity.
    - intros _. eexists. reflexivity.
    - intros m E. discriminate E. }
  cbn [orb].
  apply falsy_false in Fu, Fp.
  destruct Fu as (name & -> & Hname). destruct Fp as (pass & -> & Hpass).
  pose proof (authenticate_some st name pass) as A.
  destruct (authenticate st name pass) as [u |] eqn:Au; cbn [fst snd].
  - repeat split.
    + intros _. exists name, pass. repeat split; try assumption.
      apply A. exists u. reflexivity.
    + intros _. eexists. reflexivity.
    + intros [e E]. discriminate E.
    + intros [E | E]; discriminate E.
    + intros m _. cbn [auth_login session_user]. f_equal.
      apply (authenticate_username _ _ _ Au).
    + intros H. exfalso. apply (H "登录成功"). reflexivity.
  - repeat split.
    + intros [m E]. discriminate E.
    + intros (n & p & [= <-] & _ & [= <-] & _ & C).
      apply A in C. destruct C as [u E]. discriminate E.
    + intros [e E]. discriminate E.
    + intros [E | E]; discriminate E.
    + intros m E. discriminate E.
Qed.

End LoginProperties.

(* ================================================================== *)
(** * Land-use statistics and fragmentation *)
(* ================================================================== *)

Module LandUseStructureProperties.
Import LandUse LandUseStructure.

(** ** Class pixels against valid pixels *)

Definition in_classes (classes : list Z) (v : Z) : bool := existsb (Z.eqb v) classes.

Lemma in_classes_spec classes v : in_classes classes v = true <-> In v classes.
Proof.
  unfold in_classes. rewrite existsb_exists. split.
  - intros (c & Hc & E). apply Z.eqb_eq in E. subst. exact Hc.
  - intros H. exists v. split; [exact H | apply Z.eqb_refl].
Qed.

Lemma count_with_class c cs (data : list Z) :
  ~ In c cs ->
  length (filter (in_classes (c :: cs)) data)
  = (count_equal data c + length (filter (in_classes cs) data))%nat.
Proof.
  intros Hc. unfold count_equal.
  induction data as [| v l IH]; [reflexivity |].
  cbn [filter]. simpl count_occ. unfold in_classes at 1. cbn [existsb].
  fold (in_classes cs v).
  destruct (Z.eq_dec v c) as [-> | Hne].
  - rewrite Z.eqb_refl. cbn [orb length].
    assert (in_classes cs c = false) as ->.
    { apply not_true_is_false. rewrite in_classes_spec. exact Hc. }
    fold (in_classes (c :: cs)). rewrite IH. reflexivity.
  - assert ((v =? c)%Z = false) as -> by (apply Z.eqb_neq; exact Hne).
    cbn [orb]. fold (in_classes (c :: cs)).
    destruct (in_classes cs v); cbn [length]; rewrite IH; lia.
Qed.

Lemma class_counts_total (classes : list Z) (data : list Z) :
  NoDup classes ->
  list_sum (map (count_equal data) classes) = length (filter (in_classes classes) data).
Proof.
  induction classes as [| c cs IH]; intros N.
  - simpl. induction data as [| v l IHl]; [reflexivity | exact IHl].
  - inversion N as [| ? ? Hc Hcs]; subst.
    change (list_sum (map (count_equal data) (c :: cs)))
      with (count_equal data c + list_sum (map (count_equal data) cs))%nat.
    rewrite (IH Hcs), count_with_class by exact Hc. reflexivity.
Qed.

Lemma filter_length_le {A} (f g : A -> bool) (l : list A) :
  (forall x, In x l -> f x = true -> g x = true) ->
  (length (filter f l) <= length (filter g l))%nat.
Proof.
  induction l as [| x l IH]; intros H; [apply Nat.le_refl |].
  cbn [filter].
  assert (IH' := IH (fun y Hy => H y (or_intror Hy))).
  destruct (f x) eqn:Fx.
  - rewrite (H x (or_introl eq_refl) Fx). cbn [length]. lia.
  - destruct (g x); cbn [length]; lia.
Qed.

Lemma valid_count (data : list Z) :
  NumPy.count_true (valid_data_mask data)
  = length (filter (fun v => negb (v =? sentinel)%Z) data).
Proof.
  unfold NumPy.count_true, valid_data_mask.
  induction data as [| v l IH]; [reflexivity |].
  cbn [map filter]. destruct (negb (v =? sentinel)%Z); cbn [length]; rewrite IH; reflexivity.
Qed.

Lemma filter_length_total {A} (f : A -> bool) (l : list A) :
  (length (filter f l) <= length l)%nat.
Proof.
  induction l as [| x l IH]; [apply Nat.le_refl |].
  cbn [filter length]. destruct (f x); cbn [length]; lia.
Qed.

(** The 'pixels' entries of the eight classes, added up. *)
Definition class_pixel_sum (s : landuse_statistics) : nat :=
  list_sum (map (fun c => pixels (snd c)) (classes s)).

(** X27: in the land-use statistics the valid pixels are at most the raster
    size, and the pixel counts of the eight classes add up to at most the
    valid pixels; they add up to exactly the valid pixels when every pixel
    that is not the missing-data sentinel carries a class of the table, and
    fall short of them as soon as one valid pixel carries an unknown class. *)
Theorem class_pixels_within_valid_pixels (geotransform_1 geotransform_5 : Q)
    (data : list Z) :
  exists s,
    get_landuse_statistics geotransform_1 geotransform_5 (Some data) = Some s /\
    total_pixels s = length data /\
    (class_pixel_sum s <= valid_pixels s <= total_pixels s)%nat /\
    ((forall v, In v data -> v = sentinel \/ In v landuse_classes) ->
     class_pixel_sum s = valid_pixels s) /\
    ((exists v, In v data /\ v <> sentinel /\ ~ In v landuse_classes) ->
     (class_pixel_sum s < valid_pixels s)%nat).
Proof.
  eexists. split; [reflexivity |].
  unfold class_pixel_sum.
  cbn [total_pixels valid_pixels classes].
  rewrite map_map. cbn [snd pixels fst].
  change (map (fun x : Z * Q => count_equal data (fst x)) LandUseStress.class_fragility_table)
    with (map (count_equal data) landuse_classes).
  assert (N : NoDup landuse_classes).
  { unfold landuse_classes. repeat constructor; simpl; intuition discriminate. }
  rewrite (class_counts_total data N), valid_count.
  assert (Sub : forall v, In v data -> in_classes landuse_classes v = true ->
                          negb (v =? sentinel)%Z = true).
  { intros v _ Hv. apply in_classes_spec in Hv. simpl in Hv.
    repeat (destruct Hv as [<- | Hv]; [reflexivity |]). contradiction. }
  split; [reflexivity |]. split; [split |]; [| | split].
  - apply filter_length_le. exact Sub.
  - apply filter_length_total.
  - intros H. apply Nat.le_antisymm; [apply filter_length_le; exact Sub |].
    apply filter_length_le. intros v Hin Hv.
    destruct (H v Hin) as [-> | Hc]; [discriminate Hv | apply in_classes_spec; exact Hc].
  - intros (v & Hin & Hs & Hc).
    clear N. induction data as [| w l IH]; [contradiction |].
    cbn [filter].
    assert (Le : (length (filter (in_classes landuse_classes) l)
                  <= length (filter (fun v => negb (v =? sentinel)%Z) l))%nat).
    { apply filter_length_le. intros x Hx. apply Sub. right. exact Hx. }
    destruct Hin as [-> | Hin].
    + assert (in_classes landuse_classes v = false) as ->.
      { apply not_true_is_false. rewrite in_classes_spec. exact Hc. }
      assert (negb (v =? sentinel)%Z = true) as ->.
      { apply negb_true_iff, Z.eqb_neq. exact Hs. }
      cbn [length]. lia.
    + assert (IH' := IH (fun x Hx => Sub x (or_intror Hx)) Hin).
      pose proof (Sub w (or_introl eq_refl)) as Sw.
      destruct (in_classes landuse_classes w).
      * rewrite (Sw eq_refl). cbn [length]. lia.
      * destruct (negb (w =? sentinel)%Z); cbn [length]; lia.
Qed.

(** ** Fragmentation *)

Local Open Scope R_scope.

Lemma overall_formula (n a : nat) :
  (1 <= n)%nat -> (0 < a)%nat ->
  fragmentation_formula n a a = 1 - / INR n /\ 0 <= 1 - / INR n < 1.
Proof.
  intros Hn Ha. unfold fragmentation_formula.
  assert (Hn' : 1 <= INR n) by (change 1 with (INR 1); apply le_INR; exact Hn).
  assert (Ha' : 0 < INR a) by (apply lt_0_INR; exact Ha).
  replace (INR a / INR a) with 1 by (field; lra).
  rewrite sqrt_1. split; [field; lra |].
  assert (0 < / INR n) by (apply Rinv_0_lt_compat; lra).
  assert (/ INR n <= 1).
  { rewrite <- Rinv_1. apply Rinv_le_contravar; lra. }
  lra.
Qed.

Lemma class_formula (p a T : nat) :
  (1 < p)%nat -> (0 < a)%nat -> (0 < T)%nat ->
  0 <= fragmentation_formula p a T < 1.
Proof.
  intros Hp Ha HT. unfold fragmentation_formula.
  assert (Hp' : 2 <= INR p) by (change 2 with (INR 2); apply le_INR; lia).
  assert (Ha' : 0 < INR a) by (apply lt_0_INR; exact Ha).
  assert (HT' : 0 < INR T) by (apply lt_0_INR; exact HT).
  assert (Hs : 0 < sqrt (INR a / INR T)).
  { apply sqrt_lt_R0. apply Rdiv_lt_0_compat; assumption. }
  set (s := sqrt (INR a / INR T)) in *.
  assert (Hd : 0 < INR p - 1 + s) by lra.
  split.
  - apply Rmult_le_pos; [lra | apply Rlt_le, Rinv_0_lt_compat; exact Hd].
  - apply (Rmult_lt_reg_r (INR p - 1 + s)); [exact Hd |].
    unfold Rdiv. rewrite Rmult_assoc, Rinv_l by lra. lra.
Qed.

Lemma class_within_valid (data : list Z) c :
  c <> sentinel ->
  (NumPy.count_true (class_mask data c) <= NumPy.count_true (valid_data_mask data))%nat.
Proof.
  intros Hc. unfold NumPy.count_true, class_mask, valid_data_mask.
  induction data as [| v l IH]; [apply Nat.le_refl |].
  cbn [map filter].
  destruct (Z.eqb_spec v c) as [-> | Hne].
  - assert ((c =? sentinel)%Z = false) as -> by (apply Z.eqb_neq; exact Hc).
    cbn [negb length]. lia.
  - destruct (negb (v =? sentinel)%Z); cbn [length]; lia.
Qed.

Lemma valid_pixel_counted (data : list Z) :
  (exists v, In v data /\ v <> sentinel) ->
  (0 < NumPy.count_true (valid_data_mask data))%nat.
Proof.
  intros (v & Hin & Hv). rewrite valid_count.
  assert (In v (filter (fun v => negb (v =? sentinel)%Z) data)) as F.
  { apply filter_In. split; [exact Hin |]. apply negb_true_iff, Z.eqb_neq. exact Hv. }
  destruct (filter _ data); [contradiction | cbn [length]; lia].
Qed.

Lemma no_valid_pixel (data : list Z) :
  (forall v, In v data -> v = sentinel) ->
  NumPy.count_true (valid_data_mask data) = 0%nat.
Proof.
  intros H. rewrite valid_count.
  destruct (filter _ data) as [| v l] eqn:E; [reflexivity |].
  assert (In v (filter (fun v => negb (v =? sentinel)%Z) data)) as F
    by (rewrite E; left; reflexivity).
  apply filter_In in F. destruct F as [Hin Hv].
  rewrite (H v Hin) in Hv. discriminate Hv.
Qed.

(** X28: the overall fragmentation index depends on the number of patches
    only.  For a raster without valid pixel it is 0, whatever the labelling
    returns (a labelling of an empty mask returns 0 patches).  For a raster
    with a valid pixel whose mask is labelled into n >= 1 patches it is
    1 - 1/n, a value in [0, 1): the area term of the formula is the square
    root of total/total.  The fragmentation index of every class reported
    lies in [0, 1) for every raster and every labelling. *)
Theorem fragmentation_depends_on_patch_count (label : label_oracle) (data : list Z) :
  exists r,
    calculate_fragmentation_index label (Some data) = Some r /\
    total_patches r = snd (label (valid_data_mask data)) /\
    ((forall v, In v data -> v = sentinel) -> overall_fragmentation r = 0) /\
    ((exists v, In v data /\ v <> sentinel) ->
     (1 <= snd (label (valid_data_mask data)))%nat ->
     overall_fragmentation r = 1 - / INR (snd (label (valid_data_mask data))) /\
     0 <= overall_fragmentation r < 1) /\
    (forall c e, In (c, e) (class_fragmentation r) -> 0 <= fragmentation_index e < 1).
Proof.
  unfold calculate_fragmentation_index.
  destruct (label (valid_data_mask data)) as [labeled_array n] eqn:L.
  eexists. split; [reflexivity |].
  cbn [total_patches overall_fragmentation class_fragmentation snd].
  split; [reflexivity |].
  split; [| split].
  - intros Hv. rewrite (no_valid_pixel _ Hv). reflexivity.
  - intros Hv Hn. apply valid_pixel_counted in Hv.
    assert ((0 <? NumPy.count_true (valid_data_mask data))%nat = true) as ->
      by (apply Nat.ltb_lt; exact Hv).
    rewrite (proj1 (overall_formula Hn Hv)).
    split; [reflexivity | apply (overall_formula Hn Hv)].
  - intros c e Hin. apply in_flat_map in Hin. destruct Hin as (class_id & Hc & Hin).
    destruct (0 <? NumPy.count_true (class_mask data class_id))%nat eqn:E;
      [| contradiction].
    apply Nat.ltb_lt in E.
    destruct (label (class_mask data class_id)) as [labeled_class num_patches].
    destruct Hin as [[= <- <-] | []]. cbn [fragmentation_index].
    destruct (1 <? num_patches)%nat eqn:P; [| lra].
    apply Nat.ltb_lt in P. apply class_formula; [exact P | exact E |].
    assert (class_id <> sentinel) as Hs.
    { intros ->. simpl in Hc. intuition discriminate. }
    pose proof (class_within_valid data Hs). lia.
Qed.

(** A labelling for the samples below: a mask with a pixel set is one patch,
    a mask without has none. *)
Definition one_patch_if_any : label_oracle :=
  fun mask =>
    (map (fun b : bool => if b then 1%nat else 0%nat) mask,
     if existsb (fun b : bool => b) mask then 1%nat else 0%nat).

Lemma fragmentation_depends_on_patch_count_witness :
  (exists r,
      calculate_fragmentation_index one_patch_if_any (Some [1; 2; sentinel; 2]%Z)
      = Some r /\
      total_patches r = 1%nat /\
      overall_fragmentation r = 1 - / INR 1 /\
      0 <= overall_fragmentation r < 1) /\
  (exists r,
      calculate_fragmentation_index one_patch_if_any (Some [sentinel; sentinel]%Z)
      = Some r /\
      total_patches r = 0%nat /\
      overall_fragmentation r = 0).
Proof.
  split.
  - destruct (fragmentation_depends_on_patch_count one_patch_if_any
                [1; 2; sentinel; 2]%Z) as (r & H1 & H2 & _ & H4 & _).
    exists r. split; [exact H1 |]. split; [exact H2 |].
    apply H4.
    + exists 1%Z. split; [left; reflexivity | discriminate].
    + apply Nat.le_refl.
  - destruct (fragmentation_depends_on_patch_count one_patch_if_any
                [sentinel; sentinel]%Z) as (r & H1 & H2 & H3 & _).
    exists r. split; [exact H1 |]. split; [exact H2 |].
    apply H3. intros v [<- | [<- | []]]; reflexivity.
Defined.

End LandUseStructureProperties.
